(** * Cura3.ai diagnosis orchestration: a shallow embedding

    The development follows [backend/app/services/agent_engine.py],
    [backend/app/services/specialist_selector.py],
    [backend/app/services/chat_service.py] and the validation step of
    [backend/app/api/v1/routes/diagnosis.py].

    Python [str] values are lists of code points, remote model calls are
    answered by an oracle and recorded in a log, the construction of a
    model client may fail, as it does when no API key is configured,
    exceptions are values of an error monad, and the thread pool of
    [run_diagnosis] is a slot array filled in an arbitrary completion
    order. *)

From Stdlib Require Import String Ascii List NArith ZArith Bool Lia Floats Permutation.
Import ListNotations.

#[local] Set Warnings "-inexact-float".

(** ** Python strings *)

Module Py.

(** A [str] is a sequence of Unicode code points. *)
Abbreviation char := N (only parsing).
Abbreviation str := (list N) (only parsing).

(** An ASCII literal of the source. *)
Definition lit (s : string) : str :=
    map N_of_ascii (list_ascii_of_string s).

Fixpoint eqb (a b : str) : bool :=
    match a, b with
    | [], [] => true
    | x :: a', y :: b' => N.eqb x y && eqb a' b'
    | _, _ => false
    end.

(** [x in xs] for a list of strings. *)
Definition mem (x : str) (xs : list str) : bool :=
    existsb (eqb x) xs.

(** [s.startswith(prefix)] *)
Fixpoint startswith (prefix s : str) : bool :=
    match prefix, s with
    | [], _ => true
    | p :: prefix', c :: s' => N.eqb p c && startswith prefix' s'
    | _ :: _, [] => false
    end.

(** [s.replace(old, new)]: every non-overlapping occurrence, scanning
    from the left.  [skip] counts the characters of an occurrence that
    was just replaced and are still to be consumed. *)
Fixpoint replace_from (old new s : str) (skip : nat) : str :=
    match s with
    | [] => []
    | c :: s' =>
        match skip with
        | S k => replace_from old new s' k
        | O =>
            if startswith old s
            then new ++ replace_from old new s' (length old - 1)
            else c :: replace_from old new s' 0
        end
    end.

Definition replace (old new s : str) : str :=
    match old with
    | [] => new ++ flat_map (fun c => c :: new) s
    | _ :: _ => replace_from old new s 0
    end.

(** [c.isspace()] for one code point. *)
Definition isspace (c : char) : bool :=
    ((9 <=? c) && (c <=? 13) || (28 <=? c) && (c <=? 32)
     || (c =? 0x85) || (c =? 0xA0) || (c =? 0x1680)
     || (0x2000 <=? c) && (c <=? 0x200A)
     || (c =? 0x2028) || (c =? 0x2029) || (c =? 0x202F)
     || (c =? 0x205F) || (c =? 0x3000))%N.

Fixpoint lstrip (s : str) : str :=
    match s with
    | c :: s' => if isspace c then lstrip s' else s
    | [] => []
    end.

Definition rstrip (s : str) : str := rev (lstrip (rev s)).

(** [s.strip()] *)
Definition strip (s : str) : str := rstrip (lstrip s).

(** [sep.join(parts)] *)
Fixpoint join (sep : str) (parts : list str) : str :=
    match parts with
    | [] => []
    | [p] => p
    | p :: rest => p ++ sep ++ join sep rest
    end.

(** The first occurrence of [sep] in [s]: the text before it and the
    text after it. *)
Fixpoint partition (sep s : str) : option (str * str) :=
    if startswith sep s then Some ([], skipn (length sep) s)
    else match s with
         | [] => None
         | c :: s' =>
             match partition sep s' with
             | Some (before, after) => Some (c :: before, after)
             | None => None
             end
         end.

(** [s.split(sep, 1)] for a non-empty [sep]. *)
Definition split1 (sep s : str) : list str :=
    match partition sep s with
    | Some (before, after) => [before; after]
    | None => [s]
    end.

(** [s.rsplit(sep, 1)] for a non-empty [sep]: the cut is at the last
    occurrence, which is the first one of the mirrored text. *)
Definition rsplit1 (sep s : str) : list str :=
    match partition (rev sep) (rev s) with
    | Some (after, before) => [rev before; rev after]
    | None => [s]
    end.

(** [parts[-1]] and [parts[0]] of a non-empty list. *)
Definition last_item (parts : list str) : str := last parts [].
Definition first_item (parts : list str) : str := hd [] parts.

(** [xs[-n:]] *)
Definition last_n {A} (n : nat) (xs : list A) : list A :=
    skipn (length xs - n) xs.

End Py.

(** ** Exceptions, results and the effect monad *)

(** The detail of the HTTP 400 answer of the diagnosis route is the
    f-string [Invalid specialists: {invalid}. Available: {AVAILABLE_SPECIALISTS}];
    the two interpolated lists are kept as they are. *)
Record InvalidSpecialistsDetail := {
  detail_invalid : list Py.str;
  detail_available : list Py.str
}.

(** The detail of an HTTP error answer: a text, or the two lists of the
    validation step. *)
Inductive HTTPDetail :=
| DetailText (text : Py.str)
| DetailInvalid (lists : InvalidSpecialistsDetail).

(** [OpenAIError] is what the constructor of the client raises, as it
    does when no API key is configured; [RemoteCallError] stands for
    whatever a call of the client raises. *)
Inductive Exn :=
| KeyError (key : Py.str)
| ValueError (message : Py.str)
| TypeError (message : Py.str)
| IndexError (message : Py.str)
| JSONDecodeError (message : Py.str)
| RemoteCallError (message : Py.str)
| OpenAIError (message : Py.str)
| HTTPException (status_code : Z) (detail : HTTPDetail).

(** [str(e)].  Exceptions of a remote call carry their text; the handlers
    of the source only ever format such exceptions. *)
Definition exn_str (e : Exn) : Py.str :=
  match e with
  | KeyError key => Py.lit "'" ++ key ++ Py.lit "'"
  | ValueError m | TypeError m | IndexError m
  | JSONDecodeError m | RemoteCallError m | OpenAIError m => m
  | HTTPException _ _ => []
  end.

Inductive Result (A : Type) :=
| Ok (value : A)
| Raise (e : Exn).
Arguments Ok {A} value.
Arguments Raise {A} e.

(** The options a [ChatOpenAI] client is built with. *)
Record ChatOpenAI := {
  temperature : float;
  model : string
}.

(** Where a remote call is issued from; each specialist worker is told
    apart by its position in the requested list. *)
Inductive CallSite :=
| SpecialistCall (slot : nat)
| TeamCall
| SelectorCall
| ChatCall.

Record Invocation := {
  inv_site : CallSite;
  inv_model : ChatOpenAI;
  inv_prompt : Py.str
}.

(** [response.content] is a string or a list of parts; a part is a dict
    with a [text] entry or anything else, which is then passed to [str]. *)
Inductive Item :=
| ItemText (text : Py.str)
| ItemOther (as_str : Py.str).

Inductive Content :=
| ContentStr (s : Py.str)
| ContentList (items : list Item).

(** What [model.invoke] does: it returns a response or raises. *)
Inductive Response :=
| Returns (content : Content)
| Throws (message : Py.str).

(** The client library in its environment: the answer to a directive
    at a call site, and the message of the [OpenAIError] that the
    constructor of the client raises for given options, if it raises.
    With the settings of [config.py] left at their defaults the API key
    is empty and the constructor raises. *)
Record Port := {
  respond :> CallSite -> Py.str -> Response;
  client_error : ChatOpenAI -> option Py.str
}.

(** What the database answers when a route looks a document up: the
    query raises, as it does for a malformed id, or nothing is found, or
    the document is. *)
Inductive Lookup (A : Type) :=
| LookupRaises
| NotFound
| Found (doc : A).
Arguments LookupRaises {A}.
Arguments NotFound {A}.
Arguments Found {A} doc.

Definition Log := list Invocation.

(** A computation reads and extends the log of remote calls and either
    returns or raises; the log survives a raise. *)
Definition M (A : Type) := Log -> Result A * Log.

Definition ret {A} (a : A) : M A := fun log => (Ok a, log).

Definition raise {A} (e : Exn) : M A := fun log => (Raise e, log).

Definition bind {A B} (m : M A) (k : A -> M B) : M B :=
  fun log =>
    match m log with
    | (Ok a, log') => k a log'
    | (Raise e, log') => (Raise e, log')
    end.

(** [try: body except Exception as e: handler] *)
Definition try_except {A} (body : M A) (handler : Exn -> M A) : M A :=
  fun log =>
    match body log with
    | (Ok a, log') => (Ok a, log')
    | (Raise e, log') => handler e log'
    end.

Definition lift {A} (r : Result A) : M A := fun log => (r, log).

Declare Scope py_scope.
Delimit Scope py_scope with py.
Notation "x <- m ;; k" := (bind m (fun x => k))
  (at level 61, m at next level, right associativity) : py_scope.
Open Scope py_scope.

(** ** Python values decoded from JSON *)

#[local] Unset Elimination Schemes.
Inductive PyVal :=
| PNone
| PBool (b : bool)
| PInt (z : Z)
| PFloat (x : float)
| PStr (s : Py.str)
| PList (elems : list PyVal)
| PDict (entries : list (Py.str * PyVal)).
#[local] Set Elimination Schemes.

(** [for s in value]: a list yields its elements, a dict its keys, a
    string its characters; nothing else is iterable. *)
Definition py_iter (value : PyVal) : Result (list PyVal) :=
  match value with
  | PList elems => Ok elems
  | PDict entries => Ok (map (fun kv => PStr (fst kv)) entries)
  | PStr s => Ok (map (fun c => PStr [c]) s)
  | PNone => Raise (TypeError (Py.lit "'NoneType' object is not iterable"))
  | PBool _ => Raise (TypeError (Py.lit "'bool' object is not iterable"))
  | PInt _ => Raise (TypeError (Py.lit "'int' object is not iterable"))
  | PFloat _ => Raise (TypeError (Py.lit "'float' object is not iterable"))
  end.

(** ** [str.format] *)

Inductive FormatMode :=
| InText
| AfterOpen
| InField (name_rev : Py.str)
| AfterClose.

Definition lbrace : Py.char := 123%N.
Definition rbrace : Py.char := 125%N.

Fixpoint lookup {V} (key : Py.str) (d : list (Py.str * V)) : option V :=
  match d with
  | [] => None
  | (k, v) :: d' => if Py.eqb key k then Some v else lookup key d'
  end.

Definition on_ok {A B} (f : A -> B) (r : Result A) : Result B :=
  match r with
  | Ok a => Ok (f a)
  | Raise e => Raise e
  end.

(** [template.format] with keyword arguments: named fields and doubled
    braces for literal braces.  Conversions, format specifications and
    nested fields are left out: no template of the repository has any. *)
Fixpoint format_from (kwargs : list (Py.str * Py.str)) (template : Py.str)
    (mode : FormatMode) : Result Py.str :=
  match template with
  | [] =>
      match mode with
      | InText => Ok []
      | AfterOpen =>
          Raise (ValueError (Py.lit "Single '{' encountered in format string"))
      | InField _ =>
          Raise (ValueError (Py.lit "expected '}' before end of string"))
      | AfterClose =>
          Raise (ValueError (Py.lit "Single '}' encountered in format string"))
      end
  | c :: rest =>
      match mode with
      | InText =>
          if N.eqb c lbrace then format_from kwargs rest AfterOpen
          else if N.eqb c rbrace then format_from kwargs rest AfterClose
          else on_ok (cons c) (format_from kwargs rest InText)
      | AfterOpen =>
          if N.eqb c lbrace
          then on_ok (cons lbrace) (format_from kwargs rest InText)
          else if N.eqb c rbrace
          then Raise (IndexError
                 (Py.lit "Replacement index 0 out of range for positional args tuple"))
          else format_from kwargs rest (InField [c])
      | InField name_rev =>
          if N.eqb c rbrace
          then match lookup (rev name_rev) kwargs with
               | Some v => on_ok (app v) (format_from kwargs rest InText)
               | None => Raise (KeyError (rev name_rev))
               end
          else format_from kwargs rest (InField (c :: name_rev))
      | AfterClose =>
          if N.eqb c rbrace
          then on_ok (cons rbrace) (format_from kwargs rest InText)
          else Raise (ValueError (Py.lit "Single '}' encountered in format string"))
      end
  end.

Definition format (template : Py.str) (kwargs : list (Py.str * Py.str))
    : Result Py.str :=
  format_from kwargs template InText.

(** ** The analyzer registry ([agent_engine.py]) *)

Record SpecialistDef := {
  display_name : Py.str;
  icon : Py.str;
  prompt : Py.str
}.

Definition Cardiologist_prompt : Py.str :=
  Py.lit "
            Act like a cardiologist. You will receive a medical report of a patient.
            Task: Review the patient's cardiac workup, including ECG, blood tests, Holter monitor results, and echocardiogram.
            Focus: Determine if there are any subtle signs of cardiac issues that could explain the patient's symptoms. Rule out any underlying heart conditions, such as arrhythmias or structural abnormalities, that might be missed on routine testing.
            Recommendation: Provide guidance on any further cardiac testing or monitoring needed to ensure there are no hidden heart-related concerns. Suggest potential management strategies if a cardiac issue is identified.
            Please only return the possible causes of the patient's symptoms and the recommended next steps.
            Medical Report: {medical_report}
        ".

Definition Psychologist_prompt : Py.str :=
  Py.lit "
            Act like a psychologist. You will receive a patient's report.
            Task: Review the patient's report and provide a psychological assessment.
            Focus: Identify any potential mental health issues, such as anxiety, depression, or trauma, that may be affecting the patient's well-being.
            Recommendation: Offer guidance on how to address these mental health concerns, including therapy, counseling, or other interventions.
            Please only return the possible mental health issues and the recommended next steps.
            Patient's Report: {medical_report}
        ".

Definition Pulmonologist_prompt : Py.str :=
  Py.lit "
            Act like a pulmonologist. You will receive a patient's report.
            Task: Review the patient's report and provide a pulmonary assessment.
            Focus: Identify any potential respiratory issues, such as asthma, COPD, or lung infections, that may be affecting the patient's breathing.
            Recommendation: Offer guidance on how to address these respiratory concerns, including pulmonary function tests, imaging studies, or other interventions.
            Please only return the possible respiratory issues and the recommended next steps.
            Patient's Report: {medical_report}
        ".

Definition Neurologist_prompt : Py.str :=
  Py.lit "
            Act like a neurologist. You will receive a patient's medical report.
            Task: Review the patient's neurological symptoms, imaging results, and any relevant test findings.
            Focus: Identify potential neurological conditions such as neuropathy, seizure disorders, migraines, multiple sclerosis, or neurodegenerative diseases (e.g., Alzheimer's, Parkinson's).
            Recommendation: Suggest further neurological testing (EEG, MRI, nerve conduction studies) and management strategies.
            Please only return the possible neurological causes and the recommended next steps.
            Patient's Report: {medical_report}
        ".

Definition Endocrinologist_prompt : Py.str :=
  Py.lit "
            Act like an endocrinologist. You will receive a patient's medical report.
            Task: Review the patient's hormonal profiles, metabolic markers, and endocrine-related symptoms.
            Focus: Identify potential endocrine disorders such as diabetes, thyroid disorders (hypo/hyperthyroidism), adrenal insufficiency, PCOS, or hormonal imbalances.
            Recommendation: Suggest appropriate hormonal panels, imaging, and management strategies.
            Please only return the possible endocrine causes and the recommended next steps.
            Patient's Report: {medical_report}
        ".

Definition Oncologist_prompt : Py.str :=
  Py.lit "
            Act like an oncologist. You will receive a patient's medical report.
            Task: Review the patient's lab results, imaging, biopsy reports, and symptom history for any signs of malignancy.
            Focus: Identify potential neoplastic conditions, assess risk factors, and evaluate any suspicious findings that warrant further investigation for cancer.
            Recommendation: Suggest appropriate screening, biopsy, imaging (CT, PET scan), tumor markers, and referral pathways.
            Please only return the possible oncological concerns and the recommended next steps.
            Patient's Report: {medical_report}
        ".

Definition Dermatologist_prompt : Py.str :=
  Py.lit "
            Act like a dermatologist. You will receive a patient's medical report.
            Task: Review the patient's skin-related symptoms, lesion descriptions, and any relevant history.
            Focus: Identify potential dermatological conditions such as eczema, psoriasis, skin infections, autoimmune skin disorders, or suspicious moles/lesions.
            Recommendation: Suggest further dermatological examination, biopsy if needed, and treatment approaches.
            Please only return the possible dermatological causes and the recommended next steps.
            Patient's Report: {medical_report}
        ".

Definition Gastroenterologist_prompt : Py.str :=
  Py.lit "
            Act like a gastroenterologist. You will receive a patient's medical report.
            Task: Review the patient's gastrointestinal symptoms, lab results, and any imaging or endoscopy findings.
            Focus: Identify potential GI conditions such as IBS, IBD (Crohn's, ulcerative colitis), GERD, celiac disease, liver disorders, or GI malignancies.
            Recommendation: Suggest appropriate testing (endoscopy, colonoscopy, stool tests, imaging) and management strategies.
            Please only return the possible gastrointestinal causes and the recommended next steps.
            Patient's Report: {medical_report}
        ".

Definition Orthopedist_prompt : Py.str :=
  Py.lit "
            Act like an orthopedist. You will receive a patient's medical report.
            Task: Review the patient's musculoskeletal symptoms, imaging results (X-ray, MRI), and physical examination findings.
            Focus: Identify potential orthopedic conditions such as fractures, arthritis, tendon injuries, disc herniation, or degenerative joint diseases.
            Recommendation: Suggest appropriate imaging, physical therapy, surgical consultation if needed, and pain management strategies.
            Please only return the possible musculoskeletal causes and the recommended next steps.
            Patient's Report: {medical_report}
        ".

Definition General_Practitioner_prompt : Py.str :=
  Py.lit "
            Act like a general practitioner / family medicine physician. You will receive a patient's medical report.
            Task: Review the patient's overall health status, vital signs, symptoms, and medical history holistically.
            Focus: Identify common conditions, preventive care needs, and any red flags that require specialist referral. Consider the patient's complete picture including lifestyle factors.
            Recommendation: Suggest initial workup, lifestyle modifications, preventive measures, and appropriate specialist referrals.
            Please only return the possible health concerns and the recommended next steps.
            Patient's Report: {medical_report}
        ".

(** [SPECIALISTS]: a dict in insertion order. *)
Definition SPECIALISTS : list (Py.str * SpecialistDef) :=
  [ (Py.lit "Cardiologist",
     {| display_name := Py.lit "Cardiologist"; icon := Py.lit "heart";
        prompt := Cardiologist_prompt |});
    (Py.lit "Psychologist",
     {| display_name := Py.lit "Psychologist"; icon := Py.lit "brain";
        prompt := Psychologist_prompt |});
    (Py.lit "Pulmonologist",
     {| display_name := Py.lit "Pulmonologist"; icon := Py.lit "lungs";
        prompt := Pulmonologist_prompt |});
    (Py.lit "Neurologist",
     {| display_name := Py.lit "Neurologist"; icon := Py.lit "nerve";
        prompt := Neurologist_prompt |});
    (Py.lit "Endocrinologist",
     {| display_name := Py.lit "Endocrinologist"; icon := Py.lit "hormone";
        prompt := Endocrinologist_prompt |});
    (Py.lit "Oncologist",
     {| display_name := Py.lit "Oncologist"; icon := Py.lit "ribbon";
        prompt := Oncologist_prompt |});
    (Py.lit "Dermatologist",
     {| display_name := Py.lit "Dermatologist"; icon := Py.lit "skin";
        prompt := Dermatologist_prompt |});
    (Py.lit "Gastroenterologist",
     {| display_name := Py.lit "Gastroenterologist"; icon := Py.lit "stomach";
        prompt := Gastroenterologist_prompt |});
    (Py.lit "Orthopedist",
     {| display_name := Py.lit "Orthopedist"; icon := Py.lit "bone";
        prompt := Orthopedist_prompt |});
    (Py.lit "General Practitioner",
     {| display_name := Py.lit "General Practitioner"; icon := Py.lit "stethoscope";
        prompt := General_Practitioner_prompt |}) ].

Definition TEAM_PROMPT_TEMPLATE : Py.str :=
  Py.lit "
Act as a multidisciplinary team of healthcare professionals.
You will receive specialist reports from multiple medical specialists
who each independently analyzed the same patient's medical report.

YOUR TASK:
Analyze all specialist reports and produce a comprehensive final diagnosis report.
Identify the TOP 3 most likely health issues for this patient.

IMPORTANT FORMATTING RULES - you MUST follow this exact structure:
- Use ONLY plain ASCII text. Do NOT use any special characters, unicode, or emojis.
- Do NOT use asterisks (" ++ Py.lit "*), bullet points, or markdown formatting.
- Use simple dashes (-) for any lists.
- Use the EXACT structure shown below.

OUTPUT FORMAT (follow this exactly):

============================================================
                  FINAL DIAGNOSIS REPORT
============================================================

PATIENT OVERVIEW:
[Brief 2-3 sentence summary of the patient's presenting complaints
and key findings across all specialist evaluations.]

------------------------------------------------------------
IDENTIFIED HEALTH ISSUES
------------------------------------------------------------

ISSUE 1: [Name of the condition]
Severity: [Low / Moderate / High / Critical]
Identified By: [Which specialist(s) flagged this]

Reasoning:
[Clear explanation of why this is suspected, referencing specific
findings from the specialist reports. 3-4 sentences.]

Recommended Next Steps:
- [Action item 1]
- [Action item 2]
- [Action item 3]

ISSUE 2: [Name of the condition]
Severity: [Low / Moderate / High / Critical]
Identified By: [Which specialist(s) flagged this]

Reasoning:
[Clear explanation. 3-4 sentences.]

Recommended Next Steps:
- [Action item 1]
- [Action item 2]
- [Action item 3]

ISSUE 3: [Name of the condition]
Severity: [Low / Moderate / High / Critical]
Identified By: [Which specialist(s) flagged this]

Reasoning:
[Clear explanation. 3-4 sentences.]

Recommended Next Steps:
- [Action item 1]
- [Action item 2]
- [Action item 3]

------------------------------------------------------------
PRIORITY RECOMMENDATION
------------------------------------------------------------
[1-2 sentences on which issue should be addressed first and why.]

------------------------------------------------------------
NOTE: This report is generated by AI for research and educational
purposes only. It is NOT a substitute for professional medical
advice, diagnosis, or treatment. Always consult a qualified
healthcare provider for medical decisions.
------------------------------------------------------------

{specialist_reports_section}
".

Definition SELECTOR_PROMPT : Py.str :=
  Py.lit "
You are a medical triage AI. You will receive a patient's medical report.
Your task is to determine which medical specialists should review this report.

Available specialists:
{specialists_list}

Analyze the report carefully and select the TOP 3-5 most relevant specialists
based on the patient's symptoms, conditions, and test results mentioned.

IMPORTANT: Return ONLY a valid JSON array of specialist names, nothing else.
Example: [" ++ [34%N] ++ Py.lit "Cardiologist" ++ [34%N] ++ Py.lit ", " ++ [34%N] ++ Py.lit "Pulmonologist" ++ [34%N] ++ Py.lit ", " ++ [34%N] ++ Py.lit "General Practitioner" ++ [34%N] ++ Py.lit "]

Do NOT include any explanation, just the JSON array.

Medical Report:
{medical_report}
".

Definition CHAT_SYSTEM_PROMPT : Py.str :=
  Py.lit "
You are Cura3.ai, a medical AI assistant. You are helping a user understand
their medical diagnosis report.

CONTEXT - The following diagnosis was generated for the patient:
{diagnosis_context}

RULES:
1. Answer the user's questions based ONLY on the diagnosis and specialist reports provided above.
2. Use plain, easy-to-understand language. Avoid excessive medical jargon unless the user seems to be a medical professional.
3. Be helpful and empathetic. This is about someone's health.
4. Always remind users that this is AI-generated and they should consult a real doctor.
5. If the user asks something outside the scope of the diagnosis, politely redirect them.
6. Do NOT make up information not present in the reports.
7. Use plain ASCII text only, no markdown, no emojis, no special characters.
".

(** All available specialist names. *)
Definition AVAILABLE_SPECIALISTS : list Py.str := map fst SPECIALISTS.

(** ** Text normalisation and the model client ([agent_engine.py]) *)

Definition replacements : list (Py.str * Py.str) :=
  [ ([0x2018%N], Py.lit "'"); ([0x2019%N], Py.lit "'");
    ([0x201C%N], [34%N]); ([0x201D%N], [34%N]);
    ([0x2013%N], Py.lit "-"); ([0x2014%N], Py.lit "--");
    ([0x2026%N], Py.lit "..."); ([0x2022%N], Py.lit "-");
    ([0x00B7%N], Py.lit "-"); ([0x2023%N], Py.lit "-");
    ([0x25CF%N], Py.lit "-"); ([0x25CB%N], Py.lit "-");
    ([0x2192%N], Py.lit "->") ].

(** Replace common unicode characters with ASCII equivalents. *)
Definition _sanitize_text (text : Py.str) : Py.str :=
  fold_left (fun text r => Py.replace (fst r) (snd r) text) replacements text.

(** The options [_get_model] builds its client with. *)
Definition engine_model : ChatOpenAI :=
  {| temperature := 0%float; model := "gpt-4.1" |}.

(** The lines that follow every [model.invoke] of the source:
    a list content is joined with spaces, then [str] is applied. *)
Definition flatten_content (content : Content) : Py.str :=
  match content with
  | ContentStr s => s
  | ContentList items =>
      Py.join (Py.lit " ")
        (map (fun item =>
                match item with
                | ItemText text => text
                | ItemOther as_str => as_str
                end) items)
  end.

Definition nl : Py.str := [10%N].

Record SpecialistReport := {
  specialist_name : Py.str;
  report_content : Py.str
}.

Record DiagnosisResult := {
  specialist_reports : list SpecialistReport;
  final_diagnosis : Py.str
}.

(** One future of the executor: pending, or done with a value or an
    exception. *)
Abbreviation Future := (option (Result SpecialistReport)) (only parsing).

Record WorkerPool := {
  futures : list Future;
  first_exception : option Exn
}.

(** [l[i] = x]; the pool only writes a slot it has found pending, so
    the index is always in range. *)
Fixpoint set_nth {A} (i : nat) (x : A) (l : list A) : list A :=
  match l, i with
  | [], _ => []
  | _ :: l', O => x :: l'
  | y :: l', S i' => y :: set_nth i' x l'
  end.

(** A message of the chat history: a dict read with [msg.get]. *)
Record HistoryMessage := {
  history_role : option Py.str;
  history_content : option Py.str
}.

Record Message := {
  role : Py.str;
  content : Py.str
}.

Definition dict_get (entry : option Py.str) (default : Py.str) : Py.str :=
  match entry with
  | Some v => v
  | None => default
  end.

Section Core.

(** The remote model and the JSON decoder of the Python library. *)
Variable port : Port.
Variable json_loads : Py.str -> Result PyVal.

(** [ChatOpenAI(temperature=..., model=...)]: the client, or the error
    of the constructor. *)
Definition new_ChatOpenAI (options : ChatOpenAI) : M ChatOpenAI :=
    match client_error port options with
    | None => ret options
    | Some message => raise (OpenAIError message)
    end.

(** Get the OpenAI GPT-4.1 model instance. *)
Definition _get_model : M ChatOpenAI := new_ChatOpenAI engine_model.

(** [model.invoke(prompt)], recorded in the log. *)
Definition invoke (model : ChatOpenAI) (site : CallSite) (prompt : Py.str)
      : M Content :=
    fun log =>
      let log' := log ++ [{| inv_site := site; inv_model := model;
                             inv_prompt := prompt |}] in
      match port site prompt with
      | Returns content => (Ok content, log')
      | Throws message => (Raise (RemoteCallError message), log')
      end.

(** Run a single specialist agent; [slot] is the position of the
    future that runs it. *)
Definition _run_specialist (slot : nat) (specialist_name medical_report : Py.str)
      : M SpecialistReport :=
    spec <- lift (match lookup specialist_name SPECIALISTS with
                  | Some spec => Ok spec
                  | None => Raise (KeyError specialist_name)
                  end) ;;
    prompt <- lift (format (prompt spec)
                      [(Py.lit "medical_report", medical_report)]) ;;
    model <- _get_model ;;
    try_except
      (content <- invoke model (SpecialistCall slot) prompt ;;
       ret {| specialist_name := specialist_name;
              report_content := _sanitize_text (flatten_content content) |})
      (fun e =>
         ret {| specialist_name := specialist_name;
                report_content :=
                  Py.lit "Error: Could not generate report. " ++ exn_str e |}).

(** Run the multidisciplinary team agent to produce the final diagnosis. *)
Definition _run_team_diagnosis (specialist_reports : list SpecialistReport)
      : M Py.str :=
    let reports_section :=
      fold_left
        (fun reports_section report =>
           let name := specialist_name report in
           let content :=
             Py.replace (Py.lit "}") (Py.lit "}}")
               (Py.replace (Py.lit "{") (Py.lit "{{") (report_content report)) in
           reports_section
             ++ (nl ++ name ++ Py.lit " Report:" ++ nl ++ content ++ nl))
        specialist_reports [] in
    let prompt_text :=
      Py.replace (Py.lit "{specialist_reports_section}") reports_section
        TEAM_PROMPT_TEMPLATE in
    model <- _get_model ;;
    try_except
      (content <- invoke model TeamCall prompt_text ;;
       ret (_sanitize_text (flatten_content content)))
      (fun e => ret (Py.lit "Error generating final diagnosis: " ++ exn_str e)).

(** Worker [i] of the pool runs to completion and fills its own future. *)
Definition complete_worker (medical_report : Py.str) (specialists : list Py.str)
      (i : nat) (pool : WorkerPool) : M WorkerPool :=
    fun log =>
      match nth_error specialists i, nth_error (futures pool) i with
      | Some name, Some None =>
          let (outcome, log') := _run_specialist i name medical_report log in
          (Ok {| futures := set_nth i (Some outcome) (futures pool);
                 first_exception :=
                   match first_exception pool, outcome with
                   | None, Raise e => Some e
                   | earlier, _ => earlier
                   end |}, log')
      | _, _ => (Ok pool, log)
      end.

Fixpoint complete_workers (medical_report : Py.str) (specialists : list Py.str)
      (order : list nat) (pool : WorkerPool) : M WorkerPool :=
    match order with
    | [] => ret pool
    | i :: rest =>
        pool' <- complete_worker medical_report specialists i pool ;;
        complete_workers medical_report specialists rest pool'
    end.

(** [asyncio.gather]: the first exception raised by a future, or else
    the values of the futures in the order the futures were given. *)
Definition gather (pool : WorkerPool) : M (list SpecialistReport) :=
    match first_exception pool with
    | Some e => raise e
    | None =>
        ret (flat_map (fun future =>
                         match future with
                         | Some (Ok report) => [report]
                         | _ => []
                         end) (futures pool))
    end.

(** The full diagnosis pipeline.  [completion_order] lists workers in
    the order they happen to finish; leaving the [with] block joins
    every worker that is still running. *)
Definition run_diagnosis (completion_order : list nat)
      (medical_report : Py.str) (specialists : list Py.str) : M DiagnosisResult :=
    if Nat.eqb (length specialists) 0
    then raise (ValueError (Py.lit "max_workers must be greater than 0"))
    else
      let executor := {| futures := repeat None (length specialists);
                         first_exception := None |} in
      pool <- complete_workers medical_report specialists completion_order executor ;;
      pool <- complete_workers medical_report specialists
                (seq 0 (length specialists)) pool ;;
      specialist_reports <- gather pool ;;
      final_diagnosis <- _run_team_diagnosis specialist_reports ;;
      ret {| specialist_reports := specialist_reports;
             final_diagnosis := final_diagnosis |}.

(** ** The specialist selector ([specialist_selector.py]) *)

Definition General_Practitioner : Py.str := Py.lit "General Practitioner".

(** [[s for s in selected if s in AVAILABLE_SPECIALISTS]]: only a string
    can be equal to a name of the registry. *)
Definition valid_names (selected : list PyVal) : list Py.str :=
    flat_map (fun s =>
                match s with
                | PStr name =>
                    if Py.mem name AVAILABLE_SPECIALISTS then [name] else []
                | _ => []
                end) selected.

Definition auto_select_specialists (medical_report : Py.str) : M (list Py.str) :=
    let specialists_list :=
      Py.join nl (map (fun s => Py.lit "- " ++ s) AVAILABLE_SPECIALISTS) in
    prompt <- lift (format SELECTOR_PROMPT
                      [(Py.lit "specialists_list", specialists_list);
                       (Py.lit "medical_report", medical_report)]) ;;
    model <- new_ChatOpenAI {| temperature := 0%float; model := "gpt-4.1" |} ;;
    try_except
      (content <- invoke model SelectorCall prompt ;;
       let content := Py.strip (flatten_content content) in
       let content :=
         if Py.startswith (Py.lit "```") content
         then Py.strip (Py.first_item
                          (Py.rsplit1 (Py.lit "```")
                             (Py.last_item (Py.split1 nl content))))
         else content in
       selected <- lift (json_loads content) ;;
       selected <- lift (py_iter selected) ;;
       let valid := valid_names selected in
       let valid :=
         if Nat.ltb (length valid) 2
         then if negb (Py.mem General_Practitioner valid)
              then valid ++ [General_Practitioner]
              else valid
         else valid in
       ret (firstn 5 valid))
      (fun e =>
         ret [Py.lit "Cardiologist"; Py.lit "Psychologist"; Py.lit "Pulmonologist"]).

(** ** The follow-up chat ([chat_service.py]) *)

Definition generate_chat_response (diagnosis_context : Py.str)
      (chat_history : list HistoryMessage) (user_message : Py.str) : M Py.str :=
    system_prompt <- lift (format CHAT_SYSTEM_PROMPT
                             [(Py.lit "diagnosis_context", diagnosis_context)]) ;;
    let messages :=
      [{| role := Py.lit "system"; content := system_prompt |}]
        ++ map (fun msg =>
                  {| role := dict_get (history_role msg) (Py.lit "user");
                     content := dict_get (history_content msg) [] |})
               (Py.last_n 10 chat_history)
        ++ [{| role := Py.lit "user"; content := user_message |}] in
    model <- new_ChatOpenAI {| temperature := 0.3%float; model := "gpt-4.1" |} ;;
    try_except
      (let combined_prompt :=
         fold_left
           (fun combined_prompt msg =>
              let role_label :=
                if Py.eqb (role msg) (Py.lit "user")
                then Py.lit "Patient" else Py.lit "Cura3.ai" in
              combined_prompt ++ (role_label ++ Py.lit ": " ++ content msg ++ nl ++ nl))
           (tl messages) (system_prompt ++ nl ++ nl)
         ++ Py.lit "Cura3.ai:" in
       content <- invoke model ChatCall combined_prompt ;;
       ret (Py.strip (flatten_content content)))
      (fun e =>
         ret (Py.lit "I apologize, but I encountered an error processing your question. Please try again. (Error: "
                ++ exn_str e ++ Py.lit ")")).

(** ** The diagnosis route ([routes/diagnosis.py]) *)

(** [run_diagnosis_endpoint] up to the storing of the result: the
    loading of the report, selection, validation of the names, and the
    run.  [report] is what the database answers for the requested id,
    with the content of the report when it finds one. *)
Definition run_diagnosis_endpoint (completion_order : list nat)
      (selected_specialists : option (list Py.str)) (report : Lookup Py.str)
      : M (list Py.str * DiagnosisResult) :=
    report_content <-
      match report with
      | LookupRaises =>
          raise (HTTPException 400 (DetailText (Py.lit "Invalid report ID.")))
      | NotFound =>
          raise (HTTPException 404 (DetailText (Py.lit "Report not found.")))
      | Found content => ret content
      end ;;
    selected_specialists <-
      match selected_specialists with
      | None | Some [] => auto_select_specialists report_content
      | Some ((_ :: _) as given) => ret given
      end ;;
    let invalid :=
      filter (fun s => negb (Py.mem s AVAILABLE_SPECIALISTS)) selected_specialists in
    match invalid with
    | _ :: _ =>
        raise (HTTPException 400
                 (DetailInvalid
                    {| detail_invalid := invalid;
                       detail_available := AVAILABLE_SPECIALISTS |}))
    | [] =>
        result <- run_diagnosis completion_order report_content selected_specialists ;;
        ret (selected_specialists, result)
    end.

End Core.

(** ** A decoder for running the model on concrete texts

    [json.loads] belongs to the Python library and is a parameter of the
    model.  [json_loads_flat] stands in for it on concrete runs: it
    decodes an array of string literals without escapes, or one such
    literal, as [json.loads] does, and rejects every other text. *)

Inductive FlatState :=
| AtStart
| AfterBracket
| InLiteral (chars_rev : Py.str)
| InTopLiteral (chars_rev : Py.str)
| AfterElement
| AfterComma
| AtEnd (value : PyVal).

Definition json_space (c : Py.char) : bool :=
  ((c =? 32) || (c =? 9) || (c =? 10) || (c =? 13))%N.

Definition decode_error : Exn :=
  JSONDecodeError (Py.lit "Expecting value").

Fixpoint flat_scan (text : Py.str) (state : FlatState) (elems_rev : list PyVal)
    : Result PyVal :=
  match text with
  | [] =>
      match state with
      | AtEnd value => Ok value
      | _ => Raise decode_error
      end
  | c :: rest =>
      match state with
      | AtStart =>
          if json_space c then flat_scan rest AtStart elems_rev
          else if N.eqb c 91 then flat_scan rest AfterBracket elems_rev
          else if N.eqb c 34 then flat_scan rest (InTopLiteral []) elems_rev
          else Raise decode_error
      | AfterBracket =>
          if json_space c then flat_scan rest AfterBracket elems_rev
          else if N.eqb c 93 then flat_scan rest (AtEnd (PList (rev elems_rev))) []
          else if N.eqb c 34 then flat_scan rest (InLiteral []) elems_rev
          else Raise decode_error
      | InLiteral chars_rev =>
          if N.eqb c 34
          then flat_scan rest AfterElement (PStr (rev chars_rev) :: elems_rev)
          else if N.eqb c 92 || N.ltb c 32 then Raise decode_error
          else flat_scan rest (InLiteral (c :: chars_rev)) elems_rev
      | InTopLiteral chars_rev =>
          if N.eqb c 34
          then flat_scan rest (AtEnd (PStr (rev chars_rev))) []
          else if N.eqb c 92 || N.ltb c 32 then Raise decode_error
          else flat_scan rest (InTopLiteral (c :: chars_rev)) elems_rev
      | AfterElement =>
          if json_space c then flat_scan rest AfterElement elems_rev
          else if N.eqb c 44 then flat_scan rest AfterComma elems_rev
          else if N.eqb c 93 then flat_scan rest (AtEnd (PList (rev elems_rev))) []
          else Raise decode_error
      | AfterComma =>
          if json_space c then flat_scan rest AfterComma elems_rev
          else if N.eqb c 34 then flat_scan rest (InLiteral []) elems_rev
          else Raise decode_error
      | AtEnd value =>
          if json_space c then flat_scan rest (AtEnd value) elems_rev
          else Raise decode_error
      end
  end.

Definition json_loads_flat (text : Py.str) : Result PyVal :=
  flat_scan text AtStart [].

(** An environment in which every client can be built and calls are
    answered by [answers]. *)
Definition configured (answers : CallSite -> Py.str -> Response) : Port :=
  {| respond := answers; client_error := fun _ => None |}.

(** A model that answers every directive with the same text, and one
    whose every call fails. *)
Definition port_saying (text : Py.str) : Port :=
  configured (fun _ _ => Returns (ContentStr text)).

Definition port_failing (message : Py.str) : Port :=
  configured (fun _ _ => Throws message).

(** A model whose calls fail for the worker at one position only. *)
Definition port_failing_at (slot : nat) (message text : Py.str) : Port :=
  configured
    (fun site _ =>
       match site with
       | SpecialistCall k => if Nat.eqb k slot then Throws message
                             else Returns (ContentStr text)
       | _ => Returns (ContentStr text)
       end).

(** A model whose synthesis call fails and whose other calls return. *)
Definition port_failing_synthesis (message text : Py.str) : Port :=
  configured
    (fun site _ =>
       match site with
       | TeamCall => Throws message
       | _ => Returns (ContentStr text)
       end).

(** The environment of the default settings: no client can be built,
    whatever a call would have answered. *)
Definition port_without_key (message text : Py.str) : Port :=
  {| respond := fun _ _ => Returns (ContentStr text);
     client_error := fun _ => Some message |}.

(** A JSON array of the given names, as a model would print it. *)
Definition json_array (names : list Py.str) : Py.str :=
  Py.lit "[" ++ Py.join (Py.lit ", ") (map (fun n => [34%N] ++ n ++ [34%N]) names)
    ++ Py.lit "]".

(** ** Views of the code used to state its properties *)

(** The directive a specialist worker submits: the template of the
    registry entry rendered against the report. *)
Definition specialist_directive (specialist_name medical_report : Py.str)
    : Result Py.str :=
  match lookup specialist_name SPECIALISTS with
  | Some spec => format (prompt spec) [(Py.lit "medical_report", medical_report)]
  | None => Raise (KeyError specialist_name)
  end.

(** The directive of the selection call. *)
Definition selector_directive (medical_report : Py.str) : Result Py.str :=
  format SELECTOR_PROMPT
    [(Py.lit "specialists_list",
      Py.join nl (map (fun s => Py.lit "- " ++ s) AVAILABLE_SPECIALISTS));
     (Py.lit "medical_report", medical_report)].

(** The text the selector hands to the JSON decoder: the response
    trimmed, and without its code fence when it starts with one. *)
Definition json_text (content : Content) : Py.str :=
  let content := Py.strip (flatten_content content) in
  if Py.startswith (Py.lit "```") content
  then Py.strip (Py.first_item
                   (Py.rsplit1 (Py.lit "```")
                      (Py.last_item (Py.split1 nl content))))
  else content.

(** Every curly brace doubled. *)
Definition escape_braces (text : Py.str) : Py.str :=
  flat_map (fun c => if N.eqb c lbrace || N.eqb c rbrace then [c; c] else [c]) text.

(** The block of one analyzer in the synthesis directive. *)
Definition report_block (report : SpecialistReport) : Py.str :=
  nl ++ specialist_name report ++ Py.lit " Report:" ++ nl
     ++ escape_braces (report_content report) ++ nl.

(** The team template up to its placeholder. *)
Definition team_preamble : Py.str :=
  Py.first_item (Py.split1 (Py.lit "{specialist_reports_section}") TEAM_PROMPT_TEMPLATE).

(** The synthesis directive for a sequence of analyzer results. *)
Definition team_directive (reports : list SpecialistReport) : Py.str :=
  team_preamble ++ concat (map report_block reports) ++ nl.

(** The characters [_sanitize_text] maps away: the keys of its table. *)
Definition mapped_characters : list Py.char := flat_map fst replacements.

Definition fallback_specialists : list Py.str :=
  [Py.lit "Cardiologist"; Py.lit "Psychologist"; Py.lit "Pulmonologist"].

(** The post-processing policy of the selector in the words of its
    specification: drop unknown names, pad with the default analyzer
    when fewer than two remain, keep at most five. *)
Definition drop_unknown (names : list Py.str) : list Py.str :=
  filter (fun name => Py.mem name AVAILABLE_SPECIALISTS) names.

Definition pad_with_default (names : list Py.str) : list Py.str :=
  if Nat.ltb (length names) 2
  then if Py.mem General_Practitioner names then names
       else names ++ [General_Practitioner]
  else names.

Definition keep_at_most_five (names : list Py.str) : list Py.str := firstn 5 names.

Definition selection_policy (names : list Py.str) : list Py.str :=
  keep_at_most_five (pad_with_default (drop_unknown names)).

Definition known (name : Py.str) : Prop := In name AVAILABLE_SPECIALISTS.

Definition deterministic (inv : Invocation) : Prop :=
  temperature (inv_model inv) = 0%float.

(** Every key of a replacement table is a single character. *)
Definition one_char_keys (rs : list (Py.str * Py.str)) : Prop :=
  Forall (fun r => exists u, fst r = [u]) rs.

(** The report a worker builds from the answer to its call. *)
Definition report_of (name : Py.str) (answer : Response) : SpecialistReport :=
  {| specialist_name := name;
     report_content :=
       match answer with
       | Returns content => _sanitize_text (flatten_content content)
       | Throws message => Py.lit "Error: Could not generate report. " ++ message
       end |}.

(** The final text the aggregator builds from the answer to its call. *)
Definition diagnosis_of (answer : Response) : Py.str :=
  match answer with
  | Returns content => _sanitize_text (flatten_content content)
  | Throws message => Py.lit "Error generating final diagnosis: " ++ message
  end.

(** The report worker [slot] builds for [name], and the reports of a
    list of names whose first worker sits at [slot]. *)
Definition worker_report (port : Port) (medical_report : Py.str) (slot : nat)
    (name : Py.str) : SpecialistReport :=
  report_of name
    (port (SpecialistCall slot)
       (match specialist_directive name medical_report with
        | Ok p => p
        | Raise _ => []
        end)).

Fixpoint reports_from (port : Port) (medical_report : Py.str) (slot : nat)
    (names : list Py.str) : list SpecialistReport :=
  match names with
  | [] => []
  | name :: rest =>
      worker_report port medical_report slot name
        :: reports_from port medical_report (S slot) rest
  end.

(** A call of a specialist worker or of the aggregator: one made with
    the client of [_get_model]. *)
Definition engine_call (inv : Invocation) : Prop := inv_model inv = engine_model.

(** A call of a specialist worker. *)
Definition worker_call (inv : Invocation) : Prop :=
  inv_model inv = engine_model /\ exists slot, inv_site inv = SpecialistCall slot.

(** The futures of a pool are all in range, none has raised, and a
    finished one holds the report of its own worker. *)
Definition pool_ok (port : Port) (medical_report : Py.str) (names : list Py.str)
    (pool : WorkerPool) : Prop :=
  length (futures pool) = length names
  /\ first_exception pool = None
  /\ forall i name, nth_error names i = Some name ->
       nth_error (futures pool) i = Some None
       \/ nth_error (futures pool) i
          = Some (Some (Ok (worker_report port medical_report i name))).

Definition finished (pool : WorkerPool) (i : nat) : Prop :=
  exists outcome, nth_error (futures pool) i = Some (Some outcome).

(** The padding step as the selector writes it, and the list the
    selector returns for an answer of the model. *)
Definition pad_valid (valid : list Py.str) : list Py.str :=
  if Nat.ltb (length valid) 2
  then if negb (Py.mem General_Practitioner valid)
       then valid ++ [General_Practitioner]
       else valid
  else valid.

Definition selection_of (json_loads : Py.str -> Result PyVal) (answer : Response)
    : list Py.str :=
  match answer with
  | Throws _ => fallback_specialists
  | Returns content =>
      match json_loads (json_text content) with
      | Raise _ => fallback_specialists
      | Ok value =>
          match py_iter value with
          | Raise _ => fallback_specialists
          | Ok selected => firstn 5 (pad_valid (valid_names selected))
          end
      end
  end.

(** The members of a decoded value that are strings. *)
Definition strings_of (members : list PyVal) : list Py.str :=
  flat_map (fun member =>
              match member with
              | PStr s => [s]
              | _ => []
              end) members.

(** The client the chat service builds, and the one the selector
    builds. *)
Definition chat_model : ChatOpenAI :=
  {| temperature := 0.3%float; model := "gpt-4.1" |}.

Definition selector_model : ChatOpenAI :=
  {| temperature := 0%float; model := "gpt-4.1" |}.

(** The client for [options] can be built in the environment of
    [port]. *)
Definition usable (port : Port) (options : ChatOpenAI) : Prop :=
  client_error port options = None.

(** The ASCII equivalent of one character, in the words of the
    specification: the curly single and double quotes, the en dash, the
    em dash, the ellipsis, the bullet variants and the right arrow have
    one; any other character stands for itself. *)
Definition ascii_equivalent (c : Py.char) : Py.str :=
  if ((c =? 0x2018) || (c =? 0x2019))%N then Py.lit "'"
  else if ((c =? 0x201C) || (c =? 0x201D))%N then [34%N]
  else if (c =? 0x2013)%N then Py.lit "-"
  else if (c =? 0x2014)%N then Py.lit "--"
  else if (c =? 0x2026)%N then Py.lit "..."
  else if ((c =? 0x2022) || (c =? 0x00B7) || (c =? 0x2023)
           || (c =? 0x25CF) || (c =? 0x25CB))%N then Py.lit "-"
  else if (c =? 0x2192)%N then Py.lit "->"
  else [c].

(** A text with each character replaced by its ASCII equivalent. *)
Definition normalised (text : Py.str) : Py.str := flat_map ascii_equivalent text.

(** ** Further views: the pool on arbitrary names *)



(** The pool when no client can be built: a finished future holds the
    error of the constructor, and so does the recorded exception once a
    worker has finished. *)
Definition pool_down (message : Py.str) (names : list Py.str) (pool : WorkerPool)
    : Prop :=
  length (futures pool) = length names
  /\ (forall i, i < length names ->
        nth_error (futures pool) i = Some None
        \/ nth_error (futures pool) i = Some (Some (Raise (OpenAIError message))))
  /\ (first_exception pool = None -> forall i, ~ finished pool i)
  /\ (forall e, first_exception pool = Some e -> e = OpenAIError message).

(** ** Further views: the chat *)

(** The line of one turn in the chat directive. *)
Definition turn_line (role content : Py.str) : Py.str :=
  (if Py.eqb role (Py.lit "user") then Py.lit "Patient" else Py.lit "Cura3.ai")
    ++ Py.lit ": " ++ content ++ nl ++ nl.

Definition history_line (msg : HistoryMessage) : Py.str :=
  turn_line (dict_get (history_role msg) (Py.lit "user"))
            (dict_get (history_content msg) []).

(** The answer of the chat service to the outcome of its call. *)
Definition chat_answer (answer : Response) : Py.str :=
  match answer with
  | Returns content => Py.strip (flatten_content content)
  | Throws message =>
      Py.lit "I apologize, but I encountered an error processing your question. Please try again. (Error: "
        ++ message ++ Py.lit ")"
  end.

(** The system prompt of the chat for a diagnosis context. *)
Definition chat_system_prompt (diagnosis_context : Py.str) : Py.str :=
  match format CHAT_SYSTEM_PROMPT [(Py.lit "diagnosis_context", diagnosis_context)] with
  | Ok p => p
  | Raise _ => []
  end.

(** The directive of the chat call. *)
Definition chat_directive (diagnosis_context : Py.str)
    (chat_history : list HistoryMessage) (user_message : Py.str) : Py.str :=
  chat_system_prompt diagnosis_context ++ nl ++ nl
    ++ concat (map history_line (Py.last_n 10 chat_history))
    ++ turn_line (Py.lit "user") user_message
    ++ Py.lit "Cura3.ai:".

(** ** The chat route ([routes/chat.py]) *)

(** A message as the route stores it. *)
Record StoredMessage := {
  stored_role : Py.str;
  stored_content : Py.str;
  stored_timestamp : Py.str
}.

(** The stored diagnosis and the stored chat session, as far as the
    route reads them, each field read with [get] and a default. *)
Record DiagnosisDoc := {
  doc_specialist_reports : option (list SpecialistReport);
  doc_final_diagnosis : option Py.str
}.

Record ChatSession := {
  session_messages : option (list StoredMessage)
}.

Definition as_history (msg : StoredMessage) : HistoryMessage :=
  {| history_role := Some (stored_role msg);
     history_content := Some (stored_content msg) |}.

(** The context the route builds from the stored diagnosis. *)
Definition diagnosis_context_of (diagnosis : DiagnosisDoc) : Py.str :=
  let context_parts :=
    map (fun sr => specialist_name sr ++ Py.lit " Report:" ++ nl ++ report_content sr)
        (match doc_specialist_reports diagnosis with
         | Some reports => reports
         | None => []
         end) in
  let context_parts :=
    context_parts
      ++ [nl ++ Py.lit "Final Diagnosis:" ++ nl
             ++ dict_get (doc_final_diagnosis diagnosis) []] in
  Py.join (nl ++ nl) context_parts.

(** [send_message]: the loading of the diagnosis, the context, the
    session found or created, the answer, and the two messages pushed
    to the session.  [diagnosis] is what the database answers for the
    requested id, [chat_session] the stored session if there is one,
    [now] the time stamp of the exchange. *)
Definition send_message (port : Port) (diagnosis : Lookup DiagnosisDoc)
    (chat_session : option ChatSession) (message now : Py.str)
    : M (Py.str * ChatSession) :=
  diagnosis <-
    match diagnosis with
    | LookupRaises =>
        raise (HTTPException 400 (DetailText (Py.lit "Invalid diagnosis ID.")))
    | NotFound =>
        raise (HTTPException 404 (DetailText (Py.lit "Diagnosis not found.")))
    | Found doc => ret doc
    end ;;
  let diagnosis_context := diagnosis_context_of diagnosis in
  let chat_session :=
    match chat_session with
    | Some session => session
    | None => {| session_messages := Some [] |}
    end in
  let chat_history :=
    match session_messages chat_session with
    | Some messages => messages
    | None => []
    end in
  ai_response <- generate_chat_response port diagnosis_context
                   (map as_history chat_history) message ;;
  let user_msg :=
    {| stored_role := Py.lit "user"; stored_content := message;
       stored_timestamp := now |} in
  let assistant_msg :=
    {| stored_role := Py.lit "assistant"; stored_content := ai_response;
       stored_timestamp := now |} in
  ret (ai_response,
       {| session_messages := Some (chat_history ++ [user_msg; assistant_msg]) |}).

(** A sequence of requests to the route for one diagnosis, each a
    message with its time stamp; the session is carried from one
    request to the next. *)
Fixpoint conversation (port : Port) (diagnosis : Lookup DiagnosisDoc)
    (chat_session : option ChatSession) (requests : list (Py.str * Py.str))
    : M (list Py.str * option ChatSession) :=
  match requests with
  | [] => ret ([], chat_session)
  | (message, now) :: rest =>
      exchange <- send_message port diagnosis chat_session message now ;;
      later <- conversation port diagnosis (Some (snd exchange)) rest ;;
      ret (fst exchange :: fst later, snd later)
  end.

Definition messages_of (chat_session : option ChatSession) : list StoredMessage :=
  match chat_session with
  | Some {| session_messages := Some messages |} => messages
  | _ => []
  end.

(** ** More of the diagnosis routes ([routes/diagnosis.py]) *)

Record SpecialistListing := {
  listing_name : Py.str;
  listing_display_name : Py.str;
  listing_icon : Py.str
}.

(** [list_specialists]: the entries of the registry and their number. *)
Definition list_specialists : list SpecialistListing * nat :=
  let specialists :=
    map (fun entry =>
           {| listing_name := fst entry;
              listing_display_name := display_name (snd entry);
              listing_icon := icon (snd entry) |}) SPECIALISTS in
  (specialists, length specialists).

(** A failure of the code around the engine: a Python exception, by
    class and text, or an HTTP error answer. *)
Inductive Failure :=
| PythonError (error_class : string) (text : Py.str)
| HTTPError (status_code : Z) (detail : Py.str).

Inductive Outcome (A : Type) :=
| Returned (value : A)
| Failed (failure : Failure).
Arguments Returned {A} value.
Arguments Failed {A} failure.

(** [value.encode('latin-1')], which the response applies to the value
    of each header: a character above 255 makes it raise; the failure
    carries the reason of the error. *)
Definition encode_latin1 (value : Py.str) : Outcome (list N) :=
  if forallb (fun c => N.leb c 255) value
  then Returned value
  else Failed (PythonError "UnicodeEncodeError" (Py.lit "ordinal not in range(256)")).

(** The answer of a download: the body, the file name, and the encoded
    value of the Content-Disposition header. *)
Record PdfDownload := {
  download_body : list Byte.byte;
  download_filename : Py.str;
  download_disposition : list N
}.

(** [download_diagnosis_pdf].  [doc] is what the database answers for
    the requested id, with the stored patient name when it finds a
    diagnosis: missing, null, or a string; [generated] is what
    [generate_diagnosis_pdf] returns or raises for that diagnosis.
    [None.replace] raises. *)
Definition download_diagnosis_pdf (doc : Lookup (option (option Py.str)))
    (generated : Outcome (list Byte.byte)) : Outcome PdfDownload :=
  match doc with
  | LookupRaises => Failed (HTTPError 400 (Py.lit "Invalid diagnosis ID."))
  | NotFound => Failed (HTTPError 404 (Py.lit "Diagnosis not found."))
  | Found patient_name =>
      match generated with
      | Failed failure => Failed failure
      | Returned pdf_bytes =>
          match match patient_name with
                | Some stored => stored
                | None => Some (Py.lit "diagnosis")
                end with
          | None =>
              Failed (PythonError "AttributeError"
                        (Py.lit "'NoneType' object has no attribute 'replace'"))
          | Some name =>
              let patient := Py.replace (Py.lit " ") (Py.lit "_") name in
              let filename := Py.lit "Cura3ai_Report_" ++ patient ++ Py.lit ".pdf" in
              match encode_latin1
                      (Py.lit "attachment; filename=" ++ [34%N] ++ filename ++ [34%N]) with
              | Failed failure => Failed failure
              | Returned disposition =>
                  Returned {| download_body := pdf_bytes;
                              download_filename := filename;
                              download_disposition := disposition |}
              end
          end
      end
  end.

(** ** Report upload ([routes/reports.py], [services/report_parser.py]) *)

(** The document [upload_report] stores. *)
Record ReportDoc := {
  report_patient_name : Py.str;
  report_filename : Py.str;
  report_text : Py.str;
  report_source : Py.str;
  report_store : bool
}.

Section Upload.

(** The Python library and the third-party readers: [str.lower], the
    decoding of bytes as UTF-8 with replacement, the text of each page
    of a PDF, the text of each paragraph of a DOCX, and [str] of a list
    and of an integer. *)
Variable str_lower : Py.str -> Py.str.
Variable decode_utf8_replace : list Byte.byte -> Py.str.
Variable pdf_page_texts : list Byte.byte -> Outcome (list (option Py.str)).
Variable docx_paragraphs : list Byte.byte -> Outcome (list Py.str).
Variable list_str : list Py.str -> Py.str.
Variable int_str : Z -> Py.str.

(** The settings the upload reads. *)
Variable ALLOWED_EXTENSIONS : list Py.str.
Variable MAX_UPLOAD_SIZE_MB : Z.

Definition failure_text (failure : Failure) : Py.str :=
  match failure with
  | PythonError _ text => text
  | HTTPError _ detail => detail
  end.

(** Parse a plain text file. *)
Definition parse_txt (file_bytes : list Byte.byte) : Outcome Py.str :=
  Returned (decode_utf8_replace file_bytes).

(** Parse a PDF file: the pages that have text, joined by newlines. *)
Definition parse_pdf (file_bytes : list Byte.byte) : Outcome Py.str :=
  match pdf_page_texts file_bytes with
  | Returned pages =>
      let text_parts :=
        flat_map (fun page_text =>
                    match page_text with
                    | Some ((_ :: _) as text) => [text]
                    | _ => []
                    end) pages in
      Returned (Py.join nl text_parts)
  | Failed e =>
      Failed (PythonError "ValueError" (Py.lit "Failed to parse PDF: " ++ failure_text e))
  end.

(** Parse a DOCX file: the paragraphs that are not blank, joined by
    newlines. *)
Definition parse_docx (file_bytes : list Byte.byte) : Outcome Py.str :=
  match docx_paragraphs file_bytes with
  | Returned paragraphs =>
      let text_parts :=
        filter (fun text => match Py.strip text with [] => false | _ => true end)
               paragraphs in
      Returned (Py.join nl text_parts)
  | Failed e =>
      Failed (PythonError "ValueError" (Py.lit "Failed to parse DOCX: " ++ failure_text e))
  end.

(** The extension both the route and the parser compute. *)
Definition extension_of (filename : Py.str) : Py.str :=
  if existsb (N.eqb 46) filename
  then Py.last_item (Py.rsplit1 (Py.lit ".") (str_lower filename))
  else [].

(** Parse a report file based on its extension. *)
Definition parse_report_file (filename : Py.str) (file_bytes : list Byte.byte)
    : Outcome Py.str :=
  let ext := extension_of filename in
  if Py.eqb ext (Py.lit "txt") then parse_txt file_bytes
  else if Py.eqb ext (Py.lit "pdf") then parse_pdf file_bytes
  else if Py.eqb ext (Py.lit "docx") then parse_docx file_bytes
  else Failed (PythonError "ValueError"
                 (Py.lit "Unsupported file format: ." ++ ext
                    ++ Py.lit ". Supported: .txt, .pdf, .docx")).

(** [upload_report] up to the insertion of the document. *)
Definition upload_report (file_name : option Py.str) (file_bytes : list Byte.byte)
    (patient_name : Py.str) (store_report : bool) : Outcome ReportDoc :=
  let filename :=
    match file_name with
    | Some ((_ :: _) as name) => name
    | _ => Py.lit "unknown.txt"
    end in
  let ext := extension_of filename in
  if negb (Py.mem (Py.lit "." ++ ext) ALLOWED_EXTENSIONS)
  then Failed (HTTPError 400
                 (Py.lit "Unsupported file type: ." ++ ext ++ Py.lit ". Allowed: "
                    ++ list_str ALLOWED_EXTENSIONS))
  else if (MAX_UPLOAD_SIZE_MB * 1024 * 1024 <? Z.of_nat (length file_bytes))%Z
  then Failed (HTTPError 400
                 (Py.lit "File too large. Maximum: " ++ int_str MAX_UPLOAD_SIZE_MB
                    ++ Py.lit "MB"))
  else
    match parse_report_file filename file_bytes with
    | Failed (PythonError "ValueError" text) => Failed (HTTPError 400 text)
    | Failed e => Failed e
    | Returned content =>
        match Py.strip content with
        | [] =>
            Failed (HTTPError 400
                      (Py.lit "The uploaded file appears to be empty or unreadable."))
        | _ :: _ =>
            Returned {| report_patient_name := patient_name;
                        report_filename := filename;
                        report_text := content;
                        report_source := Py.lit "upload";
                        report_store := store_report |}
        end
    end.

End Upload.

(** Stand-ins for running the upload on concrete ASCII inputs:
    [str.lower] and the UTF-8 decoder as they act on ASCII. *)
Definition ascii_lower (s : Py.str) : Py.str :=
  map (fun c => if ((65 <=? c) && (c <=? 90))%N then (c + 32)%N else c) s.

Definition decode_ascii (file_bytes : list Byte.byte) : Py.str :=
  map (fun b => let c := Byte.to_N b in if (c <? 128)%N then c else 0xFFFD%N) file_bytes.

Definition encode_ascii (s : string) : list Byte.byte :=
  map byte_of_ascii (list_ascii_of_string s).

Definition default_extensions : list Py.str :=
  [Py.lit ".txt"; Py.lit ".pdf"; Py.lit ".docx"].

(** ** The rate limiter ([core/rate_limiter.py]) *)

(** [s.split(c)] for a separator of one character. *)
Fixpoint split_on (c : Py.char) (s : Py.str) : list Py.str :=
  match s with
  | [] => [[]]
  | x :: s' =>
      if N.eqb x c then [] :: split_on c s'
      else match split_on c s' with
           | part :: parts => (x :: part) :: parts
           | [] => [[x]]
           end
  end.

(** What the limiter reads of a request: two headers and the host of
    the client, each possibly absent. *)
Record RequestInfo := {
  header_authorization : option Py.str;
  header_x_forwarded_for : option Py.str;
  client_host : option Py.str
}.

(** The limiter: its two settings and, per client key, the times of the
    requests it has let through; a key never seen has no times. *)
Record RateLimiter := {
  max_requests : Z;
  window_seconds : Z;
  _requests : Py.str -> list float
}.

Definition set_requests (self : RateLimiter) (key : Py.str) (times : list float)
    : RateLimiter :=
  {| max_requests := max_requests self;
     window_seconds := window_seconds self;
     _requests := fun k => if Py.eqb k key then times else _requests self k |}.

Definition new_limiter (max_requests window_seconds : Z) : RateLimiter :=
  {| max_requests := max_requests; window_seconds := window_seconds;
     _requests := fun _ => [] |}.

(** Get a unique key for the client. *)
Definition _get_key (request : RequestInfo) : Py.str :=
  match dict_get (header_authorization request) [] with
  | _ :: _ =>
      Py.lit "auth:" ++ firstn 50 (dict_get (header_authorization request) [])
  | [] =>
      match header_x_forwarded_for request with
      | Some ((_ :: _) as forwarded) =>
          Py.lit "ip:" ++ Py.strip (Py.first_item (split_on 44 forwarded))
      | _ =>
          Py.lit "ip:" ++ match client_host request with
                          | Some host => host
                          | None => Py.lit "unknown"
                          end
      end
  end.

Section Limiter.

(** The conversion of an integer to a float that [now - window_seconds]
    performs. *)
Variable float_of_int : Z -> float.

(** Check if the key is rate-limited at time [now]; the history of the
    key is cleaned and, when the request passes, extended. *)
Definition is_rate_limited (self : RateLimiter) (key : Py.str) (now : float)
    : bool * RateLimiter :=
  let window_start := PrimFloat.sub now (float_of_int (window_seconds self)) in
  let self :=
    set_requests self key
      (filter (fun t => PrimFloat.ltb window_start t) (_requests self key)) in
  if (max_requests self <=? Z.of_nat (length (_requests self key)))%Z
  then (true, self)
  else (false, set_requests self key (_requests self key ++ [now])).

(** Get remaining requests for the key at time [now]. *)
Definition get_remaining (self : RateLimiter) (key : Py.str) (now : float) : Z :=
  let window_start := PrimFloat.sub now (float_of_int (window_seconds self)) in
  let active := filter (fun t => PrimFloat.ltb window_start t) (_requests self key) in
  Z.max 0 (max_requests self - Z.of_nat (length active)).

(** The limiter after a sequence of checks, each for a key at a time. *)
Fixpoint after_checks (self : RateLimiter) (checks : list (Py.str * float))
    : RateLimiter :=
  match checks with
  | [] => self
  | (key, now) :: rest => after_checks (snd (is_rate_limited self key now)) rest
  end.

End Limiter.

(** A conversion for concrete runs: exact on the integers below 2^53. *)
Definition small_float_of_int (z : Z) : float :=
  if (z <? 0)%Z then PrimFloat.opp (PrimFloat.of_uint63 (Uint63.of_Z (- z)))
  else PrimFloat.of_uint63 (Uint63.of_Z z).

(** ** Log hygiene ([core/security.py], [core/audit_logger.py]) *)

Definition safe_fields : list Py.str :=
  [Py.lit "_id"; Py.lit "user_id"; Py.lit "created_at"; Py.lit "updated_at";
   Py.lit "role"; Py.lit "status"].

(** Remove PHI from data before logging: keep only the safe metadata
    fields.  A dict is the list of its items in insertion order. *)
Definition sanitize_log_data {V} (data : list (Py.str * V)) : list (Py.str * V) :=
  filter (fun item => Py.mem (fst item) safe_fields) data.

(** Extract a user identifier hint from the Authorization header,
    without the full token. *)
Definition _extract_user_hint (request : RequestInfo) : Py.str :=
  let auth := dict_get (header_authorization request) [] in
  if Py.startswith (Py.lit "Bearer ") auth && Nat.ltb 20 (length auth)
  then
    let token_fragment := Py.last_n 8 auth in
    Py.lit "bearer_..." ++ token_fragment
  else Py.lit "anonymous".

(** Get the originating client IP address. *)
Definition _get_client_ip (request : RequestInfo) : Py.str :=
  match header_x_forwarded_for request with
  | Some ((_ :: _) as forwarded) => Py.strip (Py.first_item (split_on 44 forwarded))
  | _ => match client_host request with
         | Some host => host
         | None => Py.lit "unknown"
         end
  end.

(** ** The original agents ([Utils/Agents.py]) *)

Definition legacy_team_opening : Py.str :=
  Py.lit "
                Act like a multidisciplinary team of healthcare professionals.
                You will receive a medical report of a patient visited by a Cardiologist, Psychologist, and Pulmonologist.
                Task: Review the patient's medical report from the Cardiologist, Psychologist, and Pulmonologist, analyze them and come up with a list of 3 possible health issues of the patient.
                Just return a list of bullet points of 3 possible health issues of the patient and for each issue provide the reason.

                Cardiologist Report: ".

Definition legacy_team_before_psychologist : Py.str :=
  Py.lit "
                Psychologist Report: ".

Definition legacy_team_before_pulmonologist : Py.str :=
  Py.lit "
                Pulmonologist Report: ".

Definition legacy_team_closing : Py.str :=
  Py.lit "
            ".

Definition legacy_Cardiologist_template : Py.str :=
  Py.lit "
                    Act like a cardiologist. You will receive a medical report of a patient.
                    Task: Review the patient's cardiac workup, including ECG, blood tests, Holter monitor results, and echocardiogram.
                    Focus: Determine if there are any subtle signs of cardiac issues that could explain the patient"
    ++ [8217%N]
    ++ Py.lit "s symptoms. Rule out any underlying heart conditions, such as arrhythmias or structural abnormalities, that might be missed on routine testing.
                    Recommendation: Provide guidance on any further cardiac testing or monitoring needed to ensure there are no hidden heart-related concerns. Suggest potential management strategies if a cardiac issue is identified.
                    Please only return the possible causes of the patient's symptoms and the recommended next steps.
                    Medical Report: {medical_report}
                ".

Definition legacy_Psychologist_template : Py.str :=
  Py.lit "
                    Act like a psychologist. You will receive a patient's report.
                    Task: Review the patient's report and provide a psychological assessment.
                    Focus: Identify any potential mental health issues, such as anxiety, depression, or trauma, that may be affecting the patient's well-being.
                    Recommendation: Offer guidance on how to address these mental health concerns, including therapy, counseling, or other interventions.
                    Please only return the possible mental health issues and the recommended next steps.
                    Patient's Report: {medical_report}
                ".

Definition legacy_Pulmonologist_template : Py.str :=
  Py.lit "
                    Act like a pulmonologist. You will receive a patient's report.
                    Task: Review the patient's report and provide a pulmonary assessment.
                    Focus: Identify any potential respiratory issues, such as asthma, COPD, or lung infections, that may be affecting the patient's breathing.
                    Recommendation: Offer guidance on how to address these respiratory concerns, including pulmonary function tests, imaging studies, or other interventions.
                    Please only return the possible respiratory issues and the recommended next steps.
                    Patient's Report: {medical_report}
                ".

(** The template of each specialist role. *)
Definition legacy_templates : list (Py.str * Py.str) :=
  [ (Py.lit "Cardiologist", legacy_Cardiologist_template);
    (Py.lit "Psychologist", legacy_Psychologist_template);
    (Py.lit "Pulmonologist", legacy_Pulmonologist_template) ].

(** [str(value)] for a value that is a string or [None]. *)
Definition str_of (value : option Py.str) : Py.str :=
  match value with
  | Some s => s
  | None => Py.lit "None"
  end.

(** An agent: its report, its role, its extra information, and the
    template built when it is created.  The client is created with
    temperature 0. *)
Record Agent := {
  agent_medical_report : option Py.str;
  agent_role : option Py.str;
  agent_extra_info : option (list (Py.str * option Py.str));
  agent_prompt_template : Py.str
}.

Definition legacy_model : ChatOpenAI :=
  {| temperature := 0%float; model := "gemini-3-flash-preview" |}.

(** [create_prompt_template]: the team's template is built with the
    three reports inside, their braces doubled; any other role takes
    its template from the table. *)
Definition create_prompt_template (role : option Py.str)
    (extra_info : option (list (Py.str * option Py.str))) : Outcome Py.str :=
  if match role with
     | Some r => Py.eqb r (Py.lit "MultidisciplinaryTeam")
     | None => false
     end
  then
    match extra_info with
    | None =>
        Failed (PythonError "AttributeError"
                  (Py.lit "'NoneType' object has no attribute 'get'"))
    | Some info =>
        let escaped key :=
          Py.replace (Py.lit "}") (Py.lit "}}")
            (Py.replace (Py.lit "{") (Py.lit "{{")
               (str_of (match lookup key info with
                        | Some value => value
                        | None => Some []
                        end))) in
        let cardiologist_report := escaped (Py.lit "cardiologist_report") in
        let psychologist_report := escaped (Py.lit "psychologist_report") in
        let pulmonologist_report := escaped (Py.lit "pulmonologist_report") in
        Returned (legacy_team_opening ++ cardiologist_report
                    ++ legacy_team_before_psychologist ++ psychologist_report
                    ++ legacy_team_before_pulmonologist ++ pulmonologist_report
                    ++ legacy_team_closing)
    end
  else
    match role with
    | Some r =>
        match lookup r legacy_templates with
        | Some template => Returned template
        | None => Failed (PythonError "KeyError" (Py.lit "'" ++ r ++ Py.lit "'"))
        end
    | None => Failed (PythonError "KeyError" (Py.lit "None"))
    end.

(** [Agent(medical_report, role, extra_info)] *)
Definition new_agent (medical_report role : option Py.str)
    (extra_info : option (list (Py.str * option Py.str))) : Outcome Agent :=
  match create_prompt_template role extra_info with
  | Returned template =>
      Returned {| agent_medical_report := medical_report; agent_role := role;
                  agent_extra_info := extra_info; agent_prompt_template := template |}
  | Failed e => Failed e
  end.

Definition Cardiologist (medical_report : Py.str) : Outcome Agent :=
  new_agent (Some medical_report) (Some (Py.lit "Cardiologist")) None.

Definition Psychologist (medical_report : Py.str) : Outcome Agent :=
  new_agent (Some medical_report) (Some (Py.lit "Psychologist")) None.

Definition Pulmonologist (medical_report : Py.str) : Outcome Agent :=
  new_agent (Some medical_report) (Some (Py.lit "Pulmonologist")) None.

Definition MultidisciplinaryTeam
    (cardiologist_report psychologist_report pulmonologist_report : option Py.str)
    : Outcome Agent :=
  new_agent None (Some (Py.lit "MultidisciplinaryTeam"))
    (Some [ (Py.lit "cardiologist_report", cardiologist_report);
            (Py.lit "psychologist_report", psychologist_report);
            (Py.lit "pulmonologist_report", pulmonologist_report) ]).

(** [Agent.run]: the response text, or [None] when the call fails.
    [site] tells the agent's call apart from the others. *)
Definition agent_run (port : Port) (site : CallSite) (self : Agent)
    : M (option Py.str) :=
  prompt <- lift (format (agent_prompt_template self)
                    [(Py.lit "medical_report", str_of (agent_medical_report self))]) ;;
  try_except
    (fun log =>
       let log' := log ++ [{| inv_site := site; inv_model := legacy_model;
                              inv_prompt := prompt |}] in
       match port site prompt with
       | Returns content => (Ok (Some (flatten_content content)), log')
       | Throws message => (Raise (RemoteCallError message), log')
       end)
    (fun e => ret None).

(** What [Agent.run] makes of a response, and the call it logs. *)
Definition reply_of (response : Response) : option Py.str :=
  match response with
  | Returns content => Some (flatten_content content)
  | Throws _ => None
  end.

Definition legacy_call (site : CallSite) (directive : Py.str) : Invocation :=
  {| inv_site := site; inv_model := legacy_model; inv_prompt := directive |}.

(** The text an agent sends for a template and a report. *)
Definition legacy_directive (template medical_report : Py.str) : Py.str :=
  match format template [(Py.lit "medical_report", medical_report)] with
  | Ok directive => directive
  | Raise _ => []
  end.

(** The text of the team around three reports. *)
Definition legacy_team_directive
    (cardiologist_report psychologist_report pulmonologist_report : Py.str) : Py.str :=
  legacy_team_opening ++ cardiologist_report
    ++ legacy_team_before_psychologist ++ psychologist_report
    ++ legacy_team_before_pulmonologist ++ pulmonologist_report
    ++ legacy_team_closing.

(** ** The command-line script ([Main.py]) *)

(** [get_response]: the name of the agent with what its run returns. *)
Definition get_response (port : Port) (slot : nat) (agent_name : Py.str)
    (agent : Agent) : M (Py.str * option Py.str) :=
  response <- agent_run port (SpecialistCall slot) agent ;;
  ret (agent_name, response).

(** [as_completed]: every future once, in the order the workers finish;
    [order] may name a worker twice or name none that exists. *)
Fixpoint as_completed (n : nat) (order seen : list nat) : list nat :=
  match order with
  | [] => []
  | i :: rest =>
      if Nat.ltb i n && negb (existsb (Nat.eqb i) seen)
      then i :: as_completed n rest (i :: seen)
      else as_completed n rest seen
  end.

(** The workers run to their end whatever becomes of the loop that
    reads them; each leaves what it returned or raised. *)
Fixpoint run_workers (port : Port) (agents : list (Py.str * Agent))
    (order : list nat) (log : Log)
    : list (Result (Py.str * option Py.str)) * Log :=
  match order with
  | [] => ([], log)
  | i :: rest =>
      match nth_error agents i with
      | Some (agent_name, agent) =>
          let (outcome, log1) := get_response port i agent_name agent log in
          let (outcomes, log2) := run_workers port agents rest log1 in
          (outcome :: outcomes, log2)
      | None => run_workers port agents rest log
      end
  end.

(** [d[key] = value] *)
Fixpoint set_item {V} (key : Py.str) (value : V) (d : list (Py.str * V))
    : list (Py.str * V) :=
  match d with
  | [] => [(key, value)]
  | (k, v) :: d' =>
      if Py.eqb key k then (k, value) :: d' else (k, v) :: set_item key value d'
  end.

(** [d[key]] *)
Definition get_item {V} (key : Py.str) (d : list (Py.str * V)) : Result V :=
  match lookup key d with
  | Some value => Ok value
  | None => Raise (KeyError key)
  end.

(** The loop over the finished futures: [future.result()] raises what
    the worker raised. *)
Fixpoint collect_responses (outcomes : list (Result (Py.str * option Py.str)))
    (responses : list (Py.str * option Py.str))
    : Result (list (Py.str * option Py.str)) :=
  match outcomes with
  | [] => Ok responses
  | Ok (agent_name, response) :: rest =>
      collect_responses rest (set_item agent_name response responses)
  | Raise e :: _ => Raise e
  end.

(** [sanitize_text] of the script, given what the team's run returned. *)
Definition sanitize_text (text : option Py.str) : Outcome Py.str :=
  match text with
  | Some text =>
      Returned (fold_left (fun text r => Py.replace (fst r) (snd r) text)
                  replacements text)
  | None =>
      Failed (PythonError "AttributeError"
                (Py.lit "'NoneType' object has no attribute 'replace'"))
  end.

(** The script from the report it has read to the text it writes. *)
Definition main_script (port : Port) (completion_order : list nat)
    (medical_report : Py.str) : M (Outcome Py.str) :=
  match Cardiologist medical_report, Psychologist medical_report,
        Pulmonologist medical_report with
  | Returned cardiologist, Returned psychologist, Returned pulmonologist =>
      let agents := [ (Py.lit "Cardiologist", cardiologist);
                      (Py.lit "Psychologist", psychologist);
                      (Py.lit "Pulmonologist", pulmonologist) ] in
      outcomes <- (fun log =>
                     let (outcomes, log') :=
                       run_workers port agents
                         (as_completed (length agents)
                            (completion_order ++ seq 0 (length agents)) [])
                         log in
                     (Ok outcomes, log')) ;;
      responses <- lift (collect_responses outcomes []) ;;
      cardiologist_report <- lift (get_item (Py.lit "Cardiologist") responses) ;;
      psychologist_report <- lift (get_item (Py.lit "Psychologist") responses) ;;
      pulmonologist_report <- lift (get_item (Py.lit "Pulmonologist") responses) ;;
      match MultidisciplinaryTeam cardiologist_report psychologist_report
              pulmonologist_report with
      | Returned team_agent =>
          final_diagnosis <- agent_run port TeamCall team_agent ;;
          ret (sanitize_text final_diagnosis)
      | Failed failure => ret (Failed failure)
      end
  | Failed failure, _, _ | _, Failed failure, _ | _, _, Failed failure =>
      ret (Failed failure)
  end.

(** ** Text for the PDF report ([pdf_generator.py]) *)

(** The table of [_sanitize_for_pdf], in the order it is written. *)
Definition pdf_replacements : list (Py.str * Py.str) :=
  [ ([0x2018%N], Py.lit "'"); ([0x2019%N], Py.lit "'");
    ([0x201C%N], [34%N]); ([0x201D%N], [34%N]);
    ([0x2013%N], Py.lit "-"); ([0x2014%N], Py.lit "--");
    ([0x2026%N], Py.lit "...");
    ([0x2022%N], Py.lit "-");
    ([0x00A0%N], Py.lit " ");
    (Py.lit "&", Py.lit "&amp;");
    (Py.lit "<", Py.lit "&lt;");
    (Py.lit ">", Py.lit "&gt;") ].

(** Sanitize text for the PDF library: one replacement after the
    other, each over the whole text. *)
Definition _sanitize_for_pdf (text : Py.str) : Py.str :=
  fold_left (fun text r => Py.replace (fst r) (snd r) text) pdf_replacements text.

(** What the table gives for one character read on its own. *)
Definition pdf_character (c : Py.char) : Py.str :=
  match lookup [c] pdf_replacements with
  | Some replacement => replacement
  | None => [c]
  end.

(** ** Usage tracking ([api_usage_tracker.py]) *)

Definition SKIP_PATHS : list Py.str :=
  [ Py.lit "/"; Py.lit "/health"; Py.lit "/docs"; Py.lit "/redoc";
    Py.lit "/openapi.json"; Py.lit "/favicon.ico" ].

(** The class [[a-f0-9]] of the pattern. *)
Definition is_objectid_char (c : Py.char) : bool :=
  ((48 <=? c) && (c <=? 57) || (97 <=? c) && (c <=? 102))%N.

(** The next [n] characters exist and are of the class. *)
Fixpoint objectid_chars (n : nat) (s : Py.str) : bool :=
  match n with
  | O => true
  | S n' =>
      match s with
      | c :: s' => is_objectid_char c && objectid_chars n' s'
      | [] => false
      end
  end.

(** [_OBJECTID_RE.sub] with the text of the source: every match of a
    slash and twenty-four characters of the class, leftmost first and
    without overlap, gives way to a slash and the word id in braces.
    [skip] counts the characters of a match still to be consumed. *)
Fixpoint objectid_sub_from (path : Py.str) (skip : nat) : Py.str :=
  match path with
  | [] => []
  | c :: path' =>
      match skip with
      | S k => objectid_sub_from path' k
      | O =>
          if N.eqb c 47 && objectid_chars 24 path'
          then Py.lit "/{id}" ++ objectid_sub_from path' 24
          else c :: objectid_sub_from path' 0
      end
  end.

Definition objectid_sub (path : Py.str) : Py.str := objectid_sub_from path 0.

(** The key under which [dispatch] counts a request, or nothing when
    the request is not counted. *)
Definition endpoint_key (method path : Py.str) : option Py.str :=
  if Py.mem path SKIP_PATHS || negb (Py.startswith (Py.lit "/api/") path)
  then None
  else
    let normalized_path := objectid_sub path in
    Some (method ++ Py.lit " " ++ normalized_path).
(** * Properties *)

(** ** Strings *)

Lemma eqb_eq (a b : Py.str) : Py.eqb a b = true <-> a = b.
Proof.
  revert b; induction a as [|x a IH]; intros [|y b]; simpl;
    try (split; [discriminate | discriminate]); try tauto.
  rewrite andb_true_iff, N.eqb_eq, IH. split.
  - intros [-> ->]; reflexivity.
  - intros E; injection E; auto.
Qed.

Lemma mem_In (x : Py.str) (xs : list Py.str) : Py.mem x xs = true <-> In x xs.
Proof.
  unfold Py.mem. rewrite existsb_exists. split.
  - intros (y & Hy & E). apply eqb_eq in E. subst; assumption.
  - intros H. exists x. split; [assumption | apply eqb_eq; reflexivity].
Qed.

Lemma mem_false (x : Py.str) (xs : list Py.str) : Py.mem x xs = false <-> ~ In x xs.
Proof.
  rewrite <- mem_In. destruct (Py.mem x xs); split; intros; congruence.
Qed.

(** Replacing a one-character pattern rewrites each character on its own. *)
Lemma replace_char (u : Py.char) (a s : Py.str) :
  Py.replace [u] a s = flat_map (fun x => if N.eqb u x then a else [x]) s.
Proof.
  unfold Py.replace. induction s as [|x s IH]; simpl; [reflexivity|].
  destruct (N.eqb u x); simpl; rewrite IH; reflexivity.
Qed.

Lemma replace_char_app (u : Py.char) (a s1 s2 : Py.str) :
  Py.replace [u] a (s1 ++ s2) = Py.replace [u] a s1 ++ Py.replace [u] a s2.
Proof. rewrite !replace_char. apply flat_map_app. Qed.

Lemma escape_braces_replace (text : Py.str) :
  Py.replace (Py.lit "}") (Py.lit "}}")
    (Py.replace (Py.lit "{") (Py.lit "{{") text) = escape_braces text.
Proof.
  change (Py.lit "}") with [rbrace]. change (Py.lit "{") with [lbrace].
  rewrite !replace_char. unfold escape_braces.
  induction text as [|c text IH]; [reflexivity|].
  cbn [flat_map]. rewrite flat_map_app, IH. f_equal.
  rewrite (N.eqb_sym c lbrace), (N.eqb_sym c rbrace).
  destruct (N.eqb_spec lbrace c) as [<-|Hl]; [reflexivity|].
  cbn [flat_map orb app]. rewrite app_nil_r.
  destruct (N.eqb_spec rbrace c) as [<-|Hr]; reflexivity.
Qed.

(** ** Normalisation *)

Lemma replacements_one_char : one_char_keys replacements.
Proof. unfold one_char_keys, replacements. repeat constructor; eexists; reflexivity. Qed.

Lemma fold_replace_app (rs : list (Py.str * Py.str)) :
  one_char_keys rs ->
  forall s1 s2,
    fold_left (fun text r => Py.replace (fst r) (snd r) text) rs (s1 ++ s2)
    = fold_left (fun text r => Py.replace (fst r) (snd r) text) rs s1
      ++ fold_left (fun text r => Py.replace (fst r) (snd r) text) rs s2.
Proof.
  induction 1 as [|r rs [u Hu] _ IH]; intros s1 s2; cbn [fold_left]; [reflexivity|].
  rewrite Hu, replace_char_app. apply IH.
Qed.

Lemma fold_replace_nil (rs : list (Py.str * Py.str)) :
  one_char_keys rs ->
  fold_left (fun text r => Py.replace (fst r) (snd r) text) rs [] = [].
Proof.
  induction 1 as [|r rs [u Hu] _ IH]; cbn [fold_left]; [reflexivity|].
  rewrite Hu. exact IH.
Qed.

Lemma fold_replace_other (rs : list (Py.str * Py.str)) (x : Py.char) :
  one_char_keys rs -> ~ In x (flat_map fst rs) ->
  fold_left (fun text r => Py.replace (fst r) (snd r) text) rs [x] = [x].
Proof.
  induction 1 as [|r rs [u Hu] _ IH]; cbn [fold_left flat_map]; intros Hx;
    [reflexivity|].
  rewrite Hu in *. rewrite replace_char. cbn [flat_map app] in *.
  destruct (N.eqb_spec u x) as [->|_]; [exfalso; apply Hx; left; reflexivity|].
  apply IH. intros H. apply Hx. right. exact H.
Qed.

Lemma sanitize_cons (x : Py.char) (s : Py.str) :
  _sanitize_text (x :: s) = _sanitize_text [x] ++ _sanitize_text s.
Proof.
  unfold _sanitize_text. change (x :: s) with ([x] ++ s).
  apply fold_replace_app, replacements_one_char.
Qed.

Lemma sanitize_char_clean (x u : Py.char) :
  In u mapped_characters -> ~ In u (_sanitize_text [x]).
Proof.
  intros Hu. destruct (in_dec N.eq_dec x mapped_characters) as [Hx|Hx].
  - unfold mapped_characters in Hx, Hu. simpl in Hx, Hu.
    repeat (destruct Hx as [<-|Hx]; [vm_compute; intuition congruence|]).
    destruct Hx.
  - unfold _sanitize_text.
    rewrite (fold_replace_other replacements x replacements_one_char Hx).
    intros [<-|[]]. exact (Hx Hu).
Qed.

Lemma sanitize_clean (s : Py.str) (u : Py.char) :
  In u mapped_characters -> ~ In u (_sanitize_text s).
Proof.
  intros Hu. induction s as [|x s IH].
  - unfold _sanitize_text. rewrite (fold_replace_nil replacements replacements_one_char). intros [].
  - rewrite sanitize_cons, in_app_iff. intros [H|H].
    + exact (sanitize_char_clean x u Hu H).
    + exact (IH H).
Qed.

(** ** The registry and the directives *)

Lemma lookup_none {V} (key : Py.str) (d : list (Py.str * V)) :
  ~ In key (map fst d) -> lookup key d = None.
Proof.
  induction d as [|[k v] d IH]; simpl; intros H; [reflexivity|].
  destruct (Py.eqb key k) eqn:E.
  - apply eqb_eq in E. subst. tauto.
  - apply IH. tauto.
Qed.

Lemma specialist_directive_known (name medical_report : Py.str) :
  known name -> exists p, specialist_directive name medical_report = Ok p.
Proof.
  unfold known, AVAILABLE_SPECIALISTS. simpl. intros H.
  repeat (destruct H as [<-|H]; [vm_compute; eexists; reflexivity|]).
  destruct H.
Qed.


Lemma known_dec (name : Py.str) : {known name} + {~ known name}.
Proof.
  unfold known. destruct (Py.mem name AVAILABLE_SPECIALISTS) eqn:E.
  - left. apply mem_In. exact E.
  - right. apply mem_false. exact E.
Qed.

Lemma selector_directive_ok (medical_report : Py.str) :
  exists p, selector_directive medical_report = Ok p.
Proof. vm_compute. eexists. reflexivity. Qed.

Lemma chat_system_prompt_ok (diagnosis_context : Py.str) :
  exists p, format CHAT_SYSTEM_PROMPT
              [(Py.lit "diagnosis_context", diagnosis_context)] = Ok p.
Proof. vm_compute. eexists. reflexivity. Qed.

Lemma team_template_filled (section : Py.str) :
  Py.replace (Py.lit "{specialist_reports_section}") section TEAM_PROMPT_TEMPLATE
  = team_preamble ++ section ++ nl.
Proof. vm_compute. reflexivity. Qed.

Lemma reports_section_blocks (reports : list SpecialistReport) (acc : Py.str) :
  fold_left
    (fun reports_section report =>
       let name := specialist_name report in
       let content :=
         Py.replace (Py.lit "}") (Py.lit "}}")
           (Py.replace (Py.lit "{") (Py.lit "{{") (report_content report)) in
       reports_section ++ (nl ++ name ++ Py.lit " Report:" ++ nl ++ content ++ nl))
    reports acc
  = acc ++ concat (map report_block reports).
Proof.
  revert acc. induction reports as [|r reports IH]; intros acc; cbn [fold_left map concat].
  - rewrite app_nil_r. reflexivity.
  - rewrite IH. cbv zeta. rewrite escape_braces_replace, <- app_assoc. reflexivity.
Qed.

(** ** One worker, and the aggregator *)

(** A worker renders its directive, builds its client, and only then
    enters the block that catches what the call raises. *)
Lemma run_specialist_eq (port : Port) (slot : nat) (name medical_report : Py.str) (log : Log) :
  _run_specialist port slot name medical_report log
  = match specialist_directive name medical_report with
    | Ok p =>
        match client_error port engine_model with
        | None =>
            (Ok (report_of name (port (SpecialistCall slot) p)),
             log ++ [{| inv_site := SpecialistCall slot; inv_model := engine_model;
                        inv_prompt := p |}])
        | Some message => (Raise (OpenAIError message), log)
        end
    | Raise e => (Raise e, log)
    end.
Proof.
  unfold _run_specialist, specialist_directive, _get_model, new_ChatOpenAI,
    bind, lift, try_except, invoke, ret, raise, report_of.
  destruct (lookup name SPECIALISTS) as [spec|]; [|reflexivity].
  destruct (format (prompt spec) _) as [p|e]; [|reflexivity].
  destruct (client_error port engine_model); [reflexivity|].
  destruct (port (SpecialistCall slot) p); reflexivity.
Qed.

Lemma run_team_diagnosis_eq (port : Port) (reports : list SpecialistReport) (log : Log) :
  _run_team_diagnosis port reports log
  = match client_error port engine_model with
    | None =>
        (Ok (diagnosis_of (port TeamCall (team_directive reports))),
         log ++ [{| inv_site := TeamCall; inv_model := engine_model;
                    inv_prompt := team_directive reports |}])
    | Some message => (Raise (OpenAIError message), log)
    end.
Proof.
  unfold _run_team_diagnosis, _get_model, new_ChatOpenAI,
    bind, try_except, invoke, ret, raise, diagnosis_of.
  rewrite reports_section_blocks, team_template_filled. cbn [app].
  fold (team_directive reports).
  destruct (client_error port engine_model); [reflexivity|].
  destruct (port TeamCall (team_directive reports)); reflexivity.
Qed.

(** ** The worker pool *)

Lemma length_set_nth {A} (i : nat) (x : A) (l : list A) :
  length (set_nth i x l) = length l.
Proof.
  revert i; induction l as [|y l IH]; intros [|i]; simpl; auto.
Qed.

Lemma nth_error_set_nth_same {A} (i : nat) (x : A) (l : list A) :
  i < length l -> nth_error (set_nth i x l) i = Some x.
Proof.
  revert i; induction l as [|y l IH]; intros [|i]; simpl; intros H;
    try lia; auto. apply IH. lia.
Qed.

Lemma nth_error_set_nth_other {A} (i j : nat) (x : A) (l : list A) :
  i <> j -> nth_error (set_nth i x l) j = nth_error l j.
Proof.
  revert i j; induction l as [|y l IH]; intros [|i] [|j]; simpl; intros H;
    try congruence; auto.
Qed.

Lemma run_specialist_known (port : Port) (slot : nat) (name medical_report : Py.str)
    (log : Log) :
  usable port engine_model ->
  known name ->
  exists p,
    specialist_directive name medical_report = Ok p
    /\ _run_specialist port slot name medical_report log
       = (Ok (worker_report port medical_report slot name),
          log ++ [{| inv_site := SpecialistCall slot; inv_model := engine_model;
                     inv_prompt := p |}]).
Proof.
  intros Hclient H. destruct (specialist_directive_known name medical_report H) as [p Hp].
  exists p. split; [exact Hp|].
  rewrite run_specialist_eq. unfold worker_report. rewrite Hp, Hclient. reflexivity.
Qed.

(** Whatever the names are, a worker adds at most one call to the log,
    its own, and the pool itself never raises. *)
Lemma complete_worker_log (port : Port) (medical_report : Py.str)
    (names : list Py.str) (i : nat) (pool : WorkerPool) (log : Log) :
  exists pool' new,
    complete_worker port medical_report names i pool log = (Ok pool', log ++ new)
    /\ Forall worker_call new.
Proof.
  unfold complete_worker.
  destruct (nth_error names i) as [name|];
    [|exists pool, []; rewrite app_nil_r; split; [reflexivity|constructor]].
  destruct (nth_error (futures pool) i) as [[outcome|]|];
    try (exists pool, []; rewrite app_nil_r; split; [reflexivity|constructor]).
  rewrite run_specialist_eq.
  destruct (specialist_directive name medical_report) as [p|e].
  - destruct (client_error port engine_model).
    + eexists _, []. rewrite app_nil_r. split; [reflexivity|constructor].
    + eexists _, [_]. split; [reflexivity|].
      constructor; [|constructor]. split; [reflexivity|]. exists i. reflexivity.
  - eexists _, []. rewrite app_nil_r. split; [reflexivity|constructor].
Qed.

Lemma complete_workers_log (port : Port) (medical_report : Py.str)
    (names : list Py.str) (order : list nat) (pool : WorkerPool) (log : Log) :
  exists pool' new,
    complete_workers port medical_report names order pool log = (Ok pool', log ++ new)
    /\ Forall worker_call new.
Proof.
  revert pool log. induction order as [|i order IH]; intros pool log; simpl.
  - exists pool, []. rewrite app_nil_r. split; [reflexivity|constructor].
  - unfold bind.
    destruct (complete_worker_log port medical_report names i pool log)
      as (pool1 & new1 & E1 & F1).
    rewrite E1.
    destruct (IH pool1 (log ++ new1)) as (pool2 & new2 & E2 & F2).
    exists pool2, (new1 ++ new2). rewrite E2, app_assoc.
    split; [reflexivity|]. apply Forall_app. split; assumption.
Qed.

Section ValidNames.

Variable port : Port.
Variable medical_report : Py.str.
Variable names : list Py.str.
Hypothesis client_ok : usable port engine_model.
Hypothesis names_known : Forall known names.

Lemma known_at (i : nat) (name : Py.str) :
  nth_error names i = Some name -> known name.
Proof.
  intros H. apply nth_error_In in H.
  rewrite Forall_forall in names_known. auto.
Qed.

Lemma complete_worker_ok (i : nat) (pool : WorkerPool) (log : Log) :
  pool_ok port medical_report names pool ->
  exists pool',
    fst (complete_worker port medical_report names i pool log) = Ok pool'
    /\ pool_ok port medical_report names pool'
    /\ (i < length names -> finished pool' i)
    /\ (forall j, finished pool j -> finished pool' j).
Proof.
  intros (Hlen & Hexc & Hslots). unfold complete_worker.
  destruct (nth_error names i) as [name|] eqn:Hname.
  2:{ exists pool. split; [reflexivity|]. split; [split; auto|]. split; [|auto].
      intros Hi. apply nth_error_None in Hname. lia. }
  assert (Hi : i < length names) by (apply nth_error_Some; congruence).
  destruct (Hslots i name Hname) as [Hpending|Hdone].
  - rewrite Hpending.
    destruct (run_specialist_known port i name medical_report log client_ok
                (known_at i name Hname)) as (p & _ & E).
    rewrite E, Hexc. eexists. split; [reflexivity|].
    unfold pool_ok, finished. cbn [futures first_exception].
    split; [|split].
    + split; [rewrite length_set_nth; exact Hlen|]. split; [reflexivity|].
      intros j name' Hj. destruct (Nat.eq_dec i j) as [<-|Hij].
      * right. rewrite nth_error_set_nth_same by lia.
        rewrite Hname in Hj. injection Hj as <-. reflexivity.
      * rewrite nth_error_set_nth_other by exact Hij. apply Hslots. exact Hj.
    + intros _. eexists. apply nth_error_set_nth_same. lia.
    + intros j [outcome Hj]. destruct (Nat.eq_dec i j) as [<-|Hij].
      * rewrite Hpending in Hj. discriminate Hj.
      * exists outcome. rewrite nth_error_set_nth_other by exact Hij. exact Hj.
  - rewrite Hdone. exists pool. split; [reflexivity|]. split; [split; auto|].
    split; [|auto]. intros _. eexists. exact Hdone.
Qed.

Lemma complete_workers_ok (order : list nat) (pool : WorkerPool) (log : Log) :
  pool_ok port medical_report names pool ->
  exists pool',
    fst (complete_workers port medical_report names order pool log) = Ok pool'
    /\ pool_ok port medical_report names pool'
    /\ (forall i, In i order -> i < length names -> finished pool' i)
    /\ (forall j, finished pool j -> finished pool' j).
Proof.
  revert pool log. induction order as [|i order IH]; intros pool log Hok; simpl.
  - exists pool. split; [reflexivity|]. split; [exact Hok|].
    split; [intros i []|auto].
  - unfold bind.
    destruct (complete_worker_ok i pool log Hok) as (pool1 & E1 & Hok1 & Hi1 & Hmono1).
    destruct (complete_worker port medical_report names i pool log) as [r1 log1].
    simpl in E1. subst r1.
    destruct (IH pool1 log1 Hok1) as (pool2 & E2 & Hok2 & Hin2 & Hmono2).
    exists pool2. split; [exact E2|]. split; [exact Hok2|]. split.
    + intros j [<-|Hj] Hlt; auto.
    + auto.
Qed.

Lemma nth_error_reports_from (slot i : nat) (l : list Py.str) :
  nth_error (reports_from port medical_report slot l) i
  = option_map (worker_report port medical_report (slot + i)) (nth_error l i).
Proof.
  revert slot i. induction l as [|name l IH]; intros slot [|i]; simpl; auto.
  - rewrite Nat.add_0_r. reflexivity.
  - rewrite IH. replace (S slot + i) with (slot + S i) by lia. reflexivity.
Qed.

Lemma length_reports_from (slot : nat) (l : list Py.str) :
  length (reports_from port medical_report slot l) = length l.
Proof. revert slot. induction l; intros; simpl; auto. Qed.

(** Once every worker has finished, the futures hold the workers'
    reports position by position. *)
Lemma all_finished_futures (pool : WorkerPool) :
  pool_ok port medical_report names pool ->
  (forall i, i < length names -> finished pool i) ->
  futures pool = map (fun r => Some (Ok r)) (reports_from port medical_report 0 names).
Proof.
  intros (Hlen & _ & Hslots) Hfin. apply nth_error_ext. intros i.
  rewrite nth_error_map, nth_error_reports_from. simpl.
  destruct (nth_error names i) as [name|] eqn:Hname; simpl.
  - assert (Hi : i < length names) by (apply nth_error_Some; congruence).
    destruct (Hslots i name Hname) as [Hp|Hd]; [|exact Hd].
    destruct (Hfin i Hi) as [outcome Ho]. rewrite Hp in Ho. discriminate Ho.
  - apply nth_error_None. apply nth_error_None in Hname. lia.
Qed.

Lemma collect_reports (reports : list SpecialistReport) :
  flat_map (fun future : Future =>
              match future with
              | Some (Ok report) => [report]
              | _ => []
              end) (map (fun r => Some (Ok r)) reports) = reports.
Proof. induction reports as [|r reports IH]; simpl; [|rewrite IH]; reflexivity. Qed.

Lemma initial_pool_ok :
  pool_ok port medical_report names
    {| futures := repeat None (length names); first_exception := None |}.
Proof.
  split; [apply repeat_length|]. split; [reflexivity|].
  intros i name Hname. left. cbn [futures].
  apply nth_error_repeat. apply nth_error_Some. congruence.
Qed.

(** The run on a non-empty list of known names: every position holds
    the report of its own worker, whatever the completion order, and
    the synthesis call comes last, after the calls of the workers. *)
Lemma run_diagnosis_known_full (completion_order : list nat) (log : Log) :
  names <> [] ->
  exists worker_calls,
    run_diagnosis port completion_order medical_report names log
    = (Ok {| specialist_reports := reports_from port medical_report 0 names;
             final_diagnosis :=
               diagnosis_of
                 (port TeamCall
                    (team_directive (reports_from port medical_report 0 names))) |},
       log ++ worker_calls
           ++ [{| inv_site := TeamCall; inv_model := engine_model;
                  inv_prompt :=
                    team_directive (reports_from port medical_report 0 names) |}])
    /\ Forall worker_call worker_calls.
Proof.
  intros Hne. unfold run_diagnosis.
  assert (Hlen : Nat.eqb (length names) 0 = false)
    by (clear names_known; destruct names; [congruence|reflexivity]).
  rewrite Hlen.
  unfold bind at 1.
  destruct (complete_workers_ok completion_order _ log initial_pool_ok)
    as (pool1 & E1 & Hok1 & _ & _).
  destruct (complete_workers_log port medical_report names completion_order
              {| futures := repeat None (length names); first_exception := None |} log)
    as (pool1' & new1 & L1 & F1).
  rewrite L1 in E1 |- *. cbn [fst] in E1. injection E1 as ->.
  unfold bind at 1.
  destruct (complete_workers_ok (seq 0 (length names)) pool1 (log ++ new1) Hok1)
    as (pool2 & E2 & Hok2 & Hall & _).
  destruct (complete_workers_log port medical_report names (seq 0 (length names))
              pool1 (log ++ new1)) as (pool2' & new2 & L2 & F2).
  rewrite L2 in E2 |- *. cbn [fst] in E2. injection E2 as ->.
  assert (Hfut := all_finished_futures pool2 Hok2
                    (fun i Hi => Hall i (proj2 (in_seq _ _ _) (conj (Nat.le_0_l i) Hi)) Hi)).
  unfold bind, gather. destruct Hok2 as (_ & Hexc & _). rewrite Hexc.
  unfold ret. rewrite Hfut, collect_reports, run_team_diagnosis_eq, client_ok.
  exists (new1 ++ new2). rewrite <- !app_assoc. split; [reflexivity|].
  apply Forall_app. split; assumption.
Qed.

Lemma run_diagnosis_known (completion_order : list nat) (log : Log) :
  names <> [] ->
  fst (run_diagnosis port completion_order medical_report names log)
  = Ok {| specialist_reports := reports_from port medical_report 0 names;
          final_diagnosis :=
            diagnosis_of
              (port TeamCall
                 (team_directive (reports_from port medical_report 0 names))) |}.
Proof.
  intros Hne.
  destruct (run_diagnosis_known_full completion_order log Hne) as (calls & E & _).
  rewrite E. reflexivity.
Qed.

End ValidNames.

(** Whatever the names are, every call the run adds to the log is made
    with the engine's client. *)
Lemma worker_calls_engine (calls : Log) :
  Forall worker_call calls -> Forall engine_call calls.
Proof. apply Forall_impl. intros inv [H _]. exact H. Qed.

Lemma run_diagnosis_log (port : Port) (completion_order : list nat)
    (medical_report : Py.str) (names : list Py.str) (log : Log) :
  exists outcome new,
    run_diagnosis port completion_order medical_report names log
    = (outcome, log ++ new)
    /\ Forall engine_call new.
Proof.
  unfold run_diagnosis. destruct (Nat.eqb (length names) 0).
  - eexists _, []. rewrite app_nil_r. split; [reflexivity|constructor].
  - unfold bind at 1.
    destruct (complete_workers_log port medical_report names completion_order
                {| futures := repeat None (length names); first_exception := None |} log)
      as (pool1 & new1 & E1 & F1).
    rewrite E1. unfold bind at 1.
    destruct (complete_workers_log port medical_report names (seq 0 (length names))
                pool1 (log ++ new1)) as (pool2 & new2 & E2 & F2).
    rewrite E2. unfold bind, gather, raise, ret.
    destruct (first_exception pool2) as [e|].
    + eexists _, (new1 ++ new2). rewrite app_assoc. split; [reflexivity|].
      apply worker_calls_engine. apply Forall_app; split; assumption.
    + rewrite run_team_diagnosis_eq. destruct (client_error port engine_model).
      * eexists _, (new1 ++ new2). rewrite app_assoc. split; [reflexivity|].
        apply worker_calls_engine. apply Forall_app; split; assumption.
      * eexists _, (new1 ++ new2 ++ [_]). rewrite !app_assoc. split; [reflexivity|].
        rewrite <- app_assoc.
        repeat (apply Forall_app; split); try (apply worker_calls_engine; assumption).
        repeat constructor.
Qed.

(** ** The pool when no client can be built *)

Section WithoutClient.

Variable port : Port.
Variable medical_report : Py.str.
Variable names : list Py.str.
Variable message : Py.str.
Hypothesis no_client : client_error port engine_model = Some message.
Hypothesis names_known : Forall known names.

Lemma run_specialist_down (slot : nat) (name : Py.str) (log : Log) :
  known name ->
  _run_specialist port slot name medical_report log
  = (Raise (OpenAIError message), log).
Proof.
  intros H. rewrite run_specialist_eq.
  destruct (specialist_directive_known name medical_report H) as [p ->].
  rewrite no_client. reflexivity.
Qed.

Lemma complete_worker_down (i : nat) (pool : WorkerPool) (log : Log) :
  pool_down message names pool ->
  exists pool',
    complete_worker port medical_report names i pool log = (Ok pool', log)
    /\ pool_down message names pool'
    /\ (i < length names -> finished pool' i)
    /\ (forall j, finished pool j -> finished pool' j).
Proof.
  intros (Hlen & Hslots & Hnone & Hsome). unfold complete_worker.
  destruct (nth_error names i) as [name|] eqn:Hname.
  2:{ exists pool. split; [reflexivity|]. split; [repeat split; auto|].
      split; [|auto]. intros Hi. apply nth_error_None in Hname. lia. }
  assert (Hi : i < length names) by (apply nth_error_Some; congruence).
  assert (Hk : known name).
  { apply nth_error_In in Hname. rewrite Forall_forall in names_known. auto. }
  destruct (Hslots i Hi) as [Hpending|Hdone].
  - rewrite Hpending, (run_specialist_down i name log Hk).
    eexists. split; [reflexivity|]. unfold pool_down, finished.
    cbn [futures first_exception]. split; [|split].
    + split; [rewrite length_set_nth; exact Hlen|]. split; [|split].
      * intros j Hj. destruct (Nat.eq_dec i j) as [<-|Hij].
        -- right. apply nth_error_set_nth_same. lia.
        -- rewrite nth_error_set_nth_other by exact Hij. apply Hslots. exact Hj.
      * destruct (first_exception pool); discriminate.
      * intros e He. destruct (first_exception pool) as [e0|] eqn:E0.
        -- apply Hsome. exact He.
        -- injection He as <-. reflexivity.
    + intros _. eexists. apply nth_error_set_nth_same. lia.
    + intros j [outcome Hj]. destruct (Nat.eq_dec i j) as [<-|Hij].
      * rewrite Hpending in Hj. discriminate Hj.
      * exists outcome. rewrite nth_error_set_nth_other by exact Hij. exact Hj.
  - rewrite Hdone. exists pool. split; [reflexivity|].
    split; [repeat split; auto|]. split; [|auto]. intros _. eexists. exact Hdone.
Qed.

Lemma complete_workers_down (order : list nat) (pool : WorkerPool) (log : Log) :
  pool_down message names pool ->
  exists pool',
    complete_workers port medical_report names order pool log = (Ok pool', log)
    /\ pool_down message names pool'
    /\ (forall i, In i order -> i < length names -> finished pool' i)
    /\ (forall j, finished pool j -> finished pool' j).
Proof.
  revert pool. induction order as [|i order IH]; intros pool Hdown; simpl.
  - exists pool. split; [reflexivity|]. split; [exact Hdown|].
    split; [intros i []|auto].
  - unfold bind.
    destruct (complete_worker_down i pool log Hdown) as (pool1 & E1 & H1 & Hi1 & Hmono1).
    rewrite E1.
    destruct (IH pool1 H1) as (pool2 & E2 & H2 & Hin2 & Hmono2).
    exists pool2. split; [exact E2|]. split; [exact H2|]. split.
    + intros j [<-|Hj] Hlt; auto.
    + auto.
Qed.

(** Without a client every worker raises the error of the constructor
    before it makes its call, and the run raises that error. *)
Lemma run_diagnosis_without_client (completion_order : list nat) (log : Log) :
  names <> [] ->
  run_diagnosis port completion_order medical_report names log
  = (Raise (OpenAIError message), log).
Proof.
  intros Hne. unfold run_diagnosis.
  assert (Hlen : Nat.eqb (length names) 0 = false)
    by (clear names_known; destruct names; [congruence|reflexivity]).
  assert (Hpos : 0 < length names) by (apply Nat.eqb_neq in Hlen; lia).
  rewrite Hlen.
  assert (Hinit : pool_down message names
                    {| futures := repeat None (length names);
                       first_exception := None |}).
  { split; [apply repeat_length|]. cbn [futures first_exception]. split; [|split].
    - intros i Hi. left. apply nth_error_repeat. exact Hi.
    - intros _ i [outcome Hi]. cbn [futures] in Hi.
      destruct (Nat.lt_ge_cases i (length names)) as [Hlt|Hge].
      + rewrite (nth_error_repeat None Hlt) in Hi. discriminate Hi.
      + assert (nth_error (repeat (@None (Result SpecialistReport)) (length names)) i
                = None) as E by (apply nth_error_None; rewrite repeat_length; exact Hge).
        rewrite E in Hi. discriminate Hi.
    - discriminate. }
  unfold bind at 1.
  destruct (complete_workers_down completion_order _ log Hinit)
    as (pool1 & E1 & H1 & _ & _).
  rewrite E1. unfold bind at 1.
  destruct (complete_workers_down (seq 0 (length names)) pool1 log H1)
    as (pool2 & E2 & (_ & _ & Hnone & Hsome) & Hall & _).
  rewrite E2. unfold bind, gather, raise.
  destruct (first_exception pool2) as [e|] eqn:E.
  - rewrite (Hsome e eq_refl). reflexivity.
  - exfalso. apply (Hnone eq_refl 0). apply Hall; [apply in_seq; lia|exact Hpos].
Qed.

End WithoutClient.
(** ** The selector *)

Lemma valid_names_known (selected : list PyVal) : Forall known (valid_names selected).
Proof.
  unfold valid_names. induction selected as [|v selected IH]; cbn [flat_map];
    [constructor|].
  apply Forall_app. split; [|exact IH].
  destruct v; try constructor.
  destruct (Py.mem s AVAILABLE_SPECIALISTS) eqn:E; constructor; [|constructor].
  apply mem_In. exact E.
Qed.

Lemma valid_names_strings (names : list Py.str) :
  valid_names (map PStr names) = drop_unknown names.
Proof.
  unfold valid_names, drop_unknown.
  induction names as [|n names IH]; cbn [map flat_map filter]; [reflexivity|].
  rewrite IH. destruct (Py.mem n AVAILABLE_SPECIALISTS); reflexivity.
Qed.

Lemma pad_valid_policy (valid : list Py.str) : pad_valid valid = pad_with_default valid.
Proof.
  unfold pad_valid, pad_with_default.
  destruct (Nat.ltb (length valid) 2); [|reflexivity].
  destruct (Py.mem General_Practitioner valid); reflexivity.
Qed.

Lemma general_practitioner_known : known General_Practitioner.
Proof. apply mem_In. reflexivity. Qed.

Lemma fallback_known : Forall known fallback_specialists.
Proof. repeat constructor; apply mem_In; reflexivity. Qed.

Lemma pad_valid_known (valid : list Py.str) :
  Forall known valid -> Forall known (pad_valid valid).
Proof.
  intros H. unfold pad_valid.
  destruct (Nat.ltb (length valid) 2); [|exact H].
  destruct (negb (Py.mem General_Practitioner valid)); [|exact H].
  apply Forall_app. split; [exact H|].
  constructor; [exact general_practitioner_known|constructor].
Qed.

Lemma pad_valid_nonempty (valid : list Py.str) : 1 <= length (pad_valid valid).
Proof.
  unfold pad_valid. destruct (Nat.ltb_spec (length valid) 2) as [Hlt|Hge]; [|lia].
  destruct (Py.mem General_Practitioner valid) eqn:E; simpl.
  - apply mem_In in E. destruct valid; [destruct E|simpl; lia].
  - rewrite length_app. simpl. lia.
Qed.

Lemma firstn_known (n : nat) (l : list Py.str) :
  Forall known l -> Forall known (firstn n l).
Proof.
  intros H. rewrite <- (firstn_skipn n l) in H. apply Forall_app in H. apply H.
Qed.

Lemma selection_of_bounds (json_loads : Py.str -> Result PyVal) (answer : Response) :
  1 <= length (selection_of json_loads answer) <= 5
  /\ Forall known (selection_of json_loads answer).
Proof.
  assert (Hfb : 1 <= length fallback_specialists <= 5
                /\ Forall known fallback_specialists)
    by (split; [simpl; lia|exact fallback_known]).
  unfold selection_of. destruct answer as [c|m]; [|exact Hfb].
  destruct (json_loads (json_text c)) as [v|e]; [|exact Hfb].
  destruct (py_iter v) as [selected|e]; [|exact Hfb].
  split.
  - rewrite length_firstn. pose proof (pad_valid_nonempty (valid_names selected)). lia.
  - apply firstn_known, pad_valid_known, valid_names_known.
Qed.

Lemma auto_select_eq (port : Port) (json_loads : Py.str -> Result PyVal)
    (medical_report : Py.str) (log : Log) (p : Py.str) :
  selector_directive medical_report = Ok p ->
  auto_select_specialists port json_loads medical_report log
  = match client_error port selector_model with
    | None =>
        (Ok (selection_of json_loads (port SelectorCall p)),
         log ++ [{| inv_site := SelectorCall; inv_model := selector_model;
                    inv_prompt := p |}])
    | Some message => (Raise (OpenAIError message), log)
    end.
Proof.
  intros Hp. unfold auto_select_specialists. fold (selector_directive medical_report).
  rewrite Hp. fold selector_model.
  unfold new_ChatOpenAI, bind, lift, try_except, invoke, ret, raise, selection_of.
  destruct (client_error port selector_model); [reflexivity|].
  destruct (port SelectorCall p) as [c|m]; [|reflexivity].
  fold (json_text c).
  destruct (json_loads (json_text c)) as [v|e]; [|reflexivity].
  destruct (py_iter v) as [selected|e]; reflexivity.
Qed.

(** ** The chat *)

Lemma generate_chat_response_eq (port : Port) (diagnosis_context : Py.str)
    (chat_history : list HistoryMessage) (user_message : Py.str) (log : Log) :
  usable port chat_model ->
  exists answer directive,
    generate_chat_response port diagnosis_context chat_history user_message log
    = (Ok answer,
       log ++ [{| inv_site := ChatCall; inv_model := chat_model;
                  inv_prompt := directive |}]).
Proof.
  intros Hclient. unfold generate_chat_response.
  destruct (chat_system_prompt_ok diagnosis_context) as [p Hp]. rewrite Hp.
  fold chat_model. unfold new_ChatOpenAI. rewrite Hclient.
  unfold bind, lift, try_except, invoke, ret.
  match goal with |- context [respond port ChatCall ?d] => destruct (respond port ChatCall d) end;
    eexists _, _; reflexivity.
Qed.

Lemma generate_chat_response_without_client (port : Port) (diagnosis_context : Py.str)
    (chat_history : list HistoryMessage) (user_message message : Py.str) (log : Log) :
  client_error port chat_model = Some message ->
  generate_chat_response port diagnosis_context chat_history user_message log
  = (Raise (OpenAIError message), log).
Proof.
  intros Hclient. unfold generate_chat_response.
  destruct (chat_system_prompt_ok diagnosis_context) as [p Hp]. rewrite Hp.
  fold chat_model. unfold new_ChatOpenAI. rewrite Hclient. reflexivity.
Qed.

(** A computation that leaves the log as it was has added no call. *)
Lemma no_new_call (log calls : Log) : log = log ++ calls -> calls = [].
Proof.
  intros H. apply (f_equal (@length Invocation)) in H. rewrite length_app in H.
  destruct calls; [reflexivity|cbn [length] in H; lia].
Qed.

Lemma chat_model_not_deterministic : temperature chat_model <> 0%float.
Proof.
  intros H. assert (E : PrimFloat.eqb (temperature chat_model) 0%float = false)
    by reflexivity.
  rewrite H in E. discriminate E.
Qed.

(** ** The dispatcher *)

Lemma names_of_reports_from (port : Port) (medical_report : Py.str) (slot : nat)
    (names : list Py.str) :
  map specialist_name (reports_from port medical_report slot names) = names.
Proof.
  revert slot. induction names as [|name names IH]; intros slot; simpl;
    [|rewrite IH]; reflexivity.
Qed.

(** C1, as stated, fails: under the default settings no client can be
    built, and the run raises the error of the constructor instead of
    returning one report per name. *)
Lemma run_diagnosis_needs_a_client :
  ~ (forall (port : Port) (completion_order : list nat)
            (medical_report : Py.str) (names : list Py.str),
        names <> [] ->
        Forall known names ->
        exists result,
          fst (run_diagnosis port completion_order medical_report names []) = Ok result
          /\ map specialist_name (specialist_reports result) = names).
Proof.
  intros H.
  destruct (H (port_without_key (Py.lit "The api_key client option must be set")
                 (Py.lit "fine"))
              [] (Py.lit "chest pain") [Py.lit "Cardiologist"])
    as (result & E & _).
  - discriminate.
  - repeat constructor; apply mem_In; reflexivity.
  - vm_compute in E. discriminate E.
Qed.

(** C1, amended: for a non-empty list of registry names, whatever each
    worker's call does and in whatever order the workers finish,
    [run_diagnosis] returns, when the client can be built, one report
    per requested name, and position [i] holds the report that the
    worker of the [i]-th name produced; when the client cannot be built
    the run raises the error of the constructor, and no call is made. *)
Theorem run_diagnosis_one_report_per_name (port : Port) (completion_order : list nat)
    (medical_report : Py.str) (names : list Py.str) (log : Log) :
  names <> [] ->
  Forall known names ->
  (usable port engine_model ->
   exists result,
     fst (run_diagnosis port completion_order medical_report names log) = Ok result
     /\ length (specialist_reports result) = length names
     /\ map specialist_name (specialist_reports result) = names
     /\ forall i name,
          nth_error names i = Some name ->
          exists report,
            nth_error (specialist_reports result) i = Some report
            /\ forall log_i,
                 fst (_run_specialist port i name medical_report log_i) = Ok report)
  /\ (forall message,
        client_error port engine_model = Some message ->
        run_diagnosis port completion_order medical_report names log
        = (Raise (OpenAIError message), log)).
Proof.
  intros Hne Hknown. split.
  - intros Hclient. eexists. split.
    + apply run_diagnosis_known; assumption.
    + cbn [specialist_reports]. split; [apply length_reports_from|].
      split; [apply names_of_reports_from|].
      intros i name Hname. eexists. split.
      * rewrite nth_error_reports_from, Hname. reflexivity.
      * intros log_i.
        destruct (run_specialist_known port i name medical_report log_i Hclient
                    (known_at names Hknown i name Hname)) as (p & _ & E).
        rewrite E. reflexivity.
  - intros message Hdown.
    apply (run_diagnosis_without_client port medical_report names message Hdown Hknown).
    exact Hne.
Qed.

Lemma run_diagnosis_one_report_per_name_witness :
  let names := [Py.lit "Cardiologist"; Py.lit "Psychologist"; Py.lit "Cardiologist"] in
  names <> [] /\ Forall known names
  /\ (exists result,
        fst (run_diagnosis (port_failing (Py.lit "timeout")) [2; 0] (Py.lit "chest pain")
               names []) = Ok result
        /\ length (specialist_reports result) = 3
        /\ map specialist_name (specialist_reports result) = names)
  /\ run_diagnosis (port_without_key (Py.lit "no key") (Py.lit "fine")) [2; 0]
       (Py.lit "chest pain") names []
     = (Raise (OpenAIError (Py.lit "no key")), []).
Proof.
  cbv zeta.
  assert (Hne : [Py.lit "Cardiologist"; Py.lit "Psychologist"; Py.lit "Cardiologist"] <> [])
    by discriminate.
  assert (Hknown : Forall known
            [Py.lit "Cardiologist"; Py.lit "Psychologist"; Py.lit "Cardiologist"])
    by (repeat constructor; apply mem_In; reflexivity).
  split; [exact Hne|]. split; [exact Hknown|]. split.
  - destruct (proj1 (run_diagnosis_one_report_per_name (port_failing (Py.lit "timeout"))
                       [2; 0] (Py.lit "chest pain") _ [] Hne Hknown) eq_refl)
      as (result & E & Hlen & Hnames & _).
    exists result. split; [exact E|]. split; [exact Hlen|exact Hnames].
  - apply (proj2 (run_diagnosis_one_report_per_name
                    (port_without_key (Py.lit "no key") (Py.lit "fine"))
                    [2; 0] (Py.lit "chest pain") _ [] Hne Hknown)).
    reflexivity.
Defined.

(** C2, as stated, fails: the entry of a worker whose call failed is
    flagged by nothing but its text.  A worker whose call returned the
    placeholder text yields the very same entry, so no flag read from
    the entries tells the two apart. *)
Lemma failed_entry_carries_no_flag :
  ~ (exists flagged_failed : SpecialistReport -> bool,
        forall (port : Port) (slot : nat) (name medical_report p : Py.str),
          usable port engine_model ->
          specialist_directive name medical_report = Ok p ->
          exists entry,
            fst (_run_specialist port slot name medical_report []) = Ok entry
            /\ (flagged_failed entry = true
                <-> exists message, port (SpecialistCall slot) p = Throws message)).
Proof.
  intros (flagged_failed & H).
  pose (p := match specialist_directive (Py.lit "Oncologist") (Py.lit "chest pain") with
             | Ok p => p
             | Raise _ => []
             end).
  assert (Hp : specialist_directive (Py.lit "Oncologist") (Py.lit "chest pain") = Ok p)
    by (vm_compute; reflexivity).
  destruct (H (port_failing (Py.lit "timeout")) 0 (Py.lit "Oncologist")
              (Py.lit "chest pain") p eq_refl Hp) as (failed & Efailed & Hfailed).
  destruct (H (port_saying (Py.lit "Error: Could not generate report. timeout")) 0
              (Py.lit "Oncologist") (Py.lit "chest pain") p eq_refl Hp)
    as (genuine & Egenuine & Hgenuine).
  assert (Hsame : failed = genuine).
  { vm_compute in Efailed, Egenuine. rewrite Efailed in Egenuine.
    injection Egenuine as E. exact E. }
  subst genuine.
  assert (Hflag : flagged_failed failed = true)
    by (apply Hfailed; exists (Py.lit "timeout"); reflexivity).
  apply Hgenuine in Hflag. destruct Hflag as [message Hm]. discriminate Hm.
Qed.

(** C2, amended: when the call of one worker is made and fails, the
    entry of that analyzer is its name with the placeholder text
    followed by the cause, every worker whose call returned has its own
    normalised output, and the run itself returns.  [calls] are the
    calls the run has added to the log. *)
Theorem failed_worker_gets_placeholder (port : Port) (completion_order : list nat)
    (medical_report : Py.str) (names : list Py.str) (log calls : Log)
    (i : nat) (name p message : Py.str) :
  Forall known names ->
  nth_error names i = Some name ->
  snd (run_diagnosis port completion_order medical_report names log) = log ++ calls ->
  In {| inv_site := SpecialistCall i; inv_model := engine_model; inv_prompt := p |}
     calls ->
  specialist_directive name medical_report = Ok p ->
  port (SpecialistCall i) p = Throws message ->
  exists result,
    fst (run_diagnosis port completion_order medical_report names log) = Ok result
    /\ length (specialist_reports result) = length names
    /\ nth_error (specialist_reports result) i
       = Some {| specialist_name := name;
                 report_content :=
                   Py.lit "Error: Could not generate report. " ++ message |}
    /\ forall j name_j p_j content,
         nth_error names j = Some name_j ->
         specialist_directive name_j medical_report = Ok p_j ->
         port (SpecialistCall j) p_j = Returns content ->
         nth_error (specialist_reports result) j
         = Some {| specialist_name := name_j;
                   report_content := _sanitize_text (flatten_content content) |}.
Proof.
  intros Hknown Hname Hlog Hcall Hp Hfail.
  assert (Hne : names <> []) by (intros ->; destruct i; discriminate Hname).
  assert (Hclient : usable port engine_model).
  { unfold usable. destruct (client_error port engine_model) as [m|] eqn:Hm;
      [exfalso|reflexivity].
    rewrite (run_diagnosis_without_client port medical_report names m Hm Hknown
               completion_order log Hne) in Hlog.
    cbn [snd] in Hlog. apply no_new_call in Hlog. subst calls. destruct Hcall. }
  eexists. split; [apply run_diagnosis_known; assumption|].
  cbn [specialist_reports]. split; [apply length_reports_from|]. split.
  - rewrite nth_error_reports_from, Hname. cbn [option_map Nat.add].
    unfold worker_report. rewrite Hp, Hfail. reflexivity.
  - intros j name_j p_j content Hj Hpj Hret.
    rewrite nth_error_reports_from, Hj. cbn [option_map Nat.add].
    unfold worker_report. rewrite Hpj, Hret. reflexivity.
Qed.

Lemma failed_worker_gets_placeholder_witness :
  exists result,
    fst (run_diagnosis (port_failing_at 2 (Py.lit "timeout") (Py.lit "fine")) [1; 2; 0]
           (Py.lit "chest pain")
           [Py.lit "Cardiologist"; Py.lit "Psychologist"; Py.lit "Pulmonologist"] [])
    = Ok result
    /\ map report_content (specialist_reports result)
       = [Py.lit "fine"; Py.lit "fine";
          Py.lit "Error: Could not generate report. timeout"].
Proof.
  destruct (failed_worker_gets_placeholder
              (port_failing_at 2 (Py.lit "timeout") (Py.lit "fine")) [1; 2; 0]
              (Py.lit "chest pain")
              [Py.lit "Cardiologist"; Py.lit "Psychologist"; Py.lit "Pulmonologist"] []
              (snd (run_diagnosis (port_failing_at 2 (Py.lit "timeout") (Py.lit "fine"))
                      [1; 2; 0] (Py.lit "chest pain")
                      [Py.lit "Cardiologist"; Py.lit "Psychologist";
                       Py.lit "Pulmonologist"] []))
              2 (Py.lit "Pulmonologist")
              (match specialist_directive (Py.lit "Pulmonologist") (Py.lit "chest pain") with
               | Ok p => p
               | Raise _ => []
               end)
              (Py.lit "timeout"))
    as (result & E & _).
  - repeat constructor; apply mem_In; reflexivity.
  - reflexivity.
  - reflexivity.
  - vm_compute. right. left. reflexivity.
  - vm_compute. reflexivity.
  - reflexivity.
  - exists result. split; [exact E|].
    vm_compute in E. injection E as <-. vm_compute. reflexivity.
Defined.

(** C3: when the synthesis call is made and fails, the run still
    returns: the final text is the error text with the cause, and the
    analyzer reports are complete, in order, and the same as in any run
    whose workers receive the same answers.  [calls] are the calls the
    run has added to the log before the synthesis call, [directive] is
    the directive of that call. *)
Theorem synthesis_failure_keeps_reports (port : Port) (completion_order : list nat)
    (medical_report : Py.str) (names : list Py.str) (log calls : Log)
    (directive message : Py.str) :
  names <> [] ->
  Forall known names ->
  snd (run_diagnosis port completion_order medical_report names log)
  = log ++ calls ++ [{| inv_site := TeamCall; inv_model := engine_model;
                        inv_prompt := directive |}] ->
  port TeamCall directive = Throws message ->
  exists result,
    fst (run_diagnosis port completion_order medical_report names log) = Ok result
    /\ final_diagnosis result = Py.lit "Error generating final diagnosis: " ++ message
    /\ length (specialist_reports result) = length names
    /\ (forall i name,
          nth_error names i = Some name ->
          exists report,
            nth_error (specialist_reports result) i = Some report
            /\ fst (_run_specialist port i name medical_report []) = Ok report)
    /\ (forall port' completion_order' log',
          usable port' engine_model ->
          (forall slot directive',
              port' (SpecialistCall slot) directive'
              = port (SpecialistCall slot) directive') ->
          exists result',
            fst (run_diagnosis port' completion_order' medical_report names log')
            = Ok result'
            /\ specialist_reports result' = specialist_reports result).
Proof.
  intros Hne Hknown Hlog Hfail.
  assert (Hclient : usable port engine_model).
  { unfold usable. destruct (client_error port engine_model) as [m|] eqn:Hm;
      [exfalso|reflexivity].
    rewrite (run_diagnosis_without_client port medical_report names m Hm Hknown
               completion_order log Hne) in Hlog.
    cbn [snd] in Hlog. apply no_new_call in Hlog.
    destruct calls; discriminate Hlog. }
  destruct (run_diagnosis_known_full port medical_report names Hclient Hknown
              completion_order log Hne) as (worker_calls & E & _).
  rewrite E in Hlog. cbn [snd] in Hlog. apply app_inv_head in Hlog.
  apply app_inj_tail in Hlog. destruct Hlog as [_ Hsent].
  injection Hsent as Hsent. rewrite <- Hsent in Hfail.
  eexists. split; [rewrite E; reflexivity|].
  cbn [specialist_reports final_diagnosis]. split; [rewrite Hfail; reflexivity|].
  split; [apply length_reports_from|]. split.
  - intros i name Hname. eexists. split.
    + rewrite nth_error_reports_from, Hname. reflexivity.
    + destruct (run_specialist_known port i name medical_report [] Hclient
                  (known_at names Hknown i name Hname)) as (p & _ & Ep).
      rewrite Ep. reflexivity.
  - intros port' order' log' Hclient' Hsame. eexists.
    split; [apply run_diagnosis_known; assumption|].
    cbn [specialist_reports]. generalize 0.
    clear Hne Hknown E Hsent Hfail. induction names as [|name rest IH]; intros slot;
      simpl; [reflexivity|].
    rewrite IH. unfold worker_report. rewrite Hsame. reflexivity.
Qed.

Lemma synthesis_failure_keeps_reports_witness :
  exists result,
    fst (run_diagnosis (port_failing_synthesis (Py.lit "quota") (Py.lit "fine")) [1; 0]
           (Py.lit "chest pain") [Py.lit "Cardiologist"; Py.lit "Oncologist"] [])
    = Ok result
    /\ final_diagnosis result = Py.lit "Error generating final diagnosis: quota"
    /\ length (specialist_reports result) = 2.
Proof.
  pose (run := run_diagnosis (port_failing_synthesis (Py.lit "quota") (Py.lit "fine"))
                 [1; 0] (Py.lit "chest pain")
                 [Py.lit "Cardiologist"; Py.lit "Oncologist"] []).
  destruct (synthesis_failure_keeps_reports
              (port_failing_synthesis (Py.lit "quota") (Py.lit "fine")) [1; 0]
              (Py.lit "chest pain") [Py.lit "Cardiologist"; Py.lit "Oncologist"] []
              (removelast (snd run))
              (match last (snd run) {| inv_site := ChatCall; inv_model := chat_model;
                                       inv_prompt := [] |} with
               | {| inv_prompt := directive |} => directive
               end)
              (Py.lit "quota"))
    as (result & E & Hfinal & Hlen & _).
  - discriminate.
  - repeat constructor; apply mem_In; reflexivity.
  - vm_compute. reflexivity.
  - reflexivity.
  - exists result. split; [exact E|]. split; [exact Hfinal|exact Hlen].
Defined.

(** ** The aggregator *)

(** C5: with its client built, the aggregator makes exactly one call;
    its directive is the team template with the placeholder replaced by
    one block per analyzer result, in input order, each block carrying
    the analyzer's name and its text with every curly brace doubled.  In
    a run over registry names that single call comes after the calls of
    the workers and its blocks are those of the requested names. *)
Theorem aggregator_single_directive (port : Port) (reports : list SpecialistReport)
    (log : Log) :
  usable port engine_model ->
  (exists final call,
      _run_team_diagnosis port reports log = (Ok final, log ++ [call])
      /\ inv_site call = TeamCall
      /\ inv_prompt call = team_preamble ++ concat (map report_block reports) ++ nl)
  /\ TEAM_PROMPT_TEMPLATE
     = team_preamble ++ Py.lit "{specialist_reports_section}" ++ nl
  /\ (forall report,
        report_block report
        = nl ++ specialist_name report ++ Py.lit " Report:" ++ nl
             ++ flat_map (fun c => if N.eqb c lbrace || N.eqb c rbrace
                                   then [c; c] else [c]) (report_content report)
             ++ nl)
  /\ (forall completion_order medical_report names,
        names <> [] -> Forall known names ->
        exists result worker_calls call,
          run_diagnosis port completion_order medical_report names log
          = (Ok result, log ++ worker_calls ++ [call])
          /\ Forall (fun c => exists slot, inv_site c = SpecialistCall slot) worker_calls
          /\ inv_site call = TeamCall
          /\ inv_prompt call
             = team_preamble ++ concat (map report_block (specialist_reports result)) ++ nl
          /\ map specialist_name (specialist_reports result) = names).
Proof.
  intros Hclient. split; [|split; [|split]].
  - eexists _, _. split; [rewrite run_team_diagnosis_eq, Hclient; reflexivity|].
    cbn [inv_site inv_prompt]. split; reflexivity.
  - vm_compute. reflexivity.
  - intros report. reflexivity.
  - intros completion_order medical_report names Hne Hknown.
    destruct (run_diagnosis_known_full port medical_report names Hclient Hknown
                completion_order log Hne) as (worker_calls & E & Hcalls).
    eexists _, worker_calls, _. split; [exact E|].
    cbn [inv_site inv_prompt specialist_reports].
    split; [|split; [reflexivity|split; [reflexivity|apply names_of_reports_from]]].
    revert Hcalls. apply Forall_impl. intros c [_ H]. exact H.
Qed.

Lemma aggregator_single_directive_witness :
  exists result worker_calls call,
    run_diagnosis (port_saying (Py.lit "{fine}")) [1; 0] (Py.lit "chest pain")
      [Py.lit "Cardiologist"; Py.lit "Oncologist"] []
    = (Ok result, worker_calls ++ [call])
    /\ inv_site call = TeamCall
    /\ inv_prompt call
       = team_preamble
           ++ (nl ++ Py.lit "Cardiologist Report:" ++ nl ++ Py.lit "{{fine}}" ++ nl)
           ++ (nl ++ Py.lit "Oncologist Report:" ++ nl ++ Py.lit "{{fine}}" ++ nl)
           ++ nl.
Proof.
  destruct (proj2 (proj2 (proj2 (aggregator_single_directive
                                   (port_saying (Py.lit "{fine}")) [] [] eq_refl)))
              [1; 0] (Py.lit "chest pain")
              [Py.lit "Cardiologist"; Py.lit "Oncologist"])
    as (result & worker_calls & call & E & _ & Hsite & Hprompt & _).
  - discriminate.
  - repeat constructor; apply mem_In; reflexivity.
  - exists result, worker_calls, call. split; [exact E|]. split; [exact Hsite|].
    rewrite Hprompt. vm_compute in E. injection E as <- _. vm_compute. reflexivity.
Defined.

(** ** The diagnosis route *)

Lemma no_invalid_known (names : list Py.str) :
  filter (fun s => negb (Py.mem s AVAILABLE_SPECIALISTS)) names = [] ->
  Forall known names.
Proof.
  induction names as [|n names IH]; cbn [filter]; intros H; [constructor|].
  destruct (Py.mem n AVAILABLE_SPECIALISTS) eqn:E; cbn [negb] in H; [|discriminate H].
  constructor; [apply mem_In; exact E|apply IH; exact H].
Qed.

Lemma invalid_unknown (names : list Py.str) (name : Py.str) :
  In name (filter (fun s => negb (Py.mem s AVAILABLE_SPECIALISTS)) names) ->
  In name names /\ ~ known name.
Proof.
  intros H. apply filter_In in H. destruct H as [Hin Hmem].
  split; [exact Hin|]. apply mem_false. apply negb_true_iff. exact Hmem.
Qed.

Lemma unknown_invalid (names : list Py.str) (name : Py.str) :
  In name names -> ~ known name ->
  filter (fun s => negb (Py.mem s AVAILABLE_SPECIALISTS)) names <> [].
Proof.
  intros Hin Hunknown Hnil.
  assert (H : In name (filter (fun s => negb (Py.mem s AVAILABLE_SPECIALISTS)) names)).
  { apply filter_In. split; [exact Hin|].
    apply negb_true_iff. apply mem_false. exact Hunknown. }
  rewrite Hnil in H. destruct H.
Qed.

Lemma known_no_invalid_names (names : list Py.str) :
  Forall known names ->
  filter (fun s => negb (Py.mem s AVAILABLE_SPECIALISTS)) names = [].
Proof.
  induction 1 as [|n names Hn _ IH]; [reflexivity|].
  cbn [filter]. apply mem_In in Hn. rewrite Hn. exact IH.
Qed.

(** The validation and the run of the route, once the names are fixed. *)
Lemma validate_and_run (port : Port) (completion_order : list nat)
    (report_content : Py.str) (selected : list Py.str) (log : Log) :
  selected <> [] ->
  let invalid := filter (fun s => negb (Py.mem s AVAILABLE_SPECIALISTS)) selected in
  let continuation :=
    match invalid with
    | _ :: _ =>
        raise (HTTPException 400
                 (DetailInvalid
                    {| detail_invalid := invalid;
                       detail_available := AVAILABLE_SPECIALISTS |}))
    | [] =>
        result <- run_diagnosis port completion_order report_content selected ;;
        ret (selected, result)
    end in
  (invalid = [] /\ usable port engine_model
   /\ exists result, fst (continuation log) = Ok (selected, result))
  \/ (invalid = []
      /\ exists message,
           client_error port engine_model = Some message
           /\ continuation log = (Raise (OpenAIError message), log))
  \/ (invalid <> []
      /\ continuation log
         = (Raise (HTTPException 400
                     (DetailInvalid
                        {| detail_invalid := invalid;
                           detail_available := AVAILABLE_SPECIALISTS |})), log)).
Proof.
  intros Hne invalid continuation. subst continuation.
  destruct invalid as [|bad rest] eqn:Hinv.
  - assert (Hknown := no_invalid_known selected Hinv).
    destruct (client_error port engine_model) as [message|] eqn:Hclient.
    + right. left. split; [reflexivity|]. exists message. split; [reflexivity|].
      unfold bind.
      rewrite (run_diagnosis_without_client port report_content selected message
                 Hclient Hknown completion_order log Hne). reflexivity.
    + left. split; [reflexivity|]. split; [exact Hclient|].
      pose proof (run_diagnosis_known port report_content selected Hclient Hknown
                    completion_order log Hne) as E.
      unfold bind, ret.
      destruct (run_diagnosis port completion_order report_content selected log)
        as [r log']. simpl in E. subst r. eexists. reflexivity.
  - right. right. split; [discriminate|reflexivity].
Qed.

(** C4, as stated, fails: with names of the registry and nothing else
    wrong, the run raises under the default settings, where no client
    can be built. *)
Lemma valid_names_may_still_fail :
  ~ (forall (port : Port) (completion_order : list nat) (medical_report : Py.str)
            (names : list Py.str) (e : Exn),
        fst (run_diagnosis port completion_order medical_report names []) = Raise e ->
        names = [] \/ exists name, In name names /\ ~ known name).
Proof.
  intros H.
  destruct (H (port_without_key (Py.lit "The api_key client option must be set")
                 (Py.lit "fine"))
              [] (Py.lit "chest pain") [Py.lit "Cardiologist"]
              (OpenAIError (Py.lit "The api_key client option must be set")))
    as [Hnil|(name & Hin & Hunknown)].
  - vm_compute. reflexivity.
  - discriminate Hnil.
  - destruct Hin as [<-|[]]. apply Hunknown. apply mem_In. reflexivity.
Qed.

(** C4, amended: the dispatch fails only for an empty list, for a name
    outside the registry, or when no client can be built; a request
    naming an unknown analyzer is rejected by the route before any call
    is made; and once the report is loaded, that rejection and the
    error of the constructor are the only exceptions the route lets
    through up to the end of the run, each with no call made. *)
Theorem unknown_name_is_the_only_rejection (port : Port)
    (json_loads : Py.str -> Result PyVal) (completion_order : list nat)
    (report_content : Py.str) (log : Log) :
  (forall names e,
      fst (run_diagnosis port completion_order report_content names log) = Raise e ->
      names = []
      \/ (exists name, In name names /\ ~ known name)
      \/ (exists message,
             client_error port engine_model = Some message
             /\ e = OpenAIError message))
  /\ (forall given name,
        In name given -> ~ known name ->
        run_diagnosis_endpoint port json_loads completion_order (Some given)
          (Found report_content) log
        = (Raise (HTTPException 400
                    (DetailInvalid
                       {| detail_invalid :=
                            filter (fun s => negb (Py.mem s AVAILABLE_SPECIALISTS)) given;
                          detail_available := AVAILABLE_SPECIALISTS |})), log))
  /\ (forall selected e log',
        run_diagnosis_endpoint port json_loads completion_order selected
          (Found report_content) log = (Raise e, log') ->
        log' = log
        /\ ((exists given name,
                selected = Some given /\ In name given /\ ~ known name
                /\ e = HTTPException 400
                         (DetailInvalid
                            {| detail_invalid :=
                                 filter (fun s => negb (Py.mem s AVAILABLE_SPECIALISTS))
                                        given;
                               detail_available := AVAILABLE_SPECIALISTS |}))
            \/ (exists message,
                   client_error port engine_model = Some message
                   /\ e = OpenAIError message))).
Proof.
  split; [|split].
  - intros names e Hraise.
    destruct names as [|n names]; [left; reflexivity|right].
    destruct (Forall_Exists_dec known known_dec (n :: names)) as [Hknown|Hex].
    + right. destruct (client_error port engine_model) as [message|] eqn:Hclient.
      * exists message. split; [reflexivity|].
        rewrite (run_diagnosis_without_client port report_content (n :: names) message
                   Hclient Hknown completion_order log) in Hraise by discriminate.
        injection Hraise as <-. reflexivity.
      * rewrite (run_diagnosis_known port report_content (n :: names) Hclient Hknown
                   completion_order log) in Hraise by discriminate.
        discriminate Hraise.
    + left. apply Exists_exists in Hex. exact Hex.
  - intros given name Hin Hunknown.
    assert (Hne : given <> []) by (intros ->; destruct Hin).
    unfold run_diagnosis_endpoint.
    destruct given as [|g given']; [congruence|].
    unfold bind at 1, ret at 1. unfold bind at 1, ret at 1.
    destruct (validate_and_run port completion_order report_content (g :: given') log Hne)
      as [[Hnil _]|[[Hnil _]|[_ E]]].
    + exfalso. exact (unknown_invalid (g :: given') name Hin Hunknown Hnil).
    + exfalso. exact (unknown_invalid (g :: given') name Hin Hunknown Hnil).
    + exact E.
  - intros selected e log' Hraise. unfold run_diagnosis_endpoint in Hraise.
    unfold bind at 1, ret at 1 in Hraise.
    assert (Hauto :
              forall names log1,
                names <> [] -> Forall known names ->
                usable port engine_model ->
                (let invalid :=
                   filter (fun s => negb (Py.mem s AVAILABLE_SPECIALISTS)) names in
                 match invalid with
                 | _ :: _ =>
                     raise (HTTPException 400
                              (DetailInvalid
                                 {| detail_invalid := invalid;
                                    detail_available := AVAILABLE_SPECIALISTS |}))
                 | [] =>
                     result <- run_diagnosis port completion_order report_content names ;;
                     ret (names, result)
                 end) log1 <> (Raise e, log')).
    { intros names log1 Hne Hknown Hclient Habs.
      destruct (validate_and_run port completion_order report_content names log1 Hne)
        as [(_ & _ & [result E])|[(_ & message & Hm & _)|[Hbad _]]].
      - cbv zeta in Habs. rewrite Habs in E. discriminate E.
      - unfold usable in Hclient. rewrite Hclient in Hm. discriminate Hm.
      - apply Hbad. apply known_no_invalid_names. exact Hknown. }
    assert (Hselect :
              (selected_specialists <-
                   auto_select_specialists port json_loads report_content ;;
                 (let invalid :=
                    filter (fun s => negb (Py.mem s AVAILABLE_SPECIALISTS))
                           selected_specialists in
                  match invalid with
                  | _ :: _ =>
                      raise (HTTPException 400
                               (DetailInvalid
                                  {| detail_invalid := invalid;
                                     detail_available := AVAILABLE_SPECIALISTS |}))
                  | [] =>
                      result <- run_diagnosis port completion_order report_content
                                  selected_specialists ;;
                      ret (selected_specialists, result)
                  end)) log = (Raise e, log') ->
              log' = log
              /\ exists message,
                   client_error port engine_model = Some message
                   /\ e = OpenAIError message).
    { unfold bind at 1. intros Hrun.
      destruct (selector_directive_ok report_content) as [p Hp].
      rewrite (auto_select_eq port json_loads report_content log p Hp) in Hrun.
      change selector_model with engine_model in Hrun.
      destruct (client_error port engine_model) as [message|] eqn:Hclient.
      - injection Hrun as <- <-. split; [reflexivity|]. exists message.
        split; reflexivity.
      - exfalso.
        destruct (selection_of_bounds json_loads (port SelectorCall p)) as [[Hlen _] Hk].
        refine (Hauto _ _ _ Hk Hclient Hrun).
        intros Hnil. rewrite Hnil in Hlen. simpl in Hlen. lia. }
    destruct selected as [[|g given']|].
    + destruct (Hselect Hraise) as (-> & message & Hm & ->).
      split; [reflexivity|]. right. exists message. split; [exact Hm|reflexivity].
    + unfold bind at 1, ret at 1 in Hraise.
      destruct (validate_and_run port completion_order report_content (g :: given') log)
        as [(_ & _ & [result E])|[(_ & message & Hm & E)|[Hbad E]]]; [discriminate| | |].
      * cbv zeta in E. rewrite Hraise in E. discriminate E.
      * cbv zeta in E. rewrite Hraise in E. injection E as -> ->.
        split; [reflexivity|]. right. exists message. split; [exact Hm|reflexivity].
      * cbv zeta in E. rewrite Hraise in E. injection E as -> ->.
        split; [reflexivity|]. left.
        destruct (filter (fun s => negb (Py.mem s AVAILABLE_SPECIALISTS)) (g :: given'))
          as [|bad rest] eqn:Hinv; [congruence|].
        assert (Hin : In bad (filter (fun s => negb (Py.mem s AVAILABLE_SPECIALISTS))
                                (g :: given')))
          by (rewrite Hinv; left; reflexivity).
        apply invalid_unknown in Hin. destruct Hin as [Hin Hunknown].
        exists (g :: given'), bad. repeat split; assumption.
    + destruct (Hselect Hraise) as (-> & message & Hm & ->).
      split; [reflexivity|]. right. exists message. split; [exact Hm|reflexivity].
Qed.

(** Called directly with an unknown name, [run_diagnosis] raises the
    worker's [KeyError] only after the sibling worker has made its call. *)
Example run_diagnosis_unknown_name_directly :
  run_diagnosis (port_saying (Py.lit "fine")) [] (Py.lit "chest pain")
    [Py.lit "Astrologer"; Py.lit "Oncologist"] []
  = (Raise (KeyError (Py.lit "Astrologer")),
     [{| inv_site := SpecialistCall 1; inv_model := engine_model;
         inv_prompt :=
           match specialist_directive (Py.lit "Oncologist") (Py.lit "chest pain") with
           | Ok p => p
           | Raise _ => []
           end |}]).
Proof. vm_compute. reflexivity. Qed.

Lemma unknown_name_is_the_only_rejection_witness :
  run_diagnosis_endpoint (port_saying (Py.lit "fine")) json_loads_flat [1; 0]
    (Some [Py.lit "Cardiologist"; Py.lit "Astrologer"]) (Found (Py.lit "chest pain")) []
  = (Raise (HTTPException 400
              (DetailInvalid
                 {| detail_invalid := [Py.lit "Astrologer"];
                    detail_available := AVAILABLE_SPECIALISTS |})), []).
Proof.
  apply (proj1 (proj2 (unknown_name_is_the_only_rejection (port_saying (Py.lit "fine"))
                         json_loads_flat [1; 0] (Py.lit "chest pain") []))
           [Py.lit "Cardiologist"; Py.lit "Astrologer"] (Py.lit "Astrologer")).
  - right. left. reflexivity.
  - apply mem_false. reflexivity.
Defined.
(** ** The selector's policy *)

Lemma drop_unknown_known (names : list Py.str) :
  Forall known names -> drop_unknown names = names.
Proof.
  unfold drop_unknown. induction 1 as [|n names Hn _ IH]; cbn [filter]; [reflexivity|].
  apply mem_In in Hn. rewrite Hn, IH. reflexivity.
Qed.

(** C6: with its client built, on a response decoded as a list of
    names, the selector drops the names outside the registry, then
    appends General Practitioner
    when fewer than two names remain and it is not among them, then
    keeps the first five; so a lone Cardiologist is padded to two names
    and seven valid names are cut to their first five. *)
Theorem selector_post_processing (port : Port) (json_loads : Py.str -> Result PyVal)
    (medical_report : Py.str) (log : Log) (p : Py.str) (content : Content)
    (names : list Py.str) :
  usable port selector_model ->
  selector_directive medical_report = Ok p ->
  port SelectorCall p = Returns content ->
  json_loads (json_text content) = Ok (PList (map PStr names)) ->
  fst (auto_select_specialists port json_loads medical_report log)
  = Ok (selection_policy names)
  /\ (names = [Py.lit "Cardiologist"] ->
      selection_policy names = [Py.lit "Cardiologist"; Py.lit "General Practitioner"])
  /\ (length names = 7 -> Forall known names ->
      selection_policy names = firstn 5 names
      /\ length (selection_policy names) = 5).
Proof.
  intros Hclient Hp Hret Hjson. split; [|split].
  - rewrite (auto_select_eq port json_loads medical_report log p Hp), Hclient.
    cbn [fst]. unfold selection_of. rewrite Hret, Hjson. cbn [py_iter].
    rewrite valid_names_strings, pad_valid_policy. reflexivity.
  - intros ->. reflexivity.
  - intros Hlen Hknown. unfold selection_policy, keep_at_most_five.
    rewrite (drop_unknown_known names Hknown). unfold pad_with_default.
    rewrite Hlen. cbn [Nat.ltb Nat.leb]. split; [reflexivity|].
    rewrite length_firstn, Hlen. reflexivity.
Qed.

Lemma selector_post_processing_witness :
  fst (auto_select_specialists (port_saying (json_array [Py.lit "Cardiologist"]))
         json_loads_flat (Py.lit "chest pain") [])
  = Ok [Py.lit "Cardiologist"; Py.lit "General Practitioner"].
Proof.
  destruct (selector_post_processing
              (port_saying (json_array [Py.lit "Cardiologist"])) json_loads_flat
              (Py.lit "chest pain") []
              (match selector_directive (Py.lit "chest pain") with
               | Ok p => p
               | Raise _ => []
               end)
              (ContentStr (json_array [Py.lit "Cardiologist"]))
              [Py.lit "Cardiologist"]) as (E & Hone & _).
  - reflexivity.
  - vm_compute. reflexivity.
  - reflexivity.
  - vm_compute. reflexivity.
  - rewrite E, (Hone eq_refl). reflexivity.
Defined.

(** Seven valid names, fenced as a model often prints them. *)
Example selector_caps_seven_names :
  fst (auto_select_specialists
         (port_saying
            (Py.lit "```json" ++ nl
               ++ json_array [Py.lit "Oncologist"; Py.lit "Cardiologist";
                              Py.lit "Neurologist"; Py.lit "Orthopedist";
                              Py.lit "Psychologist"; Py.lit "Dermatologist";
                              Py.lit "Pulmonologist"]
               ++ nl ++ Py.lit "```"))
         json_loads_flat (Py.lit "chest pain") [])
  = Ok [Py.lit "Oncologist"; Py.lit "Cardiologist"; Py.lit "Neurologist";
        Py.lit "Orthopedist"; Py.lit "Psychologist"].
Proof. vm_compute. reflexivity. Qed.

(** C7, as stated, fails: an empty array yields the single name General
    Practitioner. *)
Lemma selection_may_be_a_single_name :
  ~ (forall (port : Port) (json_loads : Py.str -> Result PyVal)
            (medical_report : Py.str) (log : Log),
        usable port selector_model ->
        exists names,
          fst (auto_select_specialists port json_loads medical_report log) = Ok names
          /\ 2 <= length names <= 5
          /\ NoDup names
          /\ Forall known names).
Proof.
  intros H.
  destruct (H (port_saying (Py.lit "[]")) json_loads_flat (Py.lit "chest pain") []
              eq_refl)
    as (names & E & Hlen & _).
  vm_compute in E. injection E as <-. simpl in Hlen. lia.
Qed.

(** A repeated valid name is kept twice. *)
Example selection_may_repeat_a_name :
  fst (auto_select_specialists
         (port_saying (json_array [Py.lit "Cardiologist"; Py.lit "Cardiologist"]))
         json_loads_flat (Py.lit "chest pain") [])
  = Ok [Py.lit "Cardiologist"; Py.lit "Cardiologist"].
Proof. vm_compute. reflexivity. Qed.

Lemma NoDup_firstn {A} (n : nat) (l : list A) : NoDup l -> NoDup (firstn n l).
Proof.
  intros H. rewrite <- (firstn_skipn n l) in H. apply NoDup_app_remove_r in H. exact H.
Qed.

Lemma pad_valid_NoDup (valid : list Py.str) : NoDup valid -> NoDup (pad_valid valid).
Proof.
  intros H. unfold pad_valid.
  destruct (Nat.ltb (length valid) 2); [|exact H].
  destruct (Py.mem General_Practitioner valid) eqn:E; cbn [negb]; [exact H|].
  apply mem_false in E.
  apply NoDup_rev in H. rewrite <- (rev_involutive (valid ++ _)).
  apply NoDup_rev. rewrite rev_app_distr. cbn [rev app].
  constructor; [|exact H]. rewrite <- in_rev. exact E.
Qed.

(** C7, amended: with its client built, the selector always returns
    between one and five names of the registry, so never an empty list
    and never an unknown name; the names are distinct when the decoded response repeats no
    valid name, and there are at least two of them when the decoded
    response has two valid names or one other than General
    Practitioner. *)
Theorem selection_is_short_and_known (port : Port)
    (json_loads : Py.str -> Result PyVal) (medical_report : Py.str) (log : Log) :
  usable port selector_model ->
  exists names,
    fst (auto_select_specialists port json_loads medical_report log) = Ok names
    /\ 1 <= length names <= 5
    /\ Forall known names
    /\ (forall p content value selected,
          selector_directive medical_report = Ok p ->
          port SelectorCall p = Returns content ->
          json_loads (json_text content) = Ok value ->
          py_iter value = Ok selected ->
          (NoDup (valid_names selected) -> NoDup names)
          /\ (2 <= length (valid_names selected)
              \/ (exists name, valid_names selected = [name]
                               /\ name <> General_Practitioner) ->
              2 <= length names)).
Proof.
  intros Hclient. destruct (selector_directive_ok medical_report) as [p Hp].
  rewrite (auto_select_eq port json_loads medical_report log p Hp), Hclient. cbn [fst].
  eexists. split; [reflexivity|].
  destruct (selection_of_bounds json_loads (port SelectorCall p)) as [Hlen Hknown].
  split; [exact Hlen|]. split; [exact Hknown|].
  intros p' content value selected Hp' Hret Hjson Hiter.
  rewrite Hp in Hp'. injection Hp' as <-.
  unfold selection_of. rewrite Hret, Hjson, Hiter. split.
  - intros Hnd. apply NoDup_firstn, pad_valid_NoDup, Hnd.
  - intros Hcase. rewrite length_firstn. unfold pad_valid.
    destruct Hcase as [Htwo|(name & Hone & Hother)].
    + destruct (Nat.ltb_spec (length (valid_names selected)) 2); lia.
    + rewrite Hone. cbn [length Nat.ltb Nat.leb].
      assert (E : Py.mem General_Practitioner [name] = false).
      { apply mem_false. intros [Heq|[]]. exact (Hother Heq). }
      rewrite E. cbn [negb app length]. lia.
Qed.

Lemma selection_is_short_and_known_witness :
  exists names,
    fst (auto_select_specialists
           (port_saying (json_array [Py.lit "Oncologist"; Py.lit "Homeopath"]))
           json_loads_flat (Py.lit "chest pain") []) = Ok names
    /\ NoDup names /\ 2 <= length names.
Proof.
  destruct (selection_is_short_and_known
              (port_saying (json_array [Py.lit "Oncologist"; Py.lit "Homeopath"]))
              json_loads_flat (Py.lit "chest pain") [] eq_refl)
    as (names & E & _ & _ & H).
  exists names. split; [exact E|].
  destruct (H (match selector_directive (Py.lit "chest pain") with
               | Ok p => p
               | Raise _ => []
               end)
              (ContentStr (json_array [Py.lit "Oncologist"; Py.lit "Homeopath"]))
              (PList [PStr (Py.lit "Oncologist"); PStr (Py.lit "Homeopath")])
              [PStr (Py.lit "Oncologist"); PStr (Py.lit "Homeopath")])
    as [Hnd Htwo].
  - vm_compute. reflexivity.
  - reflexivity.
  - vm_compute. reflexivity.
  - reflexivity.
  - split.
    + apply Hnd. vm_compute. repeat constructor; intros [].
    + apply Htwo. right. exists (Py.lit "Oncologist"). split; [reflexivity|discriminate].
Defined.

Lemma valid_names_of_strings (members : list PyVal) :
  valid_names members = drop_unknown (strings_of members).
Proof.
  unfold valid_names, drop_unknown, strings_of.
  induction members as [|v members IH]; cbn [flat_map filter]; [reflexivity|].
  rewrite filter_app, <- IH.
  destruct v; cbn [filter app]; reflexivity.
Qed.

(** C8, as stated, fails twice.  A response that is a JSON string, not a
    list of strings, is iterated character by character and yields
    General Practitioner alone, not the fallback triple; and under the
    default settings, where no client can be built, the selector
    raises. *)
Lemma non_list_response_is_not_a_fallback :
  ~ (forall (port : Port) (json_loads : Py.str -> Result PyVal)
            (medical_report : Py.str) (log : Log) (p : Py.str) (content : Content),
        usable port selector_model ->
        selector_directive medical_report = Ok p ->
        port SelectorCall p = Returns content ->
        (forall names, json_loads (json_text content) <> Ok (PList (map PStr names))) ->
        fst (auto_select_specialists port json_loads medical_report log)
        = Ok fallback_specialists)
  /\ ~ (forall (port : Port) (json_loads : Py.str -> Result PyVal)
               (medical_report : Py.str) (log : Log),
           exists names,
             fst (auto_select_specialists port json_loads medical_report log)
             = Ok names).
Proof.
  split.
  - intros H.
    pose (answer := [34%N] ++ Py.lit "Cardiologist" ++ [34%N]).
    assert (E : fst (auto_select_specialists (port_saying answer) json_loads_flat
                       (Py.lit "chest pain") []) = Ok fallback_specialists).
    { apply (H (port_saying answer) json_loads_flat (Py.lit "chest pain") []
               (match selector_directive (Py.lit "chest pain") with
                | Ok p => p
                | Raise _ => []
                end)
               (ContentStr answer)).
      - reflexivity.
      - vm_compute. reflexivity.
      - reflexivity.
      - intros names. vm_compute. discriminate. }
    vm_compute in E. discriminate E.
  - intros H.
    destruct (H (port_without_key (Py.lit "The api_key client option must be set")
                   (Py.lit "[]"))
                json_loads_flat (Py.lit "chest pain") []) as [names E].
    vm_compute in E. discriminate E.
Qed.

(** C8, amended: the selector raises only when its client cannot be
    built, and then before any call; with its client built it returns
    the fallback triple when its call fails, when the decoder rejects
    the response text, or when the decoded value is not iterable, which
    is so for null, booleans and numbers.  A decoded string, object or
    list is iterated, by characters, keys or elements, and the members
    that are strings are filtered and padded as usual. *)
Theorem selector_falls_back (port : Port) (json_loads : Py.str -> Result PyVal)
    (medical_report : Py.str) (log : Log) (p : Py.str) :
  selector_directive medical_report = Ok p ->
  (forall e,
      fst (auto_select_specialists port json_loads medical_report log) = Raise e ->
      exists message,
        client_error port selector_model = Some message
        /\ auto_select_specialists port json_loads medical_report log
           = (Raise (OpenAIError message), log))
  /\ (usable port selector_model ->
      (exists names,
          fst (auto_select_specialists port json_loads medical_report log) = Ok names)
      /\ ((exists message, port SelectorCall p = Throws message)
          \/ (exists content e,
                 port SelectorCall p = Returns content
                 /\ json_loads (json_text content) = Raise e)
          \/ (exists content value e,
                 port SelectorCall p = Returns content
                 /\ json_loads (json_text content) = Ok value
                 /\ py_iter value = Raise e) ->
          fst (auto_select_specialists port json_loads medical_report log)
          = Ok [Py.lit "Cardiologist"; Py.lit "Psychologist"; Py.lit "Pulmonologist"])
      /\ (forall content value members,
            port SelectorCall p = Returns content ->
            json_loads (json_text content) = Ok value ->
            py_iter value = Ok members ->
            fst (auto_select_specialists port json_loads medical_report log)
            = Ok (selection_policy (strings_of members))))
  /\ (forall value,
        (exists e, py_iter value = Raise e)
        <-> (value = PNone \/ (exists b, value = PBool b)
             \/ (exists z, value = PInt z) \/ (exists x, value = PFloat x)))
  /\ (forall s, py_iter (PStr s) = Ok (map (fun c => PStr [c]) s))
  /\ (forall entries, py_iter (PDict entries) = Ok (map (fun kv => PStr (fst kv)) entries))
  /\ (forall elems, py_iter (PList elems) = Ok elems).
Proof.
  intros Hp.
  rewrite (auto_select_eq port json_loads medical_report log p Hp).
  split; [|split; [|split; [|split; [|split]]]].
  - intros e He. destruct (client_error port selector_model) as [message|].
    + exists message. split; reflexivity.
    + discriminate He.
  - intros Hclient. unfold usable in Hclient. rewrite !Hclient. cbn [fst].
    split; [|split].
    + eexists. reflexivity.
    + intros Hfail. unfold selection_of.
      destruct Hfail as [[m Hm]|[(c & e & Hc & He)|(c & v & e & Hc & Hv & He)]].
      * rewrite Hm. reflexivity.
      * rewrite Hc, He. reflexivity.
      * rewrite Hc, Hv, He. reflexivity.
    + intros content value members Hc Hv Hm. unfold selection_of.
      rewrite Hc, Hv, Hm, valid_names_of_strings, pad_valid_policy. reflexivity.
  - intros value. split.
    + intros [e He]. destruct value; try discriminate He.
      * left. reflexivity.
      * right. left. eexists. reflexivity.
      * right. right. left. eexists. reflexivity.
      * right. right. right. eexists. reflexivity.
    + intros [->|[[b ->]|[[z ->]|[x ->]]]]; eexists; reflexivity.
  - reflexivity.
  - reflexivity.
  - reflexivity.
Qed.

Lemma selector_falls_back_witness :
  fst (auto_select_specialists (port_saying (Py.lit "I cannot help with that"))
         json_loads_flat (Py.lit "chest pain") [])
  = Ok [Py.lit "Cardiologist"; Py.lit "Psychologist"; Py.lit "Pulmonologist"]
  /\ fst (auto_select_specialists
            (port_saying ([34%N] ++ Py.lit "Cardiologist" ++ [34%N]))
            json_loads_flat (Py.lit "chest pain") [])
     = Ok [Py.lit "General Practitioner"].
Proof.
  pose (p := match selector_directive (Py.lit "chest pain") with
             | Ok p => p
             | Raise _ => []
             end).
  assert (Hp : selector_directive (Py.lit "chest pain") = Ok p)
    by (vm_compute; reflexivity).
  split.
  - apply (proj1 (proj2 (proj1 (proj2 (selector_falls_back
                                         (port_saying (Py.lit "I cannot help with that"))
                                         json_loads_flat (Py.lit "chest pain") [] p Hp))
                                eq_refl))).
    right. left. exists (ContentStr (Py.lit "I cannot help with that")), decode_error.
    split; [reflexivity|vm_compute; reflexivity].
  - rewrite (proj2 (proj2 (proj1 (proj2 (selector_falls_back
                                           (port_saying
                                              ([34%N] ++ Py.lit "Cardiologist" ++ [34%N]))
                                           json_loads_flat (Py.lit "chest pain") [] p Hp))
                                  eq_refl))
               (ContentStr ([34%N] ++ Py.lit "Cardiologist" ++ [34%N]))
               (PStr (Py.lit "Cardiologist"))
               (map (fun c => PStr [c]) (Py.lit "Cardiologist"))
               eq_refl).
    + vm_compute. reflexivity.
    + vm_compute. reflexivity.
    + reflexivity.
Defined.

(** ** Sampling options *)

(** C9, as stated, fails: the call of the chat service asks for
    temperature 0.3. *)
Lemma chat_call_is_not_deterministic :
  ~ (forall (port : Port) (json_loads : Py.str -> Result PyVal)
            (completion_order : list nat) (medical_report : Py.str)
            (names : list Py.str) (chat_history : list HistoryMessage)
            (user_message : Py.str),
        Forall deterministic
          (snd (run_diagnosis port completion_order medical_report names []))
        /\ Forall deterministic
             (snd (auto_select_specialists port json_loads medical_report []))
        /\ Forall deterministic
             (snd (generate_chat_response port medical_report chat_history
                     user_message []))).
Proof.
  intros H.
  destruct (H (port_saying (Py.lit "fine")) json_loads_flat [] [] [] [] [])
    as (_ & _ & Hchat).
  destruct (generate_chat_response_eq (port_saying (Py.lit "fine")) [] [] [] [] eq_refl)
    as (answer & directive & E).
  rewrite E in Hchat. cbn [snd app] in Hchat.
  apply Forall_inv in Hchat. exact (chat_model_not_deterministic Hchat).
Qed.

Lemma engine_calls_deterministic (calls : Log) :
  Forall engine_call calls -> Forall deterministic calls.
Proof.
  apply Forall_impl. intros inv H. unfold deterministic. rewrite H. reflexivity.
Qed.

(** C9, amended: every call made by a diagnosis run (the specialists'
    calls and the synthesis call) and the selection call ask for
    temperature 0; the chat call asks for temperature 0.3.  Each of the
    three services makes its call when its client can be built, and
    makes none when it cannot. *)
Theorem engine_and_selector_calls_are_deterministic (port : Port)
    (json_loads : Py.str -> Result PyVal) (completion_order : list nat)
    (medical_report : Py.str) (names : list Py.str)
    (chat_history : list HistoryMessage) (user_message : Py.str) (log : Log) :
  (exists calls,
      snd (run_diagnosis port completion_order medical_report names log) = log ++ calls
      /\ Forall deterministic calls)
  /\ (usable port engine_model ->
      forall reports, exists call,
        snd (_run_team_diagnosis port reports log) = log ++ [call]
        /\ inv_site call = TeamCall /\ deterministic call)
  /\ (usable port selector_model ->
      exists call,
        snd (auto_select_specialists port json_loads medical_report log) = log ++ [call]
        /\ inv_site call = SelectorCall /\ deterministic call)
  /\ (usable port chat_model ->
      exists call,
        snd (generate_chat_response port medical_report chat_history user_message log)
        = log ++ [call]
        /\ inv_site call = ChatCall
        /\ temperature (inv_model call) = 0.3%float
        /\ ~ deterministic call)
  /\ (forall message reports,
        client_error port engine_model = Some message ->
        snd (_run_team_diagnosis port reports log) = log)
  /\ (forall message,
        client_error port selector_model = Some message ->
        snd (auto_select_specialists port json_loads medical_report log) = log)
  /\ (forall message,
        client_error port chat_model = Some message ->
        snd (generate_chat_response port medical_report chat_history user_message log)
        = log).
Proof.
  split; [|split; [|split; [|split; [|split; [|split]]]]].
  - destruct (run_diagnosis_log port completion_order medical_report names log)
      as (outcome & calls & E & Hcalls).
    exists calls. rewrite E. split; [reflexivity|].
    apply engine_calls_deterministic. exact Hcalls.
  - intros Hclient reports. rewrite run_team_diagnosis_eq, Hclient. eexists.
    split; [reflexivity|]. split; reflexivity.
  - intros Hclient. destruct (selector_directive_ok medical_report) as [p Hp].
    rewrite (auto_select_eq port json_loads medical_report log p Hp), Hclient.
    eexists. split; [reflexivity|]. split; reflexivity.
  - intros Hclient.
    destruct (generate_chat_response_eq port medical_report chat_history
                user_message log Hclient) as (answer & directive & E).
    rewrite E. eexists. split; [reflexivity|]. split; [reflexivity|].
    split; [reflexivity|]. exact chat_model_not_deterministic.
  - intros message reports Hdown. rewrite run_team_diagnosis_eq, Hdown. reflexivity.
  - intros message Hdown. destruct (selector_directive_ok medical_report) as [p Hp].
    rewrite (auto_select_eq port json_loads medical_report log p Hp), Hdown.
    reflexivity.
  - intros message Hdown.
    rewrite (generate_chat_response_without_client port medical_report chat_history
               user_message message log Hdown). reflexivity.
Qed.

Lemma engine_and_selector_calls_are_deterministic_witness :
  exists call,
    snd (generate_chat_response (port_saying (Py.lit "fine")) (Py.lit "context") []
           (Py.lit "why?") []) = [call]
    /\ temperature (inv_model call) = 0.3%float.
Proof.
  destruct (proj1 (proj2 (proj2 (proj2
              (engine_and_selector_calls_are_deterministic
                 (port_saying (Py.lit "fine")) json_loads_flat [] (Py.lit "context") []
                 [] (Py.lit "why?") [])))) eq_refl)
    as (call & E & _ & Htemperature & _).
  exists call. split; [exact E|exact Htemperature].
Defined.

(** ** Normalised texts *)

(** The table of [_sanitize_text], applied entry after entry, gives
    each character its ASCII equivalent. *)
Lemma sanitize_character (c : Py.char) : _sanitize_text [c] = ascii_equivalent c.
Proof.
  destruct (in_dec N.eq_dec c mapped_characters) as [H|H].
  - unfold mapped_characters in H. cbn in H.
    repeat (destruct H as [<-|H]; [vm_compute; reflexivity|]). destruct H.
  - unfold _sanitize_text.
    rewrite (fold_replace_other replacements c replacements_one_char H).
    unfold mapped_characters in H. cbn in H. unfold ascii_equivalent.
    repeat match goal with
           | |- context [N.eqb c ?k] =>
               destruct (N.eqb_spec c k) as [->|_]; [exfalso; apply H; tauto|]
           end.
    reflexivity.
Qed.

Lemma sanitize_normalised (text : Py.str) : _sanitize_text text = normalised text.
Proof.
  induction text as [|c text IH];
    [apply (fold_replace_nil replacements replacements_one_char)|].
  rewrite sanitize_cons, IH, sanitize_character. reflexivity.
Qed.

(** C10: the text of a report whose call returned, and the final text
    of a synthesis whose call returned, are the response with each of
    the thirteen characters of the table replaced by its ASCII
    equivalent and every other character kept, so they contain none of
    the thirteen; the placeholder of a failed call carries the cause as
    it is, mapped characters included. *)
Theorem produced_texts_are_normalised (port : Port) (slot : nat)
    (name medical_report : Py.str) (reports : list SpecialistReport) (log : Log)
    (p : Py.str) :
  usable port engine_model ->
  specialist_directive name medical_report = Ok p ->
  (forall content,
      port (SpecialistCall slot) p = Returns content ->
      exists report,
        fst (_run_specialist port slot name medical_report log) = Ok report
        /\ report_content report = normalised (flatten_content content)
        /\ forall u, In u mapped_characters -> ~ In u (report_content report))
  /\ (forall message,
        port (SpecialistCall slot) p = Throws message ->
        exists report,
          fst (_run_specialist port slot name medical_report log) = Ok report
          /\ report_content report
             = Py.lit "Error: Could not generate report. " ++ message
          /\ forall u, In u message -> In u (report_content report))
  /\ (forall content,
        port TeamCall (team_directive reports) = Returns content ->
        exists final,
          fst (_run_team_diagnosis port reports log) = Ok final
          /\ final = normalised (flatten_content content)
          /\ forall u, In u mapped_characters -> ~ In u final)
  /\ (forall message,
        port TeamCall (team_directive reports) = Throws message ->
        exists final,
          fst (_run_team_diagnosis port reports log) = Ok final
          /\ final = Py.lit "Error generating final diagnosis: " ++ message
          /\ forall u, In u message -> In u final)
  /\ mapped_characters
     = [0x2018; 0x2019; 0x201C; 0x201D; 0x2013; 0x2014; 0x2026; 0x2022;
        0x00B7; 0x2023; 0x25CF; 0x25CB; 0x2192]%N
  /\ (forall c, ~ In c mapped_characters -> normalised [c] = [c])
  /\ map normalised (map (fun c => [c]) mapped_characters)
     = [Py.lit "'"; Py.lit "'"; [34%N]; [34%N]; Py.lit "-"; Py.lit "--";
        Py.lit "..."; Py.lit "-"; Py.lit "-"; Py.lit "-"; Py.lit "-"; Py.lit "-";
        Py.lit "->"].
Proof.
  intros Hclient Hp.
  rewrite run_specialist_eq, Hp, run_team_diagnosis_eq, Hclient. cbn [fst].
  split; [|split; [|split; [|split; [|split; [|split]]]]].
  - intros content Hret. eexists. split; [reflexivity|].
    rewrite Hret. cbn [report_of report_content].
    split; [apply sanitize_normalised|].
    intros u Hu. apply sanitize_clean. exact Hu.
  - intros message Hfail. eexists. split; [reflexivity|].
    rewrite Hfail. cbn [report_of report_content]. split; [reflexivity|].
    intros u Hu. apply in_or_app. right. exact Hu.
  - intros content Hret. eexists. split; [reflexivity|].
    rewrite Hret. cbn [diagnosis_of]. split; [apply sanitize_normalised|].
    intros u Hu. apply sanitize_clean. exact Hu.
  - intros message Hfail. eexists. split; [reflexivity|].
    rewrite Hfail. cbn [diagnosis_of]. split; [reflexivity|].
    intros u Hu. apply in_or_app. right. exact Hu.
  - reflexivity.
  - intros c Hc. rewrite <- sanitize_normalised. unfold _sanitize_text.
    apply (fold_replace_other replacements c replacements_one_char Hc).
  - vm_compute. reflexivity.
Qed.

Lemma produced_texts_are_normalised_witness :
  exists report,
    fst (_run_specialist
           (port_saying (Py.lit "patient" ++ [0x2019%N] ++ Py.lit "s ECG " ++ [0x2192%N]
                           ++ Py.lit " normal"))
           0 (Py.lit "Oncologist") (Py.lit "chest pain") []) = Ok report
    /\ report_content report = Py.lit "patient's ECG -> normal".
Proof.
  destruct (produced_texts_are_normalised
              (port_saying (Py.lit "patient" ++ [0x2019%N] ++ Py.lit "s ECG "
                              ++ [0x2192%N] ++ Py.lit " normal"))
              0 (Py.lit "Oncologist") (Py.lit "chest pain") [] []
              (match specialist_directive (Py.lit "Oncologist") (Py.lit "chest pain") with
               | Ok p => p
               | Raise _ => []
               end))
    as (Hreturned & _).
  - reflexivity.
  - vm_compute. reflexivity.
  - destruct (Hreturned (ContentStr (Py.lit "patient" ++ [0x2019%N] ++ Py.lit "s ECG "
                                       ++ [0x2192%N] ++ Py.lit " normal")) eq_refl)
      as (report & E & Hcontent & _).
    exists report. split; [exact E|]. rewrite Hcontent. vm_compute. reflexivity.
Defined.

(** The placeholder of a failed call keeps a curly apostrophe of its
    cause. *)
Example failed_report_keeps_cause :
  fst (_run_specialist (port_failing [0x2019%N]) 0 (Py.lit "Oncologist")
         (Py.lit "chest pain") [])
  = Ok {| specialist_name := Py.lit "Oncologist";
          report_content := Py.lit "Error: Could not generate report. " ++ [0x2019%N] |}.
Proof. vm_compute. reflexivity. Qed.

(** A curly apostrophe in a returned report is mapped to the ASCII one. *)
Example returned_report_is_ascii :
  fst (_run_specialist (port_saying (Py.lit "patient" ++ [0x2019%N] ++ Py.lit "s ECG"))
         0 (Py.lit "Cardiologist") (Py.lit "chest pain") [])
  = Ok {| specialist_name := Py.lit "Cardiologist";
          report_content := Py.lit "patient's ECG" |}.
Proof. vm_compute. reflexivity. Qed.

(** ** Checks of the string model *)

Example replace_braces :
  Py.replace (Py.lit "{") (Py.lit "{{") (Py.lit "a{b}{") = Py.lit "a{{b}{{".
Proof. reflexivity. Qed.

Example replace_word :
  Py.replace (Py.lit "ab") (Py.lit "X") (Py.lit "aabab-abb") = Py.lit "aXX-Xb".
Proof. reflexivity. Qed.

Example rsplit1_last :
  Py.rsplit1 (Py.lit "```") (Py.lit "a```b```c") = [Py.lit "a```b"; Py.lit "c"].
Proof. reflexivity. Qed.

Example rsplit1_overlap :
  Py.rsplit1 (Py.lit "```") (Py.lit "````") = [Py.lit "`"; Py.lit ""].
Proof. reflexivity. Qed.

Example strip_both : Py.strip (Py.lit "  [x]
 ") = Py.lit "[x]".
Proof. reflexivity. Qed.
(** * Further properties of the engine *)

(** ** Normalisation is a projection *)

Lemma sanitize_nil : _sanitize_text [] = [].
Proof. apply (fold_replace_nil replacements replacements_one_char). Qed.

Lemma sanitize_unmapped (s : Py.str) :
  (forall u, In u mapped_characters -> ~ In u s) -> _sanitize_text s = s.
Proof.
  induction s as [|x s IH]; intros H; [apply sanitize_nil|].
  rewrite sanitize_cons, IH.
  - unfold _sanitize_text at 1.
    rewrite (fold_replace_other replacements x replacements_one_char); [reflexivity|].
    intros Hx. exact (H x Hx (or_introl eq_refl)).
  - intros u Hu Hin. exact (H u Hu (or_intror Hin)).
Qed.

Lemma mapped_not_ascii (u : Py.char) : In u mapped_characters -> (128 <= u)%N.
Proof.
  unfold mapped_characters. simpl. intros H.
  repeat (destruct H as [<-|H]; [discriminate|]). destruct H.
Qed.

(** X1: normalising twice is the same as normalising once, and a text
    of ASCII characters only is returned as it is. *)
Theorem sanitize_text_idempotent (text : Py.str) :
  _sanitize_text (_sanitize_text text) = _sanitize_text text
  /\ (Forall (fun c => (c < 128)%N) text -> _sanitize_text text = text).
Proof.
  split.
  - apply sanitize_unmapped. intros u Hu. apply sanitize_clean. exact Hu.
  - intros Hascii. apply sanitize_unmapped. intros u Hu Hin.
    rewrite Forall_forall in Hascii. pose proof (Hascii u Hin).
    pose proof (mapped_not_ascii u Hu). lia.
Qed.

Lemma sanitize_text_idempotent_witness :
  _sanitize_text (Py.lit "BP 120/80 - stable") = Py.lit "BP 120/80 - stable".
Proof.
  apply (proj2 (sanitize_text_idempotent (Py.lit "BP 120/80 - stable"))).
  repeat constructor.
Defined.

(** ** Directives embed their input as it is *)

Lemma format_from_text (kwargs : list (Py.str * Py.str)) (text rest : Py.str) :
  ~ In lbrace text -> ~ In rbrace text ->
  format_from kwargs (text ++ rest) InText
  = on_ok (app text) (format_from kwargs rest InText).
Proof.
  induction text as [|c text IH]; intros Hl Hr; cbn [app format_from].
  - destruct (format_from kwargs rest InText); reflexivity.
  - destruct (N.eqb_spec c lbrace) as [->|_]; [exfalso; apply Hl; left; reflexivity|].
    destruct (N.eqb_spec c rbrace) as [->|_]; [exfalso; apply Hr; left; reflexivity|].
    rewrite IH.
    + destruct (format_from kwargs rest InText); reflexivity.
    + intros H. apply Hl. right. exact H.
    + intros H. apply Hr. right. exact H.
Qed.
Lemma lookup_some_in {V} (key : Py.str) (d : list (Py.str * V)) (v : V) :
  lookup key d = Some v -> In (key, v) d.
Proof.
  induction d as [|[k w] d IH]; simpl; intros H; [discriminate H|].
  destruct (Py.eqb key k) eqn:E.
  - apply eqb_eq in E. subst. injection H as <-. left. reflexivity.
  - right. apply IH. exact H.
Qed.



(** ** The pool on arbitrary names *)





Section AnyNames.

Variable port : Port.
Variable medical_report : Py.str.
Variable names : list Py.str.
Hypothesis client_ok : usable port engine_model.






End AnyNames.





(** ** The follow-up chat *)

Lemma fold_turn_lines (messages : list Message) (acc : Py.str) :
  fold_left
    (fun combined_prompt msg =>
       let role_label :=
         if Py.eqb (role msg) (Py.lit "user")
         then Py.lit "Patient" else Py.lit "Cura3.ai" in
       combined_prompt ++ (role_label ++ Py.lit ": " ++ content msg ++ nl ++ nl))
    messages acc
  = acc ++ concat (map (fun msg => turn_line (role msg) (content msg)) messages).
Proof.
  revert acc. induction messages as [|m messages IH]; intros acc; cbn [fold_left map concat].
  - rewrite app_nil_r. reflexivity.
  - rewrite IH. cbv zeta. unfold turn_line. rewrite <- app_assoc. reflexivity.
Qed.

Lemma generate_chat_response_full (port : Port) (diagnosis_context : Py.str)
    (chat_history : list HistoryMessage) (user_message : Py.str) (log : Log) :
  generate_chat_response port diagnosis_context chat_history user_message log
  = match client_error port chat_model with
    | None =>
        (Ok (chat_answer
               (port ChatCall
                  (chat_directive diagnosis_context chat_history user_message))),
         log ++ [{| inv_site := ChatCall; inv_model := chat_model;
                    inv_prompt :=
                      chat_directive diagnosis_context chat_history user_message |}])
    | Some message => (Raise (OpenAIError message), log)
    end.
Proof.
  unfold generate_chat_response, chat_directive, chat_system_prompt.
  destruct (chat_system_prompt_ok diagnosis_context) as [p Hp]. rewrite Hp.
  fold chat_model. unfold new_ChatOpenAI.
  destruct (client_error port chat_model); [reflexivity|].
  unfold bind, lift, try_except, invoke, ret. cbn [app tl].
  rewrite fold_turn_lines, map_app, concat_app, map_map. cbn [map concat role content].
  rewrite app_nil_r. rewrite <- !app_assoc.
  unfold history_line.
  match goal with
  | |- context [respond port ChatCall ?d] => destruct (respond port ChatCall d)
  end; reflexivity.
Qed.

Lemma last_n_app {A} (n : nat) (old recent : list A) :
  n <= length recent -> Py.last_n n (old ++ recent) = Py.last_n n recent.
Proof.
  intros H. unfold Py.last_n. rewrite length_app.
  replace (length old + length recent - n) with (length old + (length recent - n)) by lia.
  rewrite skipn_app, skipn_all2 by lia. cbn [app]. f_equal. lia.
Qed.

(** X6: the chat reads a window of the last ten messages of the
    history: whatever precedes them has no effect on the call or on
    the answer. *)
Theorem chat_reads_last_ten_messages (port : Port) (diagnosis_context : Py.str)
    (older recent : list HistoryMessage) (user_message : Py.str) (log : Log) :
  10 <= length recent ->
  generate_chat_response port diagnosis_context (older ++ recent) user_message log
  = generate_chat_response port diagnosis_context recent user_message log.
Proof.
  intros H. rewrite !generate_chat_response_full. unfold chat_directive.
  rewrite (last_n_app 10 older recent H). reflexivity.
Qed.

Lemma chat_reads_last_ten_messages_witness :
  let turn (text : string) :=
    {| history_role := Some (Py.lit "user"); history_content := Some (Py.lit text) |} in
  let recent := map turn ["a"; "b"; "c"; "d"; "e"; "f"; "g"; "h"; "i"; "j"]%string in
  generate_chat_response (port_saying (Py.lit "fine")) (Py.lit "context")
    (map turn ["x"; "y"; "z"]%string ++ recent) (Py.lit "why?") []
  = generate_chat_response (port_saying (Py.lit "fine")) (Py.lit "context")
      recent (Py.lit "why?") [].
Proof.
  cbv zeta. apply chat_reads_last_ten_messages. cbn [map length]. lia.
Defined.

(** X7: with its client built, the chat never raises and makes
    exactly one call, failed or not; when the call fails the answer is
    the apology text carrying the cause, otherwise it is the trimmed
    response.  When the client cannot be built, the chat raises the
    error of the constructor and makes no call. *)
Theorem chat_degrades_to_apology (port : Port) (diagnosis_context : Py.str)
    (chat_history : list HistoryMessage) (user_message : Py.str) (log : Log) :
  (usable port chat_model ->
   exists answer call,
     generate_chat_response port diagnosis_context chat_history user_message log
     = (Ok answer, log ++ [call])
     /\ inv_site call = ChatCall
     /\ (forall message,
           port ChatCall (inv_prompt call) = Throws message ->
           answer
           = Py.lit "I apologize, but I encountered an error processing your question. Please try again. (Error: "
               ++ message ++ Py.lit ")")
     /\ (forall content,
           port ChatCall (inv_prompt call) = Returns content ->
           answer = Py.strip (flatten_content content)))
  /\ (forall message,
        client_error port chat_model = Some message ->
        generate_chat_response port diagnosis_context chat_history user_message log
        = (Raise (OpenAIError message), log)).
Proof.
  rewrite generate_chat_response_full. split.
  - intros Hclient. rewrite Hclient. eexists _, _. split; [reflexivity|].
    cbn [inv_site inv_prompt]. split; [reflexivity|].
    split; intros x Hx; rewrite Hx; reflexivity.
  - intros message Hdown. rewrite Hdown. reflexivity.
Qed.

Lemma chat_degrades_to_apology_witness :
  fst (generate_chat_response (port_failing (Py.lit "quota")) (Py.lit "context") []
         (Py.lit "why?") [])
  = Ok (Py.lit "I apologize, but I encountered an error processing your question. Please try again. (Error: quota)")
  /\ generate_chat_response (port_without_key (Py.lit "no key") (Py.lit "fine"))
       (Py.lit "context") [] (Py.lit "why?") []
     = (Raise (OpenAIError (Py.lit "no key")), []).
Proof.
  split.
  - destruct (proj1 (chat_degrades_to_apology (port_failing (Py.lit "quota"))
                       (Py.lit "context") [] (Py.lit "why?") []) eq_refl)
      as (answer & call & E & _ & Hfail & _).
    rewrite E. cbn [fst]. f_equal. apply (Hfail (Py.lit "quota")). reflexivity.
  - apply (proj2 (chat_degrades_to_apology
                    (port_without_key (Py.lit "no key") (Py.lit "fine"))
                    (Py.lit "context") [] (Py.lit "why?") [])).
    reflexivity.
Defined.

(** X8: with the client built, the chat directive is the system
    prompt with the diagnosis context in place of its placeholder, as
    it is, then one line per
    message of the window, labelled Patient for the role user or a
    missing role and Cura3.ai for any other role, then the question
    as a Patient line and the cue for the assistant. *)
Theorem chat_directive_layout :
  exists before after,
    CHAT_SYSTEM_PROMPT = before ++ Py.lit "{diagnosis_context}" ++ after
    /\ forall (port : Port) (diagnosis_context : Py.str)
              (chat_history : list HistoryMessage) (user_message : Py.str) (log : Log),
         usable port chat_model ->
         snd (generate_chat_response port diagnosis_context chat_history
                user_message log)
         = log ++ [{| inv_site := ChatCall; inv_model := chat_model;
                      inv_prompt :=
                        before ++ diagnosis_context ++ after ++ nl ++ nl
                          ++ concat
                               (map (fun msg =>
                                       (match history_role msg with
                                        | Some r =>
                                            if Py.eqb r (Py.lit "user")
                                            then Py.lit "Patient"
                                            else Py.lit "Cura3.ai"
                                        | None => Py.lit "Patient"
                                        end)
                                         ++ Py.lit ": "
                                         ++ (match history_content msg with
                                             | Some text => text
                                             | None => []
                                             end)
                                         ++ nl ++ nl)
                                    (Py.last_n 10 chat_history))
                          ++ Py.lit "Patient: " ++ user_message ++ nl ++ nl
                          ++ Py.lit "Cura3.ai:" |}].
Proof.
  pose (cut := Py.partition (Py.lit "{diagnosis_context}") CHAT_SYSTEM_PROMPT).
  exists (match cut with Some (a, _) => a | None => [] end),
         (match cut with Some (_, b) => b | None => [] end).
  split; [vm_compute; reflexivity|].
  intros port diagnosis_context chat_history user_message log Hclient.
  rewrite generate_chat_response_full, Hclient. cbn [snd]. do 3 f_equal.
  unfold chat_directive.
  assert (Hsys : chat_system_prompt diagnosis_context
                 = match cut with Some (a, _) => a | None => [] end
                     ++ diagnosis_context
                     ++ match cut with Some (_, b) => b | None => [] end)
    by (vm_compute; reflexivity).
  assert (Hlines : forall l,
             map history_line l
             = map (fun msg =>
                      (match history_role msg with
                       | Some r =>
                           if Py.eqb r (Py.lit "user")
                           then Py.lit "Patient"
                           else Py.lit "Cura3.ai"
                       | None => Py.lit "Patient"
                       end)
                        ++ Py.lit ": "
                        ++ (match history_content msg with
                            | Some text => text
                            | None => []
                            end)
                        ++ nl ++ nl) l).
  { intros l. apply map_ext. intros msg. unfold history_line, turn_line, dict_get.
    destruct (history_role msg) as [r|]; reflexivity. }
  rewrite Hsys, Hlines. unfold turn_line.
  change (Py.eqb (Py.lit "user") (Py.lit "user")) with true. cbv iota.
  rewrite <- !app_assoc. reflexivity.
Qed.

Lemma chat_directive_layout_witness :
  exists call,
    snd (generate_chat_response (port_saying (Py.lit "fine")) (Py.lit "context") []
           (Py.lit "why?") []) = [call]
    /\ inv_site call = ChatCall
    /\ temperature (inv_model call) = 0.3%float.
Proof.
  destruct chat_directive_layout as (before & after & _ & Hlayout).
  eexists. split.
  - rewrite (Hlayout (port_saying (Py.lit "fine")) (Py.lit "context") [] (Py.lit "why?")
               [] eq_refl).
    reflexivity.
  - split; reflexivity.
Defined.
(** ** Code fences around the selector's response *)

Lemma lstrip_spaces (lead s : Py.str) :
  Forall (fun c => Py.isspace c = true) lead -> Py.lstrip (lead ++ s) = Py.lstrip s.
Proof.
  induction 1 as [|c lead Hc _ IH]; cbn [app Py.lstrip]; [reflexivity|].
  rewrite Hc. exact IH.
Qed.

Lemma lstrip_keeps (c : Py.char) (s : Py.str) :
  Py.isspace c = false -> Py.lstrip (c :: s) = c :: s.
Proof. intros H. cbn [Py.lstrip]. rewrite H. reflexivity. Qed.

Lemma rstrip_spaces (s trail : Py.str) :
  Forall (fun c => Py.isspace c = true) trail -> Py.rstrip (s ++ trail) = Py.rstrip s.
Proof.
  intros H. unfold Py.rstrip. rewrite rev_app_distr, lstrip_spaces; [reflexivity|].
  apply Forall_rev. exact H.
Qed.

Lemma rstrip_keeps (s : Py.str) (c : Py.char) :
  Py.isspace c = false -> Py.rstrip (s ++ [c]) = s ++ [c].
Proof.
  intros H. unfold Py.rstrip. rewrite rev_app_distr. cbn [rev app].
  rewrite (lstrip_keeps c (rev s) H). cbn [rev]. rewrite rev_involutive. reflexivity.
Qed.

(** Trimming removes the white space around a text that starts and
    ends with a visible character. *)
Lemma strip_padded (lead trail middle : Py.str) (first last : Py.char) :
  Forall (fun c => Py.isspace c = true) lead ->
  Forall (fun c => Py.isspace c = true) trail ->
  Py.isspace first = false -> Py.isspace last = false ->
  Py.strip (lead ++ (first :: middle ++ [last]) ++ trail) = first :: middle ++ [last].
Proof.
  intros Hlead Htrail Hfirst Hlast. unfold Py.strip.
  rewrite lstrip_spaces by exact Hlead. cbn [app].
  rewrite (lstrip_keeps first _ Hfirst).
  change (first :: (middle ++ [last]) ++ trail) with ((first :: middle ++ [last]) ++ trail).
  rewrite rstrip_spaces by exact Htrail.
  change (first :: middle ++ [last]) with ((first :: middle) ++ [last]).
  apply rstrip_keeps. exact Hlast.
Qed.

Lemma partition_char (c : Py.char) (a b : Py.str) :
  ~ In c a -> Py.partition [c] (a ++ c :: b) = Some (a, b).
Proof.
  induction a as [|x a IH]; intros H; cbn [app Py.partition Py.startswith].
  - rewrite N.eqb_refl. reflexivity.
  - destruct (N.eqb_spec c x) as [->|_]; [exfalso; apply H; left; reflexivity|].
    cbn [andb]. rewrite IH; [reflexivity|]. intros Hin. apply H. right. exact Hin.
Qed.

Lemma json_text_fenced (content : Content) (lead language body trail : Py.str) :
  Forall (fun c => Py.isspace c = true) lead ->
  Forall (fun c => Py.isspace c = true) trail ->
  ~ In 10%N language ->
  flatten_content content
  = lead ++ Py.lit "```" ++ language ++ nl ++ body ++ Py.lit "```" ++ trail ->
  json_text content = Py.strip body.
Proof.
  intros Hlead Htrail Hlang Hflat. unfold json_text. rewrite Hflat.
  pose (tick := 96%N).
  assert (Hcore : lead ++ Py.lit "```" ++ language ++ nl ++ body ++ Py.lit "```" ++ trail
                  = lead ++ (tick :: ([tick; tick] ++ language ++ nl ++ body ++ [tick; tick])
                                   ++ [tick]) ++ trail).
  { f_equal. change (Py.lit "```") with [tick; tick; tick]. cbn [app].
    rewrite <- ?app_assoc. cbn [app]. rewrite <- ?app_assoc. reflexivity. }
  rewrite Hcore, (strip_padded lead trail _ tick tick Hlead Htrail eq_refl eq_refl).
  change (Py.startswith (Py.lit "```")
            (tick :: ([tick; tick] ++ language ++ nl ++ body ++ [tick; tick]) ++ [tick]))
    with true. cbv iota.
  assert (Hsplit : Py.split1 nl
                     (tick :: ([tick; tick] ++ language ++ nl ++ body ++ [tick; tick])
                             ++ [tick])
                   = [[tick; tick; tick] ++ language; body ++ [tick; tick; tick]]).
  { unfold Py.split1, nl.
    replace (tick :: ([tick; tick] ++ language ++ [10%N] ++ body ++ [tick; tick]) ++ [tick])
      with (([tick; tick; tick] ++ language) ++ 10%N :: (body ++ [tick; tick; tick]))
      by (cbn [app]; rewrite <- !app_assoc; cbn [app]; rewrite <- !app_assoc;
          reflexivity).
    rewrite partition_char; [reflexivity|].
    intros Hin. apply in_app_or in Hin. destruct Hin as [Hin|Hin]; [|exact (Hlang Hin)].
    cbn [In] in Hin. unfold tick in Hin.
    repeat (destruct Hin as [Hin|Hin]; [discriminate Hin|]). exact Hin. }
  rewrite Hsplit. cbn [Py.last_item last].
  unfold Py.rsplit1. rewrite rev_app_distr.
  change (rev (Py.lit "```")) with [tick; tick; tick].
  change (rev [tick; tick; tick]) with [tick; tick; tick].
  cbn [app Py.partition Py.startswith]. rewrite !N.eqb_refl. cbn [andb length skipn].
  cbn [Py.first_item hd]. rewrite rev_involutive. reflexivity.
Qed.

(** X9: with the client built, a response wrapped in a code fence,
    with an optional language tag on the opening line and white space
    around, is decoded as its body: the selector answers as the policy
    prescribes for the list inside the fence. *)
Theorem selector_unwraps_code_fence (port : Port) (json_loads : Py.str -> Result PyVal)
    (medical_report : Py.str) (log : Log) (p : Py.str) (content : Content)
    (lead language body trail : Py.str) (names : list Py.str) :
  usable port selector_model ->
  selector_directive medical_report = Ok p ->
  port SelectorCall p = Returns content ->
  flatten_content content
  = lead ++ Py.lit "```" ++ language ++ nl ++ body ++ Py.lit "```" ++ trail ->
  Forall (fun c => Py.isspace c = true) lead ->
  Forall (fun c => Py.isspace c = true) trail ->
  ~ In 10%N language ->
  json_loads (Py.strip body) = Ok (PList (map PStr names)) ->
  fst (auto_select_specialists port json_loads medical_report log)
  = Ok (selection_policy names).
Proof.
  intros Hclient Hp Hret Hflat Hlead Htrail Hlang Hjson.
  rewrite (auto_select_eq port json_loads medical_report log p Hp), Hclient. cbn [fst].
  unfold selection_of. rewrite Hret.
  rewrite (json_text_fenced content lead language body trail Hlead Htrail Hlang Hflat).
  rewrite Hjson. cbn [py_iter]. rewrite valid_names_strings, pad_valid_policy.
  reflexivity.
Qed.

Lemma selector_unwraps_code_fence_witness :
  fst (auto_select_specialists
         (port_saying
            (nl ++ Py.lit "```json" ++ nl
                ++ (json_array [Py.lit "Oncologist"; Py.lit "Neurologist"] ++ nl)
                ++ Py.lit "```" ++ nl))
         json_loads_flat (Py.lit "chest pain") [])
  = Ok [Py.lit "Oncologist"; Py.lit "Neurologist"].
Proof.
  rewrite (selector_unwraps_code_fence
             (port_saying
                (nl ++ Py.lit "```json" ++ nl
                    ++ (json_array [Py.lit "Oncologist"; Py.lit "Neurologist"] ++ nl)
                    ++ Py.lit "```" ++ nl))
             json_loads_flat (Py.lit "chest pain") []
             (match selector_directive (Py.lit "chest pain") with
              | Ok p => p
              | Raise _ => []
              end)
             (ContentStr
                (nl ++ Py.lit "```json" ++ nl
                    ++ (json_array [Py.lit "Oncologist"; Py.lit "Neurologist"] ++ nl)
                    ++ Py.lit "```" ++ nl))
             nl (Py.lit "json")
             (json_array [Py.lit "Oncologist"; Py.lit "Neurologist"] ++ nl) nl
             [Py.lit "Oncologist"; Py.lit "Neurologist"]).
  - reflexivity.
  - reflexivity.
  - vm_compute. reflexivity.
  - reflexivity.
  - reflexivity.
  - repeat constructor.
  - repeat constructor.
  - vm_compute. intros H. repeat (destruct H as [H|H]; [discriminate H|]). exact H.
  - vm_compute. reflexivity.
Defined.
(** ** The chat route *)

Lemma join_snoc (sep : Py.str) (parts : list Py.str) (last : Py.str) :
  Py.join sep (parts ++ [last]) = concat (map (fun part => part ++ sep) parts) ++ last.
Proof.
  assert (Hjoin : forall p l, l <> [] -> Py.join sep (p :: l) = p ++ sep ++ Py.join sep l)
    by (intros p [|x l] H; [congruence|reflexivity]).
  induction parts as [|part parts IH]; [reflexivity|].
  cbn [app]. rewrite Hjoin by (destruct parts; discriminate).
  rewrite IH. cbn [map concat]. rewrite <- !app_assoc. reflexivity.
Qed.

Lemma send_message_eq (port : Port) (diagnosis : DiagnosisDoc)
    (chat_session : option ChatSession) (message now : Py.str) (log : Log) :
  usable port chat_model ->
  exists answer call,
    send_message port (Found diagnosis) chat_session message now log
    = (Ok (answer,
           {| session_messages :=
                Some (messages_of chat_session
                        ++ [{| stored_role := Py.lit "user"; stored_content := message;
                               stored_timestamp := now |};
                            {| stored_role := Py.lit "assistant";
                               stored_content := answer;
                               stored_timestamp := now |}]) |}),
       log ++ [call])
    /\ inv_site call = ChatCall
    /\ answer = chat_answer (port ChatCall (inv_prompt call)).
Proof.
  intros Hclient. unfold send_message. cbv zeta. unfold bind at 1, ret at 1.
  unfold bind. rewrite generate_chat_response_full, Hclient.
  eexists _, _.
  split; [unfold ret; do 4 f_equal; destruct chat_session as [[[messages|]]|]; reflexivity|].
  split; reflexivity.
Qed.

(** What the route answers when it stops before the chat. *)
Lemma send_message_stops (port : Port) (diagnosis : Lookup DiagnosisDoc)
    (chat_session : option ChatSession) (message now : Py.str) (log : Log) :
  (diagnosis = LookupRaises ->
   send_message port diagnosis chat_session message now log
   = (Raise (HTTPException 400 (DetailText (Py.lit "Invalid diagnosis ID."))), log))
  /\ (diagnosis = NotFound ->
      send_message port diagnosis chat_session message now log
      = (Raise (HTTPException 404 (DetailText (Py.lit "Diagnosis not found."))), log))
  /\ (forall doc cause,
        diagnosis = Found doc ->
        client_error port chat_model = Some cause ->
        send_message port diagnosis chat_session message now log
        = (Raise (OpenAIError cause), log)).
Proof.
  split; [|split].
  - intros ->. reflexivity.
  - intros ->. reflexivity.
  - intros doc cause -> Hdown. unfold send_message. cbv zeta.
    unfold bind at 1, ret at 1. unfold bind.
    rewrite generate_chat_response_full, Hdown. reflexivity.
Qed.

(** X10: a conversation through the chat route about a stored
    diagnosis, with the client built, never raises and makes one call
    per request; each request adds exactly two messages to the session,
    the question with the role user and the answer with the role
    assistant, in that order, and an answer that is the apology of a
    failed call is stored like any other.  A request whose diagnosis
    cannot be looked up is answered 400, one whose diagnosis is not
    found 404, and without a client the request raises the error of the
    constructor: each time no call is made. *)
Theorem conversation_appends_two_turns (port : Port) (diagnosis : Lookup DiagnosisDoc)
    (chat_session : option ChatSession) (requests : list (Py.str * Py.str))
    (log : Log) :
  (forall doc,
      diagnosis = Found doc ->
      usable port chat_model ->
      exists answers final calls,
        conversation port diagnosis chat_session requests log
        = (Ok (answers, final), log ++ calls)
        /\ length answers = length requests
        /\ length calls = length requests
        /\ Forall (fun call => inv_site call = ChatCall) calls
        /\ messages_of final
           = messages_of chat_session
               ++ flat_map (fun exchange =>
                              [{| stored_role := Py.lit "user";
                                  stored_content := fst (fst exchange);
                                  stored_timestamp := snd (fst exchange) |};
                               {| stored_role := Py.lit "assistant";
                                  stored_content := snd exchange;
                                  stored_timestamp := snd (fst exchange) |}])
                           (combine requests answers)
        /\ Forall2 (fun call answer =>
                      answer = chat_answer (port ChatCall (inv_prompt call)))
             calls answers)
  /\ (requests <> [] ->
      (diagnosis = LookupRaises ->
       conversation port diagnosis chat_session requests log
       = (Raise (HTTPException 400 (DetailText (Py.lit "Invalid diagnosis ID."))), log))
      /\ (diagnosis = NotFound ->
          conversation port diagnosis chat_session requests log
          = (Raise (HTTPException 404 (DetailText (Py.lit "Diagnosis not found."))),
             log))
      /\ (forall doc cause,
            diagnosis = Found doc ->
            client_error port chat_model = Some cause ->
            conversation port diagnosis chat_session requests log
            = (Raise (OpenAIError cause), log))).
Proof.
  split.
  - intros doc -> Hclient. revert chat_session log.
    induction requests as [|[message now] requests IH]; intros chat_session log.
    + exists [], chat_session, []. cbn [conversation]. unfold ret.
      rewrite !app_nil_r. repeat split; constructor.
    + cbn [conversation]. unfold bind at 1.
      destruct (send_message_eq port doc chat_session message now log Hclient)
        as (answer & call & E & Hsite & Hanswer).
      rewrite E. cbn [fst snd]. unfold bind at 1.
      destruct (IH (Some {| session_messages :=
                              Some (messages_of chat_session
                                      ++ [{| stored_role := Py.lit "user";
                                             stored_content := message;
                                             stored_timestamp := now |};
                                          {| stored_role := Py.lit "assistant";
                                             stored_content := answer;
                                             stored_timestamp := now |}]) |})
                  (log ++ [call]))
        as (answers & final & calls & E' & Hlen & Hcalls & Hsites & Hmsgs & Hans).
      rewrite E'. unfold ret. cbn [fst snd].
      exists (answer :: answers), final, (call :: calls).
      rewrite <- app_assoc. split; [reflexivity|].
      split; [cbn [length]; rewrite Hlen; reflexivity|].
      split; [cbn [length]; rewrite Hcalls; reflexivity|].
      split; [constructor; assumption|].
      split; [|constructor; assumption].
      rewrite Hmsgs. cbn [messages_of combine flat_map fst snd].
      rewrite <- app_assoc. reflexivity.
  - intros Hne. destruct requests as [|[message now] rest]; [congruence|].
    destruct (send_message_stops port diagnosis chat_session message now log)
      as (Hraises & Hmissing & Hdown).
    split; [|split].
    + intros H. cbn [conversation]. unfold bind at 1.
      rewrite (Hraises H). reflexivity.
    + intros H. cbn [conversation]. unfold bind at 1.
      rewrite (Hmissing H). reflexivity.
    + intros doc cause H Hc. cbn [conversation]. unfold bind at 1.
      rewrite (Hdown doc cause H Hc). reflexivity.
Qed.

Lemma conversation_appends_two_turns_witness :
  exists answers final calls,
    conversation (port_saying (Py.lit " rest and fluids "))
      (Found {| doc_specialist_reports := None; doc_final_diagnosis := None |})
      None [(Py.lit "what now?", Py.lit "t1"); (Py.lit "and then?", Py.lit "t2")] []
    = (Ok (answers, final), calls)
    /\ length calls = 2
    /\ map stored_role (messages_of final)
       = [Py.lit "user"; Py.lit "assistant"; Py.lit "user"; Py.lit "assistant"].
Proof.
  destruct (proj1 (conversation_appends_two_turns
                     (port_saying (Py.lit " rest and fluids "))
                     (Found {| doc_specialist_reports := None;
                               doc_final_diagnosis := None |})
                     None
                     [(Py.lit "what now?", Py.lit "t1"); (Py.lit "and then?", Py.lit "t2")]
                     [])
              {| doc_specialist_reports := None; doc_final_diagnosis := None |}
              eq_refl eq_refl)
    as (answers & final & calls & E & Hlen & Hcalls & _ & Hmsgs & _).
  exists answers, final, calls. split; [exact E|]. split; [exact Hcalls|].
  rewrite Hmsgs. destruct answers as [|a1 [|a2 [|a3 answers]]]; try discriminate Hlen.
  reflexivity.
Defined.
(** ** More of the diagnosis routes *)

Lemma listed_names :
  map listing_name (fst list_specialists) = AVAILABLE_SPECIALISTS.
Proof. reflexivity. Qed.

Lemma known_no_invalid (names : list Py.str) :
  Forall known names ->
  filter (fun s => negb (Py.mem s AVAILABLE_SPECIALISTS)) names = [].
Proof.
  induction 1 as [|n names Hn _ IH]; [reflexivity|].
  cbn [filter]. apply mem_In in Hn. rewrite Hn. exact IH.
Qed.

(** What the diagnosis route answers when the report cannot be loaded. *)
Lemma run_diagnosis_endpoint_without_report (port : Port)
    (json_loads : Py.str -> Result PyVal) (completion_order : list nat)
    (selected_specialists : option (list Py.str)) (log : Log) :
  run_diagnosis_endpoint port json_loads completion_order selected_specialists
    LookupRaises log
  = (Raise (HTTPException 400 (DetailText (Py.lit "Invalid report ID."))), log)
  /\ run_diagnosis_endpoint port json_loads completion_order selected_specialists
       NotFound log
     = (Raise (HTTPException 404 (DetailText (Py.lit "Report not found."))), log).
Proof. split; reflexivity. Qed.

(** X11: a request on a stored report that selects any non-empty list
    of names taken from the listing of [list_specialists] is not
    rejected for its names: with the client built the route runs
    exactly those specialists, in the order given, and returns one
    report for each; without a client it raises the error of the
    constructor.  When the report cannot be looked up the answer is 400,
    when it is not found 404, each with no call made. *)
Theorem listed_names_are_accepted (port : Port) (json_loads : Py.str -> Result PyVal)
    (completion_order : list nat) (given : list Py.str) (report_content : Py.str)
    (log : Log) :
  given <> [] ->
  (forall name, In name given -> In name (map listing_name (fst list_specialists))) ->
  (usable port engine_model ->
   exists result log',
     run_diagnosis_endpoint port json_loads completion_order (Some given)
       (Found report_content) log
     = (Ok (given, result), log')
     /\ map specialist_name (specialist_reports result) = given)
  /\ (forall cause,
        client_error port engine_model = Some cause ->
        run_diagnosis_endpoint port json_loads completion_order (Some given)
          (Found report_content) log
        = (Raise (OpenAIError cause), log))
  /\ run_diagnosis_endpoint port json_loads completion_order (Some given)
       LookupRaises log
     = (Raise (HTTPException 400 (DetailText (Py.lit "Invalid report ID."))), log)
  /\ run_diagnosis_endpoint port json_loads completion_order (Some given)
       NotFound log
     = (Raise (HTTPException 404 (DetailText (Py.lit "Report not found."))), log)
  /\ snd list_specialists = length AVAILABLE_SPECIALISTS.
Proof.
  intros Hne Hlisted. rewrite listed_names in Hlisted.
  assert (Hknown : Forall known given) by (apply Forall_forall; exact Hlisted).
  split; [|split; [|split; [|split]]]; try reflexivity.
  - intros Hclient. unfold run_diagnosis_endpoint.
    destruct given as [|g given']; [congruence|].
    unfold bind at 1, ret at 1. unfold bind at 1, ret at 1.
    rewrite (known_no_invalid (g :: given') Hknown).
    destruct (run_diagnosis_known_full port report_content (g :: given') Hclient Hknown
                completion_order log Hne) as (calls & E & _).
    unfold bind. rewrite E. unfold ret. eexists _, _. split; [reflexivity|].
    cbn [specialist_reports]. apply names_of_reports_from.
  - intros cause Hdown. unfold run_diagnosis_endpoint.
    destruct given as [|g given']; [congruence|].
    unfold bind at 1, ret at 1. unfold bind at 1, ret at 1.
    rewrite (known_no_invalid (g :: given') Hknown). unfold bind.
    rewrite (run_diagnosis_without_client port report_content (g :: given') cause
               Hdown Hknown completion_order log Hne). reflexivity.
Qed.

Lemma listed_names_are_accepted_witness :
  exists result log',
    run_diagnosis_endpoint (port_saying (Py.lit "fine")) json_loads_flat [1; 0]
      (Some [Py.lit "Orthopedist"; Py.lit "Dermatologist"]) (Found (Py.lit "knee pain"))
      []
    = (Ok ([Py.lit "Orthopedist"; Py.lit "Dermatologist"], result), log').
Proof.
  destruct (listed_names_are_accepted (port_saying (Py.lit "fine")) json_loads_flat [1; 0]
              [Py.lit "Orthopedist"; Py.lit "Dermatologist"] (Py.lit "knee pain") [])
    as (Hruns & _).
  - discriminate.
  - intros name [<-|[<-|[]]]; apply mem_In; reflexivity.
  - destruct (Hruns eq_refl) as (result & log' & E & _).
    exists result, log'. exact E.
Defined.

(** X12: a request on a stored report without a selection, or with an
    empty one, makes the route select by itself: with the client built
    it does not raise up to the end of the run, it runs between one and
    five specialists of the registry, and the selection call comes
    first, then the workers' calls, then the synthesis call; without a
    client it raises the error of the constructor before any call. *)
Theorem missing_selection_is_auto_selected (port : Port)
    (json_loads : Py.str -> Result PyVal) (completion_order : list nat)
    (selected_specialists : option (list Py.str)) (report_content : Py.str)
    (log : Log) :
  selected_specialists = None \/ selected_specialists = Some [] ->
  (usable port selector_model ->
   usable port engine_model ->
   exists selected result selector_call worker_calls team_call,
     run_diagnosis_endpoint port json_loads completion_order selected_specialists
       (Found report_content) log
     = (Ok (selected, result),
        log ++ [selector_call] ++ worker_calls ++ [team_call])
     /\ fst (auto_select_specialists port json_loads report_content log) = Ok selected
     /\ 1 <= length selected <= 5
     /\ Forall known selected
     /\ map specialist_name (specialist_reports result) = selected
     /\ inv_site selector_call = SelectorCall
     /\ Forall (fun call => exists slot, inv_site call = SpecialistCall slot) worker_calls
     /\ inv_site team_call = TeamCall)
  /\ (forall cause,
        client_error port selector_model = Some cause ->
        run_diagnosis_endpoint port json_loads completion_order selected_specialists
          (Found report_content) log
        = (Raise (OpenAIError cause), log)).
Proof.
  intros Hnone.
  destruct (selector_directive_ok report_content) as [p Hp].
  pose proof (auto_select_eq port json_loads report_content log p Hp) as Hauto.
  split.
  - intros Hselector Hclient. rewrite Hselector in Hauto.
    destruct (selection_of_bounds json_loads (port SelectorCall p)) as [Hlen Hknown].
    set (selected := selection_of json_loads (port SelectorCall p)) in *.
    assert (Hne : selected <> [])
      by (intros Hnil; rewrite Hnil in Hlen; simpl in Hlen; lia).
    assert (E : run_diagnosis_endpoint port json_loads completion_order
                  selected_specialists (Found report_content) log
                = (let invalid :=
                     filter (fun s => negb (Py.mem s AVAILABLE_SPECIALISTS)) selected in
                   match invalid with
                   | _ :: _ =>
                       raise (HTTPException 400
                                (DetailInvalid
                                   {| detail_invalid := invalid;
                                      detail_available := AVAILABLE_SPECIALISTS |}))
                   | [] =>
                       result <- run_diagnosis port completion_order report_content
                                   selected ;;
                       ret (selected, result)
                   end)
                    (log ++ [{| inv_site := SelectorCall; inv_model := selector_model;
                                inv_prompt := p |}])).
    { unfold run_diagnosis_endpoint. unfold bind at 1, ret at 1.
      destruct Hnone as [->| ->]; unfold bind at 1; rewrite Hauto; reflexivity. }
    rewrite E. cbv zeta. rewrite (known_no_invalid selected Hknown).
    destruct (run_diagnosis_known_full port report_content selected Hclient Hknown
                completion_order
                (log ++ [{| inv_site := SelectorCall; inv_model := selector_model;
                            inv_prompt := p |}]) Hne) as (calls & Erun & Hcalls).
    unfold bind. rewrite Erun. unfold ret.
    eexists selected, _, _, calls, _. rewrite <- !app_assoc.
    split; [reflexivity|]. rewrite Hauto. cbn [fst specialist_reports inv_site].
    split; [reflexivity|]. split; [exact Hlen|]. split; [exact Hknown|].
    split; [apply names_of_reports_from|]. split; [reflexivity|].
    split; [|reflexivity].
    revert Hcalls. apply Forall_impl. intros c [_ H]. exact H.
  - intros cause Hdown. rewrite Hdown in Hauto. unfold run_diagnosis_endpoint.
    unfold bind at 1, ret at 1.
    destruct Hnone as [->| ->]; unfold bind at 1; rewrite Hauto; reflexivity.
Qed.

Lemma missing_selection_is_auto_selected_witness :
  exists result calls,
    run_diagnosis_endpoint (port_saying (Py.lit "no idea")) json_loads_flat []
      None (Found (Py.lit "chest pain")) []
    = (Ok ([Py.lit "Cardiologist"; Py.lit "Psychologist"; Py.lit "Pulmonologist"],
           result), calls).
Proof.
  destruct (proj1 (missing_selection_is_auto_selected (port_saying (Py.lit "no idea"))
                     json_loads_flat [] None (Py.lit "chest pain") []
                     (or_introl eq_refl)) eq_refl eq_refl)
    as (selected & result & c1 & cs & c2 & E & Hauto & _).
  exists result, ([] ++ [c1] ++ cs ++ [c2]). rewrite E. do 3 f_equal.
  vm_compute in Hauto. injection Hauto as <-. reflexivity.
Defined.

Lemma underscored (s : Py.str) :
  Py.replace (Py.lit " ") (Py.lit "_") s
  = map (fun c => if N.eqb c 32 then 95%N else c) s.
Proof.
  change (Py.lit " ") with [32%N]. rewrite replace_char.
  induction s as [|x s IH]; [reflexivity|].
  cbn [flat_map map]. rewrite IH, (N.eqb_sym x 32).
  destruct (N.eqb 32 x); reflexivity.
Qed.

Lemma encode_latin1_cases (value : Py.str) :
  (Forall (fun c => (c <= 255)%N) value /\ encode_latin1 value = Returned value)
  \/ (Exists (fun c => (255 < c)%N) value
      /\ encode_latin1 value
         = Failed (PythonError "UnicodeEncodeError" (Py.lit "ordinal not in range(256)"))).
Proof.
  unfold encode_latin1. destruct (forallb (fun c => N.leb c 255) value) eqn:E.
  - left. split; [|reflexivity]. rewrite forallb_forall in E.
    apply Forall_forall. intros c Hc. apply N.leb_le. exact (E c Hc).
  - right. split; [|reflexivity].
    apply Exists_exists.
    induction value as [|c value IH]; [discriminate E|].
    cbn [forallb] in E. destruct (N.leb_spec c 255) as [Hle|Hgt].
    + cbn [andb] in E. destruct (IH E) as (x & Hx & Hgt). exists x.
      split; [right; exact Hx|exact Hgt].
    + exists c. split; [left; reflexivity|exact Hgt].
Qed.

Lemma disposition_encodes (name : Py.str) :
  let filename :=
    Py.lit "Cura3ai_Report_" ++ map (fun c => if N.eqb c 32 then 95%N else c) name
      ++ Py.lit ".pdf" in
  encode_latin1 (Py.lit "attachment; filename=" ++ [34%N] ++ filename ++ [34%N])
  = if forallb (fun c => N.leb c 255) name
    then Returned (Py.lit "attachment; filename=" ++ [34%N] ++ filename ++ [34%N])
    else Failed (PythonError "UnicodeEncodeError" (Py.lit "ordinal not in range(256)")).
Proof.
  cbv zeta. unfold encode_latin1.
  assert (Hmap : forallb (fun c => N.leb c 255)
                   (map (fun c => if N.eqb c 32 then 95%N else c) name)
                 = forallb (fun c => N.leb c 255) name).
  { induction name as [|c name IH]; [reflexivity|].
    cbn [map forallb]. rewrite IH. f_equal.
    destruct (N.eqb_spec c 32) as [->|_]; reflexivity. }
  rewrite !forallb_app, Hmap.
  replace (forallb (fun c => N.leb c 255) (Py.lit "attachment; filename=")) with true
    by reflexivity.
  replace (forallb (fun c => N.leb c 255) (Py.lit "Cura3ai_Report_")) with true
    by reflexivity.
  replace (forallb (fun c => N.leb c 255) (Py.lit ".pdf")) with true by reflexivity.
  replace (forallb (fun c => N.leb c 255) [34%N]) with true by reflexivity.
  rewrite !andb_true_r. cbn [andb]. reflexivity.
Qed.

Lemma underscored_has_no_space (name : Py.str) :
  ~ In 32%N (Py.lit "Cura3ai_Report_"
               ++ map (fun c => if N.eqb c 32 then 95%N else c) name ++ Py.lit ".pdf").
Proof.
  rewrite !in_app_iff. intros [H|[H|H]].
  - cbn in H. repeat (destruct H as [H|H]; [discriminate H|]). exact H.
  - apply in_map_iff in H. destruct H as (c & Hc & _).
    destruct (N.eqb_spec c 32) as [_|Hne]; [discriminate Hc|]. exact (Hne Hc).
  - cbn in H. repeat (destruct H as [H|H]; [discriminate H|]). exact H.
Qed.

(** X13: a download names its file after the patient, each space of
    the name replaced by an underscore and every other character kept,
    so the file name has no space; a diagnosis without a patient name
    is called diagnosis.  The file name goes into the Content-Disposition
    header, encoded as Latin-1: a name with a character above 255 makes
    the download raise, and so does a stored null name.  A diagnosis
    that cannot be looked up is answered 400, one not found 404. *)
Theorem pdf_filename_has_no_space (pdf_bytes : list Byte.byte)
    (generated : Outcome (list Byte.byte)) :
  (forall name,
      let filename :=
        Py.lit "Cura3ai_Report_" ++ map (fun c => if N.eqb c 32 then 95%N else c) name
          ++ Py.lit ".pdf" in
      (Forall (fun c => (c <= 255)%N) name ->
       download_diagnosis_pdf (Found (Some (Some name))) (Returned pdf_bytes)
       = Returned {| download_body := pdf_bytes;
                     download_filename := filename;
                     download_disposition :=
                       Py.lit "attachment; filename=" ++ [34%N] ++ filename ++ [34%N] |}
       /\ ~ In 32%N filename)
      /\ (Exists (fun c => (255 < c)%N) name ->
          download_diagnosis_pdf (Found (Some (Some name))) (Returned pdf_bytes)
          = Failed (PythonError "UnicodeEncodeError"
                      (Py.lit "ordinal not in range(256)"))))
  /\ (exists disposition,
        download_diagnosis_pdf (Found None) (Returned pdf_bytes)
        = Returned {| download_body := pdf_bytes;
                      download_filename := Py.lit "Cura3ai_Report_diagnosis.pdf";
                      download_disposition := disposition |})
  /\ (exists text,
        download_diagnosis_pdf (Found (Some None)) (Returned pdf_bytes)
        = Failed (PythonError "AttributeError" text))
  /\ (forall patient_name failure,
        download_diagnosis_pdf (Found patient_name) (Failed failure) = Failed failure)
  /\ download_diagnosis_pdf LookupRaises generated
     = Failed (HTTPError 400 (Py.lit "Invalid diagnosis ID."))
  /\ download_diagnosis_pdf NotFound generated
     = Failed (HTTPError 404 (Py.lit "Diagnosis not found.")).
Proof.
  split; [|split; [|split; [|split; [|split]]]]; try reflexivity.
  - intros name filename. unfold download_diagnosis_pdf. cbv zeta.
    rewrite underscored. fold filename.
    pose proof (disposition_encodes name) as Henc. cbv zeta in Henc.
    fold filename in Henc. rewrite Henc.
    destruct (encode_latin1_cases name) as [[Hall E]|[Hsome E]]; unfold encode_latin1 in E.
    + destruct (forallb (fun c => N.leb c 255) name); [|discriminate E].
      split.
      * intros _. split; [reflexivity|apply underscored_has_no_space].
      * intros Hex. exfalso. apply Exists_exists in Hex.
        destruct Hex as (c & Hc & Hgt). rewrite Forall_forall in Hall.
        specialize (Hall c Hc). lia.
    + destruct (forallb (fun c => N.leb c 255) name); [discriminate E|].
      split.
      * intros Hall. exfalso. apply Exists_exists in Hsome.
        destruct Hsome as (c & Hc & Hgt). rewrite Forall_forall in Hall.
        specialize (Hall c Hc). lia.
      * intros _. reflexivity.
  - eexists. vm_compute. reflexivity.
  - eexists. reflexivity.
Qed.

Lemma pdf_filename_has_no_space_witness :
  (exists disposition,
      download_diagnosis_pdf (Found (Some (Some (Py.lit "Ana Maria Diaz")))) (Returned [])
      = Returned {| download_body := [];
                    download_filename := Py.lit "Cura3ai_Report_Ana_Maria_Diaz.pdf";
                    download_disposition := disposition |})
  /\ download_diagnosis_pdf (Found (Some (Some [321%N; 117%N; 107%N; 97%N; 115%N; 122%N])))
       (Returned [])
     = Failed (PythonError "UnicodeEncodeError" (Py.lit "ordinal not in range(256)")).
Proof.
  split.
  - destruct (proj1 (pdf_filename_has_no_space [] (Returned []))
                (Py.lit "Ana Maria Diaz")) as (Hlatin & _).
    destruct Hlatin as [E _].
    + repeat constructor; vm_compute; discriminate.
    + eexists. rewrite E. reflexivity.
  - destruct (proj1 (pdf_filename_has_no_space [] (Returned []))
                [321%N; 117%N; 107%N; 97%N; 115%N; 122%N]) as (_ & Hwide).
    apply Hwide. constructor. reflexivity.
Defined.
(** ** Report upload *)

Section UploadFacts.

Variable str_lower : Py.str -> Py.str.
Variable decode_utf8_replace : list Byte.byte -> Py.str.
Variable pdf_page_texts : list Byte.byte -> Outcome (list (option Py.str)).
Variable docx_paragraphs : list Byte.byte -> Outcome (list Py.str).
Variable list_str : list Py.str -> Py.str.
Variable int_str : Z -> Py.str.
Variable ALLOWED_EXTENSIONS : list Py.str.
Variable MAX_UPLOAD_SIZE_MB : Z.

Lemma parse_report_file_cases (filename : Py.str) (file_bytes : list Byte.byte) :
  (exists content,
      parse_report_file str_lower decode_utf8_replace pdf_page_texts docx_paragraphs
        filename file_bytes = Returned content)
  \/ (exists text,
         parse_report_file str_lower decode_utf8_replace pdf_page_texts docx_paragraphs
           filename file_bytes = Failed (PythonError "ValueError" text)).
Proof.
  unfold parse_report_file, parse_txt, parse_pdf, parse_docx. cbv zeta.
  destruct (Py.eqb (extension_of str_lower filename) (Py.lit "txt"));
    [left; eexists; reflexivity|].
  destruct (Py.eqb (extension_of str_lower filename) (Py.lit "pdf")).
  { destruct (pdf_page_texts file_bytes); [left|right]; eexists; reflexivity. }
  destruct (Py.eqb (extension_of str_lower filename) (Py.lit "docx")).
  { destruct (docx_paragraphs file_bytes); [left|right]; eexists; reflexivity. }
  right. eexists. reflexivity.
Qed.

End UploadFacts.

(** A stored upload passed the extension check and holds what the
    parser returned for the name it is stored under. *)
Lemma upload_stored_is_parsed
    (str_lower : Py.str -> Py.str) (decode_utf8_replace : list Byte.byte -> Py.str)
    (pdf_page_texts : list Byte.byte -> Outcome (list (option Py.str)))
    (docx_paragraphs : list Byte.byte -> Outcome (list Py.str))
    (list_str : list Py.str -> Py.str) (int_str : Z -> Py.str)
    (ALLOWED_EXTENSIONS : list Py.str) (MAX_UPLOAD_SIZE_MB : Z)
    (file_name : option Py.str) (file_bytes : list Byte.byte)
    (patient_name : Py.str) (store_report : bool) (doc : ReportDoc) :
  upload_report str_lower decode_utf8_replace pdf_page_texts docx_paragraphs
    list_str int_str ALLOWED_EXTENSIONS MAX_UPLOAD_SIZE_MB
    file_name file_bytes patient_name store_report = Returned doc ->
  In (Py.lit "." ++ extension_of str_lower (report_filename doc)) ALLOWED_EXTENSIONS
  /\ parse_report_file str_lower decode_utf8_replace pdf_page_texts docx_paragraphs
       (report_filename doc) file_bytes = Returned (report_text doc).
Proof.
  unfold upload_report. cbv zeta.
  set (filename := match file_name with
                   | Some ((_ :: _) as name) => name
                   | _ => Py.lit "unknown.txt"
                   end).
  destruct (Py.mem (Py.lit "." ++ extension_of str_lower filename) ALLOWED_EXTENSIONS)
    eqn:Hext; cbn [negb]; [|discriminate].
  destruct (MAX_UPLOAD_SIZE_MB * 1024 * 1024 <? Z.of_nat (length file_bytes))%Z;
    [discriminate|].
  destruct (parse_report_file_cases str_lower decode_utf8_replace pdf_page_texts
              docx_paragraphs filename file_bytes) as [[content E]|[text E]];
    rewrite E; [|discriminate].
  destruct (Py.strip content) as [|c rest]; [discriminate|].
  intros H. injection H as <-. cbn [report_filename report_text].
  split; [apply mem_In; exact Hext|exact E].
Qed.

(** X14: an upload is stored under its own file name, or under
    unknown.txt when the name is missing or empty, and only if the
    extension of that name is allowed, its size is within the limit and
    its parsed text is not blank; every rejection, a failure of a
    parser included, is an HTTP 400 answer. *)
Theorem upload_stores_only_valid_reports
    (str_lower : Py.str -> Py.str) (decode_utf8_replace : list Byte.byte -> Py.str)
    (pdf_page_texts : list Byte.byte -> Outcome (list (option Py.str)))
    (docx_paragraphs : list Byte.byte -> Outcome (list Py.str))
    (list_str : list Py.str -> Py.str) (int_str : Z -> Py.str)
    (ALLOWED_EXTENSIONS : list Py.str) (MAX_UPLOAD_SIZE_MB : Z)
    (file_name : option Py.str) (file_bytes : list Byte.byte)
    (patient_name : Py.str) (store_report : bool) :
  let outcome :=
    upload_report str_lower decode_utf8_replace pdf_page_texts docx_paragraphs
      list_str int_str ALLOWED_EXTENSIONS MAX_UPLOAD_SIZE_MB
      file_name file_bytes patient_name store_report in
  (forall doc,
      outcome = Returned doc ->
      In (Py.lit "." ++ extension_of str_lower (report_filename doc)) ALLOWED_EXTENSIONS
      /\ (Z.of_nat (length file_bytes) <= MAX_UPLOAD_SIZE_MB * 1024 * 1024)%Z
      /\ Py.strip (report_text doc) <> []
      /\ parse_report_file str_lower decode_utf8_replace pdf_page_texts docx_paragraphs
           (report_filename doc) file_bytes = Returned (report_text doc)
      /\ (forall name, file_name = Some name -> name <> [] -> report_filename doc = name)
      /\ (file_name = None \/ file_name = Some [] ->
          report_filename doc = Py.lit "unknown.txt"))
  /\ (forall failure,
        outcome = Failed failure -> exists detail, failure = HTTPError 400 detail).
Proof.
  cbv zeta. unfold upload_report. cbv zeta.
  set (filename := match file_name with
                   | Some ((_ :: _) as name) => name
                   | _ => Py.lit "unknown.txt"
                   end).
  assert (Hname : (forall name, file_name = Some name -> name <> [] -> filename = name)
                  /\ (file_name = None \/ file_name = Some [] ->
                      filename = Py.lit "unknown.txt")).
  { subst filename. split.
    - intros name -> Hne. destruct name; [congruence|reflexivity].
    - intros [->| ->]; reflexivity. }
  destruct (Py.mem (Py.lit "." ++ extension_of str_lower filename) ALLOWED_EXTENSIONS)
    eqn:Hext; cbn [negb].
  2:{ split; [intros doc H; discriminate H|].
      intros failure H. injection H as <-. eexists. reflexivity. }
  destruct (Z.ltb_spec (MAX_UPLOAD_SIZE_MB * 1024 * 1024) (Z.of_nat (length file_bytes)))
    as [Hbig|Hsmall].
  { split; [intros doc H; discriminate H|].
    intros failure H. injection H as <-. eexists. reflexivity. }
  destruct (parse_report_file_cases str_lower decode_utf8_replace pdf_page_texts
              docx_paragraphs filename file_bytes) as [[content E]|[text E]];
    rewrite E.
  - destruct (Py.strip content) as [|c rest] eqn:Hstrip.
    + split; [intros doc H; discriminate H|].
      intros failure H. injection H as <-. eexists. reflexivity.
    + split; [|intros failure H; discriminate H].
      intros doc H. injection H as <-. cbn [report_filename report_text].
      split; [apply mem_In; exact Hext|]. split; [exact Hsmall|].
      split; [rewrite Hstrip; discriminate|]. split; [exact E|exact Hname].
  - split; [intros doc H; discriminate H|].
    intros failure H. injection H as <-. eexists. reflexivity.
Qed.

Lemma upload_stores_only_valid_reports_witness :
  (exists doc,
      upload_report ascii_lower decode_ascii (fun _ => Returned []) (fun _ => Returned [])
        (fun _ => []) (fun _ => []) default_extensions 10
        (Some (Py.lit "Visit.Notes.TXT")) (encode_ascii "chest pain") (Py.lit "Ann") true
      = Returned doc
      /\ Py.strip (report_text doc) <> [])
  /\ (exists doc,
        upload_report ascii_lower decode_ascii (fun _ => Returned [])
          (fun _ => Returned []) (fun _ => []) (fun _ => []) default_extensions 10
          None (encode_ascii "chest pain") (Py.lit "Ann") true
        = Returned doc
        /\ report_filename doc = Py.lit "unknown.txt").
Proof.
  split.
  2:{ eexists. split; [vm_compute; reflexivity|].
      refine (proj2 (proj2 (proj2 (proj2 (proj2
                (proj1 (upload_stores_only_valid_reports
                          ascii_lower decode_ascii (fun _ => Returned [])
                          (fun _ => Returned []) (fun _ => []) (fun _ => [])
                          default_extensions 10 None
                          (encode_ascii "chest pain") (Py.lit "Ann") true)
                   _ _))))) (or_introl eq_refl)).
      vm_compute. reflexivity. }
  exists {| report_patient_name := Py.lit "Ann";
            report_filename := Py.lit "Visit.Notes.TXT";
            report_text := Py.lit "chest pain";
            report_source := Py.lit "upload";
            report_store := true |}.
  assert (E : upload_report ascii_lower decode_ascii (fun _ => Returned [])
                (fun _ => Returned []) (fun _ => []) (fun _ => []) default_extensions 10
                (Some (Py.lit "Visit.Notes.TXT")) (encode_ascii "chest pain")
                (Py.lit "Ann") true
              = Returned {| report_patient_name := Py.lit "Ann";
                            report_filename := Py.lit "Visit.Notes.TXT";
                            report_text := Py.lit "chest pain";
                            report_source := Py.lit "upload";
                            report_store := true |})
    by (vm_compute; reflexivity).
  split; [exact E|].
  exact (proj1 (proj2 (proj2 (proj1 (upload_stores_only_valid_reports
                                       ascii_lower decode_ascii (fun _ => Returned [])
                                       (fun _ => Returned []) (fun _ => []) (fun _ => [])
                                       default_extensions 10
                                       (Some (Py.lit "Visit.Notes.TXT"))
                                       (encode_ascii "chest pain") (Py.lit "Ann") true)
                                    _ E)))).
Defined.

(** X15: with the extensions allowed by default, whatever passes the
    route's check is a format the parser supports: the stored text is
    the decoded bytes of a .txt file, the non-empty page texts of a
    .pdf or the non-blank paragraphs of a .docx, joined by newlines,
    and the parser's own rejection of the format never occurs. *)
Theorem upload_dispatches_on_extension
    (str_lower : Py.str -> Py.str) (decode_utf8_replace : list Byte.byte -> Py.str)
    (pdf_page_texts : list Byte.byte -> Outcome (list (option Py.str)))
    (docx_paragraphs : list Byte.byte -> Outcome (list Py.str))
    (list_str : list Py.str -> Py.str) (int_str : Z -> Py.str)
    (ALLOWED_EXTENSIONS : list Py.str) (MAX_UPLOAD_SIZE_MB : Z)
    (file_name : option Py.str) (file_bytes : list Byte.byte)
    (patient_name : Py.str) (store_report : bool) (doc : ReportDoc) :
  incl ALLOWED_EXTENSIONS default_extensions ->
  upload_report str_lower decode_utf8_replace pdf_page_texts docx_paragraphs
    list_str int_str ALLOWED_EXTENSIONS MAX_UPLOAD_SIZE_MB
    file_name file_bytes patient_name store_report = Returned doc ->
  let ext := extension_of str_lower (report_filename doc) in
  (ext = Py.lit "txt" /\ report_text doc = decode_utf8_replace file_bytes)
  \/ (ext = Py.lit "pdf"
      /\ exists pages,
           pdf_page_texts file_bytes = Returned pages
           /\ report_text doc
              = Py.join nl (flat_map (fun page_text =>
                                        match page_text with
                                        | Some [] | None => []
                                        | Some text => [text]
                                        end) pages))
  \/ (ext = Py.lit "docx"
      /\ exists paragraphs,
           docx_paragraphs file_bytes = Returned paragraphs
           /\ report_text doc
              = Py.join nl (filter (fun text =>
                                      negb (Py.eqb (Py.strip text) [])) paragraphs)).
Proof.
  intros Hincl Hup. cbv zeta.
  destruct (upload_stored_is_parsed str_lower decode_utf8_replace pdf_page_texts
              docx_paragraphs list_str int_str ALLOWED_EXTENSIONS MAX_UPLOAD_SIZE_MB
              file_name file_bytes patient_name store_report doc Hup) as (Hext & Hparse).
  apply Hincl in Hext. unfold parse_report_file in Hparse. cbv zeta in Hparse.
  set (ext := extension_of str_lower (report_filename doc)) in *.
  destruct Hext as [H|[H|[H|[]]]]; injection H as H.
  - left. rewrite <- H in *. change (Py.eqb (Py.lit "txt") (Py.lit "txt")) with true in Hparse.
    cbv iota in Hparse. unfold parse_txt in Hparse. injection Hparse as <-.
    split; reflexivity.
  - right. left. rewrite <- H in *.
    change (Py.eqb (Py.lit "pdf") (Py.lit "txt")) with false in Hparse.
    change (Py.eqb (Py.lit "pdf") (Py.lit "pdf")) with true in Hparse.
    cbv iota in Hparse. unfold parse_pdf in Hparse.
    destruct (pdf_page_texts file_bytes) as [pages|e]; [|discriminate Hparse].
    injection Hparse as <-. split; [reflexivity|]. exists pages. split; reflexivity.
  - right. right. rewrite <- H in *.
    change (Py.eqb (Py.lit "docx") (Py.lit "txt")) with false in Hparse.
    change (Py.eqb (Py.lit "docx") (Py.lit "pdf")) with false in Hparse.
    change (Py.eqb (Py.lit "docx") (Py.lit "docx")) with true in Hparse.
    cbv iota in Hparse. unfold parse_docx in Hparse.
    destruct (docx_paragraphs file_bytes) as [paragraphs|e]; [|discriminate Hparse].
    injection Hparse as <-. split; [reflexivity|]. exists paragraphs.
    split; [reflexivity|]. f_equal. apply filter_ext.
    intros text. destruct (Py.strip text); reflexivity.
Qed.

Lemma upload_dispatches_on_extension_witness :
  extension_of ascii_lower (Py.lit "Visit.Notes.TXT") = Py.lit "txt"
  /\ upload_report ascii_lower decode_ascii (fun _ => Returned []) (fun _ => Returned [])
       (fun _ => []) (fun _ => []) default_extensions 10
       (Some (Py.lit "Visit.Notes.TXT")) (encode_ascii "chest pain") (Py.lit "Ann") true
     = Returned {| report_patient_name := Py.lit "Ann";
                   report_filename := Py.lit "Visit.Notes.TXT";
                   report_text := decode_ascii (encode_ascii "chest pain");
                   report_source := Py.lit "upload";
                   report_store := true |}.
Proof.
  assert (E : upload_report ascii_lower decode_ascii (fun _ => Returned [])
                (fun _ => Returned []) (fun _ => []) (fun _ => []) default_extensions 10
                (Some (Py.lit "Visit.Notes.TXT")) (encode_ascii "chest pain")
                (Py.lit "Ann") true
              = Returned {| report_patient_name := Py.lit "Ann";
                            report_filename := Py.lit "Visit.Notes.TXT";
                            report_text := decode_ascii (encode_ascii "chest pain");
                            report_source := Py.lit "upload";
                            report_store := true |})
    by (vm_compute; reflexivity).
  split; [|exact E].
  destruct (upload_dispatches_on_extension ascii_lower decode_ascii
              (fun _ => Returned []) (fun _ => Returned []) (fun _ => []) (fun _ => [])
              default_extensions 10 (Some (Py.lit "Visit.Notes.TXT"))
              (encode_ascii "chest pain") (Py.lit "Ann") true _
              (incl_refl default_extensions) E) as [[H _]|[[H _]|[H _]]].
  - exact H.
  - vm_compute in H. discriminate H.
  - vm_compute in H. discriminate H.
Defined.

Lemma rsplit1_last_char (c : Py.char) (stem ext : Py.str) :
  ~ In c ext -> Py.rsplit1 [c] (stem ++ c :: ext) = [stem; ext].
Proof.
  intros H. unfold Py.rsplit1. cbn [rev app].
  rewrite rev_app_distr. cbn [rev]. rewrite <- app_assoc. cbn [app].
  rewrite partition_char by (rewrite <- in_rev; exact H).
  rewrite !rev_involutive. reflexivity.
Qed.

(** X16: the extension of an uploaded file is what follows the last
    dot of its lower-cased name, and a name without a dot has the empty
    extension, which the default settings reject. *)
Theorem extension_follows_last_dot (str_lower : Py.str -> Py.str)
    (filename stem ext : Py.str) :
  (In 46%N filename ->
   str_lower filename = stem ++ Py.lit "." ++ ext ->
   ~ In 46%N ext ->
   extension_of str_lower filename = ext)
  /\ (~ In 46%N filename ->
      extension_of str_lower filename = []
      /\ Py.mem (Py.lit "." ++ extension_of str_lower filename) default_extensions
         = false).
Proof.
  unfold extension_of. split.
  - intros Hdot Hlow Hext.
    replace (existsb (N.eqb 46) filename) with true.
    + rewrite Hlow. change (Py.lit ".") with [46%N]. cbn [app].
      rewrite (rsplit1_last_char 46%N stem ext Hext). reflexivity.
    + symmetry. apply existsb_exists. exists 46%N. split; [exact Hdot|reflexivity].
  - intros Hnodot.
    replace (existsb (N.eqb 46) filename) with false; [split; reflexivity|].
    symmetry. apply not_true_is_false. intros H. apply existsb_exists in H.
    destruct H as (c & Hin & Hc). apply N.eqb_eq in Hc. subst c. exact (Hnodot Hin).
Qed.

Lemma extension_follows_last_dot_witness :
  extension_of ascii_lower (Py.lit "scan.2024.PDF") = Py.lit "pdf".
Proof.
  apply (proj1 (extension_follows_last_dot ascii_lower (Py.lit "scan.2024.PDF")
                  (Py.lit "scan.2024") (Py.lit "pdf"))).
  - vm_compute. auto 10.
  - reflexivity.
  - vm_compute. intros H. repeat (destruct H as [H|H]; [discriminate H|]). exact H.
Defined.
(** ** The rate limiter *)

Section LimiterFacts.

Variable float_of_int : Z -> float.

Lemma eqb_same (s : Py.str) : Py.eqb s s = true.
Proof. apply eqb_eq. reflexivity. Qed.

Lemma is_rate_limited_settings (self : RateLimiter) (key : Py.str) (now : float) :
  max_requests (snd (is_rate_limited float_of_int self key now)) = max_requests self
  /\ window_seconds (snd (is_rate_limited float_of_int self key now))
     = window_seconds self.
Proof.
  unfold is_rate_limited. cbv zeta.
  match goal with |- context [if ?b then _ else _] => destruct b end;
    split; reflexivity.
Qed.

(** What one check does to the history of each key. *)
Lemma is_rate_limited_history (self : RateLimiter) (key : Py.str) (now : float)
    (k : Py.str) :
  let kept :=
    filter (fun t => PrimFloat.ltb (PrimFloat.sub now
                                      (float_of_int (window_seconds self))) t)
           (_requests self key) in
  _requests (snd (is_rate_limited float_of_int self key now)) k
  = if Py.eqb k key
    then if (max_requests self <=? Z.of_nat (length kept))%Z then kept
         else kept ++ [now]
    else _requests self k.
Proof.
  cbv zeta. unfold is_rate_limited. cbv zeta.
  cbn [set_requests _requests max_requests]. rewrite (eqb_same key).
  match goal with |- context [(?a <=? ?b)%Z] => destruct (a <=? b)%Z end;
    cbn [snd set_requests _requests]; rewrite ?eqb_same;
    destruct (Py.eqb k key); reflexivity.
Qed.

Lemma after_checks_settings (self : RateLimiter) (checks : list (Py.str * float)) :
  max_requests (after_checks float_of_int self checks) = max_requests self.
Proof.
  revert self. induction checks as [|[key now] checks IH]; intros self; [reflexivity|].
  cbn [after_checks]. rewrite IH. apply is_rate_limited_settings.
Qed.

Lemma after_checks_invariant (self : RateLimiter) (checks : list (Py.str * float))
    (seen : list (Py.str * float)) :
  (forall k, (Z.of_nat (length (_requests self k)) <= max_requests self)%Z) ->
  (forall k t, In t (_requests self k) -> In (k, t) seen) ->
  forall k,
    (Z.of_nat (length (_requests (after_checks float_of_int self checks) k))
     <= max_requests self)%Z
    /\ forall t, In t (_requests (after_checks float_of_int self checks) k) ->
                 In (k, t) (seen ++ checks).
Proof.
  revert self seen. induction checks as [|[key now] checks IH]; intros self seen Hb Hs k.
  - cbn [after_checks]. rewrite app_nil_r. split; [apply Hb|apply Hs].
  - cbn [after_checks].
    destruct (is_rate_limited_settings self key now) as [Hmax _].
    rewrite <- Hmax.
    replace (seen ++ (key, now) :: checks) with ((seen ++ [(key, now)]) ++ checks)
      by (rewrite <- app_assoc; reflexivity).
    apply IH.
    + intros k'. rewrite Hmax, is_rate_limited_history. cbv zeta.
      destruct (Py.eqb k' key) eqn:Hk; [|apply Hb].
      pose proof (filter_length_le
                    (fun t => PrimFloat.ltb
                                (PrimFloat.sub now (float_of_int (window_seconds self))) t)
                    (_requests self key)) as Hle.
      pose proof (Hb key).
      destruct (Z.leb_spec (max_requests self)
                  (Z.of_nat (length (filter
                     (fun t => PrimFloat.ltb
                                 (PrimFloat.sub now (float_of_int (window_seconds self))) t)
                     (_requests self key))))); [lia|].
      rewrite length_app. cbn [length]. lia.
    + intros k' t. rewrite is_rate_limited_history. cbv zeta.
      destruct (Py.eqb k' key) eqn:Hk.
      * apply eqb_eq in Hk. subst k'. intros Hin. apply in_or_app.
        assert (Hcase : In t (filter
                     (fun t => PrimFloat.ltb
                                 (PrimFloat.sub now (float_of_int (window_seconds self))) t)
                     (_requests self key)) \/ t = now).
        { destruct (max_requests self <=? _)%Z; [left; exact Hin|].
          apply in_app_or in Hin. destruct Hin as [Hin|[<-|[]]]; [left; exact Hin|].
          right. reflexivity. }
        destruct Hcase as [Hold| ->].
        -- left. apply Hs. apply filter_In in Hold. apply Hold.
        -- right. left. reflexivity.
      * intros Hin. apply in_or_app. left. apply Hs. exact Hin.
Qed.

End LimiterFacts.

(** X17: a limiter that starts empty never keeps more than
    [max_requests] times for a client, whatever the sequence of checks
    and their times, and every time it keeps for a client is the time
    of a check made for that same client: clients do not use up each
    other's allowance. *)
Theorem limiter_history_is_bounded_and_isolated (float_of_int : Z -> float)
    (max window : Z) (checks : list (Py.str * float)) (key : Py.str) :
  (0 <= max)%Z ->
  let limiter := after_checks float_of_int (new_limiter max window) checks in
  (Z.of_nat (length (_requests limiter key)) <= max)%Z
  /\ (forall t, In t (_requests limiter key) -> In (key, t) checks)
  /\ max_requests limiter = max.
Proof.
  intros Hmax. cbv zeta.
  destruct (after_checks_invariant float_of_int (new_limiter max window) checks []
              (fun k => Hmax) (fun k t (H : In t []) => match H with end) key)
    as [Hbound Hfrom].
  split; [exact Hbound|]. split; [exact Hfrom|].
  apply after_checks_settings.
Qed.

Lemma limiter_history_is_bounded_and_isolated_witness :
  let limiter :=
    after_checks small_float_of_int (new_limiter 2 60)
      [(Py.lit "ip:a", 1%float); (Py.lit "ip:a", 2%float); (Py.lit "ip:b", 3%float);
       (Py.lit "ip:a", 4%float)] in
  (Z.of_nat (length (_requests limiter (Py.lit "ip:a"))) <= 2)%Z.
Proof.
  cbv zeta.
  apply (limiter_history_is_bounded_and_isolated small_float_of_int 2 60 _ (Py.lit "ip:a")).
  lia.
Defined.

(** X18: a check refuses a request exactly when [get_remaining], asked
    at the same time, answers zero; and the answer of [get_remaining]
    is never negative nor above [max_requests]. *)
Theorem limited_iff_nothing_remains (float_of_int : Z -> float) (self : RateLimiter)
    (key : Py.str) (now : float) :
  (fst (is_rate_limited float_of_int self key now) = true
   <-> get_remaining float_of_int self key now = 0%Z)
  /\ (0 <= get_remaining float_of_int self key now)%Z
  /\ ((0 <= max_requests self)%Z ->
      (get_remaining float_of_int self key now <= max_requests self)%Z).
Proof.
  unfold is_rate_limited, get_remaining. cbv zeta.
  cbn [set_requests _requests max_requests]. rewrite (eqb_same key).
  set (active := length (filter _ (_requests self key))).
  split; [|split; lia].
  destruct (Z.leb_spec (max_requests self) (Z.of_nat active)) as [Hle|Hlt]; cbn [fst];
    split; intros Hx; try reflexivity; try discriminate Hx; lia.
Qed.

Lemma limited_iff_nothing_remains_witness :
  (get_remaining small_float_of_int (new_limiter 5 60) (Py.lit "ip:a") 100%float <= 5)%Z.
Proof.
  apply (proj2 (proj2 (limited_iff_nothing_remains small_float_of_int
                         (new_limiter 5 60) (Py.lit "ip:a") 100%float))).
  cbn [new_limiter max_requests]. lia.
Defined.

(** X19: a request with a non-empty Authorization header is keyed by
    the first fifty characters of that header and by nothing else, so
    requests whose headers agree on those characters share one
    allowance whatever their addresses; such a key is never the key of
    a request without the header. *)
Theorem client_key_uses_fifty_characters (request other : RequestInfo)
    (auth : Py.str) :
  header_authorization request = Some auth ->
  auth <> [] ->
  _get_key request = Py.lit "auth:" ++ firstn 50 auth
  /\ length (_get_key request) <= 55
  /\ (forall auth',
        header_authorization other = Some auth' ->
        firstn 50 auth' = firstn 50 auth ->
        _get_key other = _get_key request)
  /\ (header_authorization other = None \/ header_authorization other = Some [] ->
      _get_key other <> _get_key request).
Proof.
  intros Hauth Hne.
  assert (Hkey : _get_key request = Py.lit "auth:" ++ firstn 50 auth).
  { unfold _get_key. rewrite Hauth. cbn [dict_get].
    destruct auth; [congruence|reflexivity]. }
  split; [exact Hkey|]. split; [|split].
  - rewrite Hkey, length_app, length_firstn.
    change (length (Py.lit "auth:")) with 5. lia.
  - intros auth' Hother Hsame. rewrite Hkey. unfold _get_key. rewrite Hother.
    cbn [dict_get]. destruct auth' as [|c rest].
    + destruct auth; [congruence|]. discriminate Hsame.
    + rewrite Hsame. reflexivity.
  - intros Hnone. rewrite Hkey.
    assert (Hip : exists rest, _get_key other = Py.lit "ip:" ++ rest).
    { unfold _get_key. destruct Hnone as [-> | ->]; cbn [dict_get];
        destruct (header_x_forwarded_for other) as [[|c f]|]; eexists; reflexivity. }
    destruct Hip as [rest ->]. discriminate.
Qed.

Lemma client_key_uses_fifty_characters_witness :
  _get_key {| header_authorization := Some (Py.lit "Bearer abc");
              header_x_forwarded_for := Some (Py.lit "10.0.0.1, 10.0.0.2");
              client_host := None |}
  = Py.lit "auth:Bearer abc".
Proof.
  apply (proj1 (client_key_uses_fifty_characters
                  {| header_authorization := Some (Py.lit "Bearer abc");
                     header_x_forwarded_for := Some (Py.lit "10.0.0.1, 10.0.0.2");
                     client_host := None |}
                  {| header_authorization := None; header_x_forwarded_for := None;
                     client_host := None |}
                  (Py.lit "Bearer abc") eq_refl ltac:(discriminate))).
Defined.

(** A request without the header is keyed by the first address of
    X-Forwarded-For, trimmed. *)
Example client_key_of_forwarded_request :
  _get_key {| header_authorization := None;
              header_x_forwarded_for := Some (Py.lit "10.0.0.1 , 10.0.0.2");
              client_host := Some (Py.lit "127.0.0.1") |}
  = Py.lit "ip:10.0.0.1".
Proof. reflexivity. Qed.
(** ** Log hygiene *)

(** X20: [sanitize_log_data] keeps each safe metadata field with its
    value and drops every other field; sanitising again changes
    nothing. *)
Theorem sanitize_log_data_keeps_safe_fields {V} (data : list (Py.str * V))
    (key : Py.str) :
  lookup key (sanitize_log_data data)
  = (if Py.mem key safe_fields then lookup key data else None)
  /\ (forall k v, In (k, v) (sanitize_log_data data) -> In k safe_fields)
  /\ sanitize_log_data (sanitize_log_data data) = sanitize_log_data data.
Proof.
  split; [|split].
  - unfold sanitize_log_data.
    induction data as [|[k v] data IH]; cbn [filter lookup fst].
    + destruct (Py.mem key safe_fields); reflexivity.
    + destruct (Py.mem k safe_fields) eqn:Hk; cbn [lookup].
      * destruct (Py.eqb key k) eqn:E; [|exact IH].
        apply eqb_eq in E. subst k. rewrite Hk. reflexivity.
      * rewrite IH. destruct (Py.eqb key k) eqn:E; [|reflexivity].
        apply eqb_eq in E. subst k. rewrite Hk. reflexivity.
  - intros k v H. apply filter_In in H. destruct H as [_ H]. apply mem_In. exact H.
  - unfold sanitize_log_data.
    induction data as [|[k v] data IH]; cbn [filter fst]; [reflexivity|].
    destruct (Py.mem k safe_fields) eqn:Hk; [|exact IH].
    cbn [filter fst]. rewrite Hk, IH. reflexivity.
Qed.

(** X21: the hint the audit log keeps of a bearer token shows the last
    eight characters of the token and nothing else: a token of at least
    fourteen characters has at least six of them hidden, and a shorter
    token is logged as anonymous. *)
Theorem user_hint_shows_eight_characters (request : RequestInfo) (token : Py.str) :
  header_authorization request = Some (Py.lit "Bearer " ++ token) ->
  (14 <= length token ->
   exists hidden shown,
     token = hidden ++ shown
     /\ length shown = 8
     /\ 6 <= length hidden
     /\ _extract_user_hint request = Py.lit "bearer_..." ++ shown)
  /\ (length token < 14 -> _extract_user_hint request = Py.lit "anonymous").
Proof.
  intros Hauth. unfold _extract_user_hint. rewrite Hauth. cbn [dict_get]. cbv zeta.
  change (Py.startswith (Py.lit "Bearer ") (Py.lit "Bearer " ++ token)) with true.
  cbn [andb]. rewrite length_app. change (length (Py.lit "Bearer ")) with 7.
  split.
  - intros Hlen. exists (firstn (length token - 8) token), (skipn (length token - 8) token).
    split; [symmetry; apply firstn_skipn|].
    split; [rewrite length_skipn; lia|]. split; [rewrite length_firstn; lia|].
    destruct (Nat.ltb_spec 20 (7 + length token)) as [_|H]; [|lia].
    rewrite (last_n_app 8 (Py.lit "Bearer ") token) by lia. reflexivity.
  - intros Hlen. destruct (Nat.ltb_spec 20 (7 + length token)) as [H|_]; [lia|].
    reflexivity.
Qed.

Lemma user_hint_shows_eight_characters_witness :
  _extract_user_hint
    {| header_authorization := Some (Py.lit "Bearer eyJhbGciOi.payload.signature");
       header_x_forwarded_for := None; client_host := None |}
  = Py.lit "bearer_...ignature".
Proof.
  destruct (proj1 (user_hint_shows_eight_characters
                     {| header_authorization :=
                          Some (Py.lit "Bearer eyJhbGciOi.payload.signature");
                        header_x_forwarded_for := None; client_host := None |}
                     (Py.lit "eyJhbGciOi.payload.signature") eq_refl))
    as (hidden & shown & _ & _ & _ & E).
  - vm_compute. lia.
  - vm_compute. reflexivity.
Defined.
(** ** The original agents *)

Lemma format_from_escaped (kwargs : list (Py.str * Py.str)) (text rest : Py.str) :
  format_from kwargs (escape_braces text ++ rest) InText
  = on_ok (app text) (format_from kwargs rest InText).
Proof.
  unfold escape_braces.
  induction text as [|c text IH]; cbn [flat_map app].
  - destruct (format_from kwargs rest InText); reflexivity.
  - rewrite <- app_assoc.
    destruct (N.eqb c lbrace) eqn:El; cbn [orb app format_from].
    + rewrite !El, IH. apply N.eqb_eq in El. subst c.
      destruct (format_from kwargs rest InText); reflexivity.
    + destruct (N.eqb c rbrace) eqn:Er; cbn [app format_from]; rewrite ?El, ?Er, IH.
      * apply N.eqb_eq in Er. subst c.
        destruct (format_from kwargs rest InText); reflexivity.
      * destruct (format_from kwargs rest InText); reflexivity.
Qed.

Lemma absent_by_scan (c : Py.char) (text : Py.str) :
  existsb (N.eqb c) text = false -> ~ In c text.
Proof.
  intros E H. assert (existsb (N.eqb c) text = true) as E'.
  { apply existsb_exists. exists c. split; [exact H|apply N.eqb_refl]. }
  rewrite E in E'. discriminate E'.
Qed.

Lemma legacy_pieces_brace_free :
  (~ In lbrace legacy_team_opening /\ ~ In rbrace legacy_team_opening)
  /\ (~ In lbrace legacy_team_before_psychologist
      /\ ~ In rbrace legacy_team_before_psychologist)
  /\ (~ In lbrace legacy_team_before_pulmonologist
      /\ ~ In rbrace legacy_team_before_pulmonologist)
  /\ (~ In lbrace legacy_team_closing /\ ~ In rbrace legacy_team_closing).
Proof.
  repeat split; apply absent_by_scan; vm_compute; reflexivity.
Qed.

Lemma agent_run_eq (port : Port) (site : CallSite) (self : Agent) (log : Log) :
  agent_run port site self log
  = match format (agent_prompt_template self)
            [(Py.lit "medical_report", str_of (agent_medical_report self))] with
    | Ok directive =>
        (Ok (reply_of (port site directive)), log ++ [legacy_call site directive])
    | Raise e => (Raise e, log)
    end.
Proof.
  unfold agent_run, bind, lift, try_except, ret, reply_of, legacy_call.
  destruct (format _ _) as [directive|e]; [|reflexivity].
  destruct (port site directive); reflexivity.
Qed.

Lemma legacy_team_run (port : Port) (site : CallSite)
    (cardiologist_report psychologist_report pulmonologist_report : option Py.str) :
  exists agent,
    MultidisciplinaryTeam cardiologist_report psychologist_report pulmonologist_report
    = Returned agent
    /\ forall log,
         let directive :=
           legacy_team_directive (str_of cardiologist_report)
             (str_of psychologist_report) (str_of pulmonologist_report) in
         agent_run port site agent log
         = (Ok (reply_of (port site directive)), log ++ [legacy_call site directive]).
Proof.
  destruct legacy_pieces_brace_free as ((O1 & O2) & (P1 & P2) & (Q1 & Q2) & (C1 & C2)).
  eexists. split; [reflexivity|]. intros log directive.
  rewrite agent_run_eq. cbn [agent_prompt_template agent_medical_report].
  change (lookup (Py.lit "cardiologist_report") _) with (Some cardiologist_report).
  change (lookup (Py.lit "psychologist_report") _) with (Some psychologist_report).
  change (lookup (Py.lit "pulmonologist_report") _) with (Some pulmonologist_report).
  rewrite !escape_braces_replace. unfold format.
  rewrite (format_from_text _ _ _ O1 O2), format_from_escaped.
  rewrite (format_from_text _ _ _ P1 P2), format_from_escaped.
  rewrite (format_from_text _ _ _ Q1 Q2), format_from_escaped.
  rewrite <- (app_nil_r legacy_team_closing) at 1.
  rewrite (format_from_text _ _ _ C1 C2). cbn [format_from on_ok].
  rewrite app_nil_r. reflexivity.
Qed.

Lemma legacy_template_cut (role template : Py.str) :
  lookup role legacy_templates = Some template ->
  exists before after,
    template = before ++ Py.lit "{medical_report}" ++ after
    /\ forall report,
         format template [(Py.lit "medical_report", report)]
         = Ok (before ++ report ++ after).
Proof.
  intros H. apply lookup_some_in in H. unfold legacy_templates in H. cbn [In] in H.
  repeat (destruct H as [H|H];
          [injection H as _ <-;
           match goal with
           | |- context [?t = _ ++ Py.lit "{medical_report}" ++ _] =>
               exists (match Py.partition (Py.lit "{medical_report}") t with
                       | Some (a, _) => a | None => [] end),
                      (match Py.partition (Py.lit "{medical_report}") t with
                       | Some (_, b) => b | None => [] end)
           end;
           split; [vm_compute; reflexivity|intros report; vm_compute; reflexivity]|]).
  destruct H.
Qed.

Lemma legacy_specialist_agent (port : Port) (site : CallSite)
    (medical_report : option Py.str) (role template : Py.str) :
  lookup role legacy_templates = Some template ->
  let agent := {| agent_medical_report := medical_report;
                  agent_role := Some role;
                  agent_extra_info := None;
                  agent_prompt_template := template |} in
  new_agent medical_report (Some role) None = Returned agent
  /\ forall log,
       let directive := legacy_directive template (str_of medical_report) in
       agent_run port site agent log
       = (Ok (reply_of (port site directive)), log ++ [legacy_call site directive]).
Proof.
  intros H agent. split.
  - apply lookup_some_in in H. unfold legacy_templates in H. cbn [In] in H.
    destruct H as [H|[H|[H|[]]]]; injection H as <- <-; reflexivity.
  - intros log directive. rewrite agent_run_eq.
    cbn [agent agent_prompt_template agent_medical_report].
    destruct (legacy_template_cut role template H) as (before & after & _ & Hformat).
    unfold directive, legacy_directive. rewrite Hformat. reflexivity.
Qed.

(** X22: the team of the original agents sends the three reports as
    they are, whatever braces they hold, a missing report as the text
    None; the run makes one call and never raises, and a failed call
    gives None. *)
Theorem legacy_team_directive_carries_reports (port : Port) (site : CallSite)
    (cardiologist_report psychologist_report pulmonologist_report : option Py.str) :
  exists agent,
    MultidisciplinaryTeam cardiologist_report psychologist_report pulmonologist_report
    = Returned agent
    /\ forall log,
         let directive :=
           legacy_team_opening ++ str_of cardiologist_report
             ++ legacy_team_before_psychologist ++ str_of psychologist_report
             ++ legacy_team_before_pulmonologist ++ str_of pulmonologist_report
             ++ legacy_team_closing in
         agent_run port site agent log
         = (Ok (match port site directive with
                | Returns content => Some (flatten_content content)
                | Throws _ => None
                end),
            log ++ [{| inv_site := site; inv_model := legacy_model;
                       inv_prompt := directive |}]).
Proof.
  exact (legacy_team_run port site cardiologist_report psychologist_report
           pulmonologist_report).
Qed.

(** X23: a specialist of the original agents sends its template with
    the placeholder replaced by the report as it is, or by the text None
    when it was created without a report; the run makes one call and
    never raises, and a failed call gives None. *)
Theorem legacy_specialist_run (port : Port) (site : CallSite)
    (medical_report : option Py.str) (role template : Py.str) :
  lookup role legacy_templates = Some template ->
  exists agent before after,
    new_agent medical_report (Some role) None = Returned agent
    /\ template = before ++ Py.lit "{medical_report}" ++ after
    /\ forall log,
         let directive := before ++ str_of medical_report ++ after in
         agent_run port site agent log
         = (Ok (match port site directive with
                | Returns content => Some (flatten_content content)
                | Throws _ => None
                end),
            log ++ [{| inv_site := site; inv_model := legacy_model;
                       inv_prompt := directive |}]).
Proof.
  intros H.
  destruct (legacy_specialist_agent port site medical_report role template H)
    as (Hnew & Hrun).
  destruct (legacy_template_cut role template H) as (before & after & Ht & Hformat).
  eexists. exists before, after. split; [exact Hnew|]. split; [exact Ht|].
  intros log directive. rewrite Hrun. unfold legacy_directive. rewrite Hformat.
  reflexivity.
Qed.

Lemma legacy_specialist_run_witness :
  exists agent before after,
    Psychologist (Py.lit "sleeps {badly}") = Returned agent
    /\ agent_run (port_failing (Py.lit "quota")) (SpecialistCall 1) agent []
       = (Ok None,
          [{| inv_site := SpecialistCall 1; inv_model := legacy_model;
              inv_prompt := before ++ Py.lit "sleeps {badly}" ++ after |}]).
Proof.
  destruct (legacy_specialist_run (port_failing (Py.lit "quota")) (SpecialistCall 1)
              (Some (Py.lit "sleeps {badly}")) (Py.lit "Psychologist")
              legacy_Psychologist_template eq_refl)
    as (agent & before & after & Hnew & _ & Hrun).
  exists agent, before, after. split; [exact Hnew|]. exact (Hrun []).
Defined.

(** An unknown role, or a team without its reports, cannot be created. *)
Lemma legacy_unknown_role (medical_report : option Py.str) (role : Py.str)
    (extra_info : option (list (Py.str * option Py.str))) :
  role <> Py.lit "MultidisciplinaryTeam" ->
  lookup role legacy_templates = None ->
  new_agent medical_report (Some role) extra_info
  = Failed (PythonError "KeyError" (Py.lit "'" ++ role ++ Py.lit "'")).
Proof.
  intros Hrole H. unfold new_agent, create_prompt_template.
  destruct (Py.eqb role (Py.lit "MultidisciplinaryTeam")) eqn:E.
  - apply eqb_eq in E. contradiction.
  - rewrite H. reflexivity.
Qed.
(** ** The command-line script *)

Lemma as_completed_In (n : nat) (order seen : list nat) (x : nat) :
  In x (as_completed n order seen) <-> In x order /\ x < n /\ ~ In x seen.
Proof.
  revert seen. induction order as [|i rest IH]; intros seen; cbn [as_completed In].
  - tauto.
  - destruct (Nat.ltb_spec i n) as [Hlt|Hge]; cbn [andb].
    + destruct (existsb (Nat.eqb i) seen) eqn:E; cbn [negb].
      * apply existsb_exists in E. destruct E as (j & Hj & Eij).
        apply Nat.eqb_eq in Eij. subst j. rewrite IH. split.
        -- intros (H1 & H2 & H3). auto.
        -- intros ([->|H1] & H2 & H3); [contradiction|auto].
      * assert (~ In i seen) as Hi.
        { intros Hi. assert (existsb (Nat.eqb i) seen = true) as E'.
          { apply existsb_exists. exists i. split; [exact Hi|apply Nat.eqb_refl]. }
          rewrite E in E'. discriminate E'. }
        cbn [In]. rewrite IH. cbn [In]. split.
        -- intros [->|(H1 & H2 & H3)]; [auto|]. split; [right; exact H1|].
           split; [exact H2|]. intros H. apply H3. right. exact H.
        -- intros ([->|H1] & H2 & H3); [left; reflexivity|].
           destruct (Nat.eq_dec i x) as [->|Hne]; [left; reflexivity|].
           right. split; [exact H1|]. split; [exact H2|].
           intros [H|H]; [contradiction|contradiction].
    + rewrite IH. split.
      * intros (H1 & H2 & H3). auto.
      * intros ([->|H1] & H2 & H3); [lia|auto].
Qed.

Lemma as_completed_NoDup (n : nat) (order seen : list nat) :
  NoDup (as_completed n order seen).
Proof.
  revert seen. induction order as [|i rest IH]; intros seen; cbn [as_completed].
  - constructor.
  - destruct (Nat.ltb i n && negb (existsb (Nat.eqb i) seen)); [|apply IH].
    constructor; [|apply IH]. rewrite as_completed_In. intros (_ & _ & H).
    apply H. left. reflexivity.
Qed.

Lemma as_completed_all (n : nat) (order : list nat) :
  Permutation (as_completed n (order ++ seq 0 n) []) (seq 0 n).
Proof.
  apply NoDup_Permutation; [apply as_completed_NoDup|apply seq_NoDup|].
  intros x. split.
  - intros H. apply as_completed_In in H. destruct H as (_ & H & _).
    apply in_seq. lia.
  - intros H. apply in_seq in H. apply as_completed_In.
    split; [apply in_or_app; right; apply in_seq; lia|]. split; [lia|]. intros [].
Qed.

Lemma three_in_some_order (l : list nat) :
  Permutation l [0; 1; 2] ->
  l = [0; 1; 2] \/ l = [0; 2; 1] \/ l = [1; 0; 2]
  \/ l = [1; 2; 0] \/ l = [2; 0; 1] \/ l = [2; 1; 0].
Proof.
  intros H. pose proof (Permutation_length H) as Hlen.
  assert (NoDup l) as Hnd.
  { apply (Permutation_NoDup (Permutation_sym H)). apply (seq_NoDup 3 0). }
  assert (forall x, In x l -> x = 0 \/ x = 1 \/ x = 2) as Hin.
  { intros x Hx. apply (Permutation_in _ H) in Hx. cbn [In] in Hx. lia. }
  destruct l as [|a [|b [|c [|d l]]]]; try discriminate Hlen.
  inversion Hnd as [|? ? Ha Hnd']. inversion Hnd' as [|? ? Hb _]. subst.
  cbn [In] in Ha, Hb.
  assert (a = 0 \/ a = 1 \/ a = 2) as Ea by (apply Hin; left; reflexivity).
  assert (b = 0 \/ b = 1 \/ b = 2) as Eb by (apply Hin; right; left; reflexivity).
  assert (c = 0 \/ c = 1 \/ c = 2) as Ec
    by (apply Hin; right; right; left; reflexivity).
  assert (a <> b /\ a <> c /\ b <> c) as (Hab & Hac & Hbc).
  { repeat split; intros E; subst;
      [apply Ha; left; reflexivity|apply Ha; right; left; reflexivity
      |apply Hb; left; reflexivity]. }
  destruct Ea as [-> | [-> | ->] ]; destruct Eb as [-> | [-> | ->] ];
    destruct Ec as [-> | [-> | ->] ]; try contradiction; tauto.
Qed.

Lemma get_response_eq (port : Port) (slot : nat) (agent_name : Py.str)
    (medical_report : option Py.str) (role template : Py.str) (log : Log) :
  lookup role legacy_templates = Some template ->
  get_response port slot agent_name
    {| agent_medical_report := medical_report; agent_role := Some role;
       agent_extra_info := None; agent_prompt_template := template |} log
  = (Ok (agent_name,
         reply_of (port (SpecialistCall slot)
                     (legacy_directive template (str_of medical_report)))),
     log ++ [legacy_call (SpecialistCall slot)
               (legacy_directive template (str_of medical_report))]).
Proof.
  intros H. unfold get_response, bind.
  destruct (legacy_specialist_agent port (SpecialistCall slot) medical_report
              role template H) as (_ & Hrun).
  rewrite Hrun. reflexivity.
Qed.

(** X24: the script asks each of the three specialists once, in the
    order they happen to finish, then the team with the three answers,
    a failed specialist standing as the text None.  It writes the
    team's answer normalised; when the team's call fails it stops on an
    attribute error and writes nothing. *)
Theorem script_writes_team_answer_or_stops (port : Port)
    (completion_order : list nat) (medical_report : Py.str) :
  let ask slot template :=
    legacy_call (SpecialistCall slot) (legacy_directive template medical_report) in
  let answer slot template :=
    str_of (reply_of (port (SpecialistCall slot)
                        (legacy_directive template medical_report))) in
  let directive :=
    legacy_team_directive (answer 0 legacy_Cardiologist_template)
      (answer 1 legacy_Psychologist_template)
      (answer 2 legacy_Pulmonologist_template) in
  exists calls,
    Permutation calls [ask 0 legacy_Cardiologist_template;
                       ask 1 legacy_Psychologist_template;
                       ask 2 legacy_Pulmonologist_template]
    /\ main_script port completion_order medical_report []
       = (Ok (match port TeamCall directive with
              | Returns content => Returned (_sanitize_text (flatten_content content))
              | Throws _ =>
                  Failed (PythonError "AttributeError"
                            (Py.lit "'NoneType' object has no attribute 'replace'"))
              end),
          calls ++ [legacy_call TeamCall directive]).
Proof.
  intros ask answer directive.
  pose proof (as_completed_all 3 completion_order) as Hperm.
  pose proof (three_in_some_order _ Hperm) as Hsix.
  exists (map (fun i => nth i [ask 0 legacy_Cardiologist_template;
                               ask 1 legacy_Psychologist_template;
                               ask 2 legacy_Pulmonologist_template]
                          (ask 0 legacy_Cardiologist_template))
            (as_completed 3 (completion_order ++ seq 0 3) [])).
  split; [exact (Permutation_map _ Hperm)|]. clear Hperm.
  unfold main_script.
  change (Cardiologist medical_report)
    with (Returned {| agent_medical_report := Some medical_report;
                      agent_role := Some (Py.lit "Cardiologist");
                      agent_extra_info := None;
                      agent_prompt_template := legacy_Cardiologist_template |}).
  change (Psychologist medical_report)
    with (Returned {| agent_medical_report := Some medical_report;
                      agent_role := Some (Py.lit "Psychologist");
                      agent_extra_info := None;
                      agent_prompt_template := legacy_Psychologist_template |}).
  change (Pulmonologist medical_report)
    with (Returned {| agent_medical_report := Some medical_report;
                      agent_role := Some (Py.lit "Pulmonologist");
                      agent_extra_info := None;
                      agent_prompt_template := legacy_Pulmonologist_template |}).
  cbv iota zeta. cbn [length]. unfold bind at 1.
  assert (forall c p q log,
            (match MultidisciplinaryTeam c p q with
             | Returned team_agent =>
                 final_diagnosis <- agent_run port TeamCall team_agent ;;
                 ret (sanitize_text final_diagnosis)
             | Failed failure => ret (Failed failure)
             end) log
            = (Ok (match port TeamCall
                           (legacy_team_directive (str_of c) (str_of p) (str_of q)) with
                   | Returns content =>
                       Returned (_sanitize_text (flatten_content content))
                   | Throws _ =>
                       Failed (PythonError "AttributeError"
                                 (Py.lit "'NoneType' object has no attribute 'replace'"))
                   end),
               log ++ [legacy_call TeamCall
                         (legacy_team_directive (str_of c) (str_of p) (str_of q))]))
    as Hteam.
  { intros c p q log.
    destruct (legacy_team_run port TeamCall c p q) as (agent & -> & Hrun).
    unfold bind. rewrite Hrun. unfold ret, reply_of, sanitize_text, _sanitize_text.
    destruct (port TeamCall _); reflexivity. }
  pose proof (fun name log =>
                get_response_eq port 0 name (Some medical_report)
                  (Py.lit "Cardiologist") legacy_Cardiologist_template log eq_refl)
    as H0.
  pose proof (fun name log =>
                get_response_eq port 1 name (Some medical_report)
                  (Py.lit "Psychologist") legacy_Psychologist_template log eq_refl)
    as H1.
  pose proof (fun name log =>
                get_response_eq port 2 name (Some medical_report)
                  (Py.lit "Pulmonologist") legacy_Pulmonologist_template log eq_refl)
    as H2.
  cbn [str_of] in H0, H1, H2.
  unfold directive, answer, ask. clear directive answer ask.
  revert H0 H1 H2 Hteam.
  generalize (reply_of (port (SpecialistCall 0)
                          (legacy_directive legacy_Cardiologist_template medical_report))).
  generalize (reply_of (port (SpecialistCall 1)
                          (legacy_directive legacy_Psychologist_template medical_report))).
  generalize (reply_of (port (SpecialistCall 2)
                          (legacy_directive legacy_Pulmonologist_template medical_report))).
  intros r2 r1 r0 H0 H1 H2 Hteam.
  destruct Hsix as [E|[E|[E|[E|[E|E]]]]]; rewrite E; clear E;
    cbn [run_workers nth_error map nth];
    rewrite ?H0, ?H1, ?H2, ?H0, ?H1, ?H2, ?H0, ?H1, ?H2;
    cbn [app]; unfold bind, lift; cbn [collect_responses];
    repeat match goal with
           | |- context [get_item ?k ?d] =>
               let v := eval vm_compute in (get_item k d) in
               change (get_item k d) with v
           end;
    cbv iota; exact (Hteam r0 r1 r2 _).
Qed.
(** ** Text for the PDF report *)

Lemma pdf_replacements_one_char : one_char_keys pdf_replacements.
Proof.
  unfold one_char_keys, pdf_replacements. repeat constructor; eexists; reflexivity.
Qed.

Lemma sanitize_for_pdf_character (c : Py.char) :
  _sanitize_for_pdf [c] = pdf_character c.
Proof.
  destruct (in_dec N.eq_dec c (flat_map fst pdf_replacements)) as [H|H].
  - cbn in H. repeat (destruct H as [<-|H]; [vm_compute; reflexivity|]). destruct H.
  - unfold _sanitize_for_pdf, pdf_character.
    rewrite (fold_replace_other pdf_replacements c pdf_replacements_one_char H).
    rewrite lookup_none; [reflexivity|].
    intros Hin. apply H. apply in_map_iff in Hin.
    destruct Hin as ([k v] & Hk & Hkv). cbn [fst] in Hk. subst k.
    apply in_flat_map. exists ([c], v). split; [exact Hkv|left; reflexivity].
Qed.

Lemma pdf_character_safe (c u : Py.char) :
  In u (Py.lit "<>") -> ~ In u (pdf_character c).
Proof.
  intros Hu. destruct (in_dec N.eq_dec c (flat_map fst pdf_replacements)) as [H|H].
  - cbn in H, Hu.
    repeat (destruct H as [<-|H];
            [vm_compute; destruct Hu as [<-|[<-|[]]]; intuition discriminate|]).
    destruct H.
  - unfold pdf_character. rewrite lookup_none.
    + intros [<-|[]]. apply H. cbn. cbn in Hu. destruct Hu as [<-|[<-|[]]]; tauto.
    + intros Hin. apply H. apply in_map_iff in Hin.
      destruct Hin as ([k v] & Hk & Hkv). cbn [fst] in Hk. subst k.
      apply in_flat_map. exists ([c], v). split; [exact Hkv|left; reflexivity].
Qed.

(** X25: the text prepared for the PDF is the input with each
    character replaced once by what the table gives for it: an
    ampersand that stands for a bracket is not escaped again, and no
    angle bracket is left. *)
Theorem sanitize_for_pdf_escapes_once (text : Py.str) :
  _sanitize_for_pdf text = flat_map pdf_character text
  /\ ~ In 60%N (_sanitize_for_pdf text)
  /\ ~ In 62%N (_sanitize_for_pdf text).
Proof.
  assert (_sanitize_for_pdf text = flat_map pdf_character text) as E.
  { induction text as [|c text IH].
    - apply (fold_replace_nil pdf_replacements pdf_replacements_one_char).
    - change (c :: text) with ([c] ++ text). unfold _sanitize_for_pdf.
      rewrite (fold_replace_app pdf_replacements pdf_replacements_one_char).
      fold (_sanitize_for_pdf [c]). fold (_sanitize_for_pdf text).
      rewrite IH, sanitize_for_pdf_character. reflexivity. }
  split; [exact E|]. rewrite E.
  split; intros H; apply in_flat_map in H; destruct H as (c & _ & H);
    revert H; apply pdf_character_safe; cbn; tauto.
Qed.

(** Unlike the normalisation of the engine, this one is not to be
    applied twice. *)
Example sanitize_for_pdf_twice :
  _sanitize_for_pdf (_sanitize_for_pdf (Py.lit "a<b")) = Py.lit "a&amp;lt;b".
Proof. vm_compute. reflexivity. Qed.
(** ** Usage tracking *)

Lemma objectid_sub_skip (matched rest : Py.str) :
  objectid_sub_from (matched ++ rest) (length matched) = objectid_sub_from rest 0.
Proof.
  induction matched as [|c matched IH]; cbn [app length objectid_sub_from].
  - destruct rest; reflexivity.
  - exact IH.
Qed.

Lemma objectid_chars_split (n : nat) (s : Py.str) :
  objectid_chars n s = true ->
  exists matched rest, s = matched ++ rest /\ length matched = n.
Proof.
  revert s. induction n as [|n IH]; intros s H.
  - exists [], s. split; reflexivity.
  - destruct s as [|c s]; [discriminate H|]. cbn [objectid_chars] in H.
    apply andb_true_iff in H. destruct H as (_ & H).
    destruct (IH s H) as (matched & rest & -> & Hlen).
    exists (c :: matched), rest. split; [reflexivity|]. cbn [length]. rewrite Hlen.
    reflexivity.
Qed.

Lemma objectid_sub_cons (c : Py.char) (path : Py.str) :
  objectid_sub (c :: path)
  = if N.eqb c 47 && objectid_chars 24 path
    then Py.lit "/{id}" ++ objectid_sub (skipn 24 path)
    else c :: objectid_sub path.
Proof.
  unfold objectid_sub. cbn [objectid_sub_from].
  destruct (N.eqb c 47 && objectid_chars 24 path) eqn:E; [|reflexivity].
  apply andb_true_iff in E. destruct E as (_ & E).
  destruct (objectid_chars_split 24 path E) as (matched & rest & -> & Hlen).
  rewrite <- Hlen at 1. rewrite objectid_sub_skip.
  rewrite <- Hlen, skipn_app, skipn_all, Nat.sub_diag. reflexivity.
Qed.

(** Substitution leaves a run of characters of the class as it is. *)
Lemma objectid_chars_sub (n : nat) (path : Py.str) :
  objectid_chars n (objectid_sub path) = objectid_chars n path.
Proof.
  revert path. induction n as [|n IH]; intros path; [reflexivity|].
  destruct path as [|c path]; [reflexivity|]. rewrite objectid_sub_cons.
  destruct (N.eqb_spec c 47) as [->|Hc]; cbn [andb].
  - destruct (objectid_chars 24 path); reflexivity.
  - cbn [objectid_chars]. rewrite IH. reflexivity.
Qed.

Lemma objectid_sub_stable_upto (n : nat) (path : Py.str) :
  length path <= n -> objectid_sub (objectid_sub path) = objectid_sub path.
Proof.
  revert path. induction n as [|n IH]; intros path Hlen.
  - destruct path; [reflexivity|cbn [length] in Hlen; lia].
  - destruct path as [|c path]; [reflexivity|]. cbn [length] in Hlen.
    rewrite objectid_sub_cons.
    destruct (N.eqb c 47 && objectid_chars 24 path) eqn:E.
    + change (Py.lit "/{id}" ++ objectid_sub (skipn 24 path))
        with (47%N :: 123%N :: 105%N :: 100%N :: 125%N :: objectid_sub (skipn 24 path)).
      rewrite objectid_sub_cons. cbn [objectid_chars is_objectid_char].
      change (N.eqb 47 47 && _) with false. cbv iota.
      do 4 (rewrite objectid_sub_cons; cbn [N.eqb andb]; cbv iota).
      rewrite IH; [reflexivity|]. rewrite length_skipn. lia.
    + rewrite objectid_sub_cons, objectid_chars_sub, E, IH; [reflexivity|lia].
Qed.

Lemma objectid_sub_stable (path : Py.str) :
  objectid_sub (objectid_sub path) = objectid_sub path.
Proof. apply (objectid_sub_stable_upto (length path)). apply Nat.le_refl. Qed.

Lemma objectid_sub_keeps_api (path : Py.str) :
  Py.startswith (Py.lit "/api/") path = true ->
  Py.startswith (Py.lit "/api/") (objectid_sub path) = true.
Proof.
  intros H.
  change (Py.lit "/api/") with [47%N; 97%N; 112%N; 105%N; 47%N] in H.
  destruct path as [|c0 [|c1 [|c2 [|c3 [|c4 rest]]]]]; cbn [Py.startswith] in H;
    repeat match type of H with
           | (N.eqb ?a ?b && _) = true =>
               destruct (N.eqb_spec a b); cbn [andb] in H
           end;
    try discriminate H.
  subst. rewrite objectid_sub_cons. cbn [objectid_chars is_objectid_char].
  change (N.eqb 47 47 && _) with false. cbv iota.
  do 3 (rewrite objectid_sub_cons; cbn [N.eqb andb]; cbv iota).
  rewrite objectid_sub_cons.
  destruct (N.eqb 47 47 && objectid_chars 24 rest); reflexivity.
Qed.

(** X26: a request is counted exactly when its path starts with
    /api/; its key is the method, a space and the path with every slash
    followed by twenty-four characters of the identifier class replaced;
    the path in the key still starts with /api/ and holds nothing left
    to replace. *)
Theorem endpoint_key_is_normal (method path : Py.str) :
  (Py.startswith (Py.lit "/api/") path = false -> endpoint_key method path = None)
  /\ (Py.startswith (Py.lit "/api/") path = true ->
      endpoint_key method path = Some (method ++ Py.lit " " ++ objectid_sub path)
      /\ Py.startswith (Py.lit "/api/") (objectid_sub path) = true
      /\ objectid_sub (objectid_sub path) = objectid_sub path).
Proof.
  unfold endpoint_key. split; intros H; rewrite H.
  - rewrite orb_true_r. reflexivity.
  - assert (Py.mem path SKIP_PATHS = false) as ->.
    { apply mem_false. unfold SKIP_PATHS. intros Hin. cbn [In] in Hin.
      repeat (destruct Hin as [<-|Hin]; [discriminate H|]). destruct Hin. }
    cbn [orb negb]. split; [reflexivity|].
    split; [apply objectid_sub_keeps_api; exact H|apply objectid_sub_stable].
Qed.

Lemma endpoint_key_is_normal_witness :
  endpoint_key (Py.lit "GET") (Py.lit "/api/diagnosis/65f1c0de9a8b7c6d5e4f3a2b/pdf")
  = Some (Py.lit "GET /api/diagnosis/{id}/pdf").
Proof.
  destruct (proj2 (endpoint_key_is_normal (Py.lit "GET")
                     (Py.lit "/api/diagnosis/65f1c0de9a8b7c6d5e4f3a2b/pdf")) eq_refl)
    as (E & _).
  rewrite E. vm_compute. reflexivity.
Defined.
